(** * TicketBottle V2: the transactional outbox of the payment Lambdas

    A shallow embedding of three Lambda functions of the repository:
    - the payment webhook handler (callback verification for ZaloPay and
      PayOS, then the payment update and the outbox insert in one
      transaction),
    - the outbox processor (batch selection, publication to Kafka, the
      per-entry bookkeeping of retries),
    - the outbox cleanup (retention delete and the report of entries that
      used up their retries).

    JavaScript values are a small inductive type; the relational store is
    a record of tables threaded through a state-and-exception monad; the
    services outside the program (HMAC, JSON parsing, the clock, the
    broker, storage faults) are arguments of the functions. *)

From Stdlib Require Import List String Ascii ZArith Lia Bool Arith.
From Stdlib Require Import Permutation Sorted DecimalString.
From Stdlib Require DecimalPos.
Import ListNotations.

Set Warnings "-register-all".

Local Open Scope string_scope.
Local Open Scope Z_scope.

(* ================================================================== *)
(** ** JavaScript values and the built-ins the handlers use *)
(* ================================================================== *)

Module JS.

(** Numbers are the integers (the callbacks and the store carry amounts,
    codes and counters; a document with a fraction is outside what is
    modelled), and an integer beyond the safe ones stands for the Number
    nearest to it.  Strings are sequences of code units below 256. *)
Inductive jsval : Type :=
| JUndefined
| JNull
| JBool (b : bool)
| JNum (n : Z)
| JStr (s : string)
| JArr (elems : list jsval)
| JObj (fields : list (string * jsval)).

(** A thrown value: an [Error] and its [message], when it has one. *)
Record exn : Type := Error { message : option string }.

Inductive result (A : Type) : Type :=
| Ok (a : A)
| Throw (e : exn).
Arguments Ok {A} a.
Arguments Throw {A} e.

Definition TypeError (m : string) : exn := Error (Some m).
Definition SyntaxError (m : string) : exn := Error (Some m).

(** [!v] is [negb (truthy v)]. *)
Definition truthy (v : jsval) : bool :=
  match v with
  | JUndefined | JNull => false
  | JBool b => b
  | JNum n => negb (n =? 0)
  | JStr s => negb (s =? "")%string
  | JArr _ | JObj _ => true
  end.

Definition truthy_str (s : string) : bool := negb (s =? "")%string.

Definition string_of_Z (n : Z) : string :=
  NilZero.string_of_int (Z.to_int n).

Definition string_of_nat (n : nat) : string :=
  NilZero.string_of_uint (Nat.to_uint n).

(** [Array.prototype.join]. *)
Fixpoint join (sep : string) (l : list string) : string :=
  match l with
  | [] => ""
  | [x] => x
  | x :: rest => x ++ sep ++ join sep rest
  end.

Fixpoint lookup {A : Type} (k : string) (l : list (string * A)) : option A :=
  match l with
  | [] => None
  | (k', v) :: rest => if (k' =? k)%string then Some v else lookup k rest
  end.

Section MapM.
Context {A B : Type} (f : A -> result B).

(** [arr.map(f)] with a callback that may throw: the first throw ends
    the loop. *)
Fixpoint mapM (l : list A) : result (list B) :=
  match l with
  | [] => Ok []
  | x :: rest =>
      match f x with
      | Ok y => match mapM rest with
                | Ok ys => Ok (y :: ys)
                | Throw e => Throw e
                end
      | Throw e => Throw e
      end
  end.
End MapM.

Definition MAX_SAFE_INTEGER : Z := 9007199254740991.

Section Conversion.
(** [Number.prototype.toString] beyond the safe integers, where the
    engine chooses the digits (the shortest that read back as the same
    Number) and, from 10^21 on, the exponent form. *)
Variable Number_toString : Z -> string.

(** The text of a number: its decimal digits for a safe integer. *)
Definition number_text (n : Z) : string :=
  if Z.abs n <=? MAX_SAFE_INTEGER then string_of_Z n else Number_toString n.

(** String conversion, as a template literal does it.  A parsed object
    is converted by the [toString] it inherits, unless it has a property
    of that name of its own: that is not a function, and neither it nor
    [valueOf] gives a primitive, so the conversion throws a TypeError.
    An array is joined, its elements converted in turn. *)
Fixpoint toString (v : jsval) : result string :=
  match v with
  | JUndefined => Ok "undefined"
  | JNull => Ok "null"
  | JBool true => Ok "true"
  | JBool false => Ok "false"
  | JNum n => Ok (number_text n)
  | JStr s => Ok s
  | JArr l =>
      match mapM (fun x => match x with
                           | JUndefined | JNull => Ok ""
                           | _ => toString x
                           end) l with
      | Ok parts => Ok (join "," parts)
      | Throw e => Throw e
      end
  | JObj fields =>
      match lookup "toString" fields with
      | Some _ => Throw (TypeError "Cannot convert object to primitive value")
      | None => Ok "[object Object]"
      end
  end.

(** [v.toString()] on a value that is neither [null] nor [undefined]:
    the same text; on an object with a [toString] property of its own
    the call fails, that property being no function. *)
Definition call_toString (v : jsval) : result string :=
  match v with
  | JObj fields =>
      match lookup "toString" fields with
      | Some _ => Throw (TypeError "toString is not a function")
      | None => Ok "[object Object]"
      end
  | _ => toString v
  end.

End Conversion.

Fixpoint indexed {A : Type} (i : nat) (l : list A) : list (string * A) :=
  match l with
  | [] => []
  | x :: rest => (string_of_nat i, x) :: indexed (S i) rest
  end.

Fixpoint chars (s : string) : list jsval :=
  match s with
  | EmptyString => []
  | String c rest => JStr (String c EmptyString) :: chars rest
  end.

(** The own enumerable properties of a value, in the engine's order. *)
Definition entries (v : jsval) : list (string * jsval) :=
  match v with
  | JObj fields => fields
  | JArr l => indexed 0 l
  | JStr s => indexed 0 (chars s)
  | _ => []
  end.

(** [Object.keys(v)] (the callers only pass truthy values). *)
Definition keys (v : jsval) : list string := map fst (entries v).

(** [v[k]] for a value that is neither [null] nor [undefined]. *)
Definition index (v : jsval) (k : string) : jsval :=
  match lookup k (entries v) with
  | Some x => x
  | None => JUndefined
  end.

(** [v.k]: a [TypeError] on [null] and [undefined]. *)
Definition get (v : jsval) (k : string) : result jsval :=
  match v with
  | JUndefined =>
      Throw (TypeError "Cannot read properties of undefined")
  | JNull =>
      Throw (TypeError "Cannot read properties of null")
  | _ => Ok (index v k)
  end.

(** [s.split(sep)] for a one-character separator. *)
Fixpoint split (sep : ascii) (s : string) : list string :=
  match s with
  | EmptyString => [EmptyString]
  | String c rest =>
      if Ascii.eqb c sep then EmptyString :: split sep rest
      else match split sep rest with
           | [] => [String c EmptyString]
           | seg :: segs => String c seg :: segs
           end
  end.

(** Whether the character occurs in the string. *)
Fixpoint has_char (c : ascii) (s : string) : bool :=
  match s with
  | EmptyString => false
  | String c' rest => Ascii.eqb c' c || has_char c rest
  end.

(** [s.includes(sub)]. *)
Fixpoint includes (sub s : string) : bool :=
  if String.prefix sub s then true
  else match s with
       | EmptyString => false
       | String _ rest => includes sub rest
       end.

(** [s.substring(0, n)]. *)
Definition substring0 (n : nat) (s : string) : string := String.substring 0 n s.

Section Sorting.
Context {A : Type} (leb : A -> A -> bool).

Fixpoint insert (x : A) (l : list A) : list A :=
  match l with
  | [] => [x]
  | y :: rest => if leb x y then x :: y :: rest else y :: insert x rest
  end.

(** A stable sort by [leb]; [Array.prototype.sort()] on strings and the
    store's [orderBy] are instances. *)
Fixpoint sortBy (l : list A) : list A :=
  match l with
  | [] => []
  | x :: rest => insert x (sortBy rest)
  end.
End Sorting.

(** [arr.sort()] on strings: ascending by code units. *)
Definition sort (l : list string) : list string := sortBy String.leb l.

End JS.

(* ================================================================== *)
(** ** The relational store behind the Prisma client *)
(* ================================================================== *)

Module Prisma.
Import JS.

Inductive PaymentStatus : Type := PENDING | COMPLETED | FAILED | CANCELED.

(** Timestamps are milliseconds since the epoch. *)
Definition Date : Type := Z.

Record Payment : Type := mkPayment {
  p_id : string;
  p_orderCode : string;
  p_amountCents : Z;
  p_currency : string;
  p_provider : string;
  p_status : PaymentStatus;
  p_providerTransactionId : option string;
  p_completedAt : option Date;
  p_failedAt : option Date
}.

Record Outbox : Type := mkOutbox {
  id : nat;
  aggregateId : string;
  aggregateType : string;
  eventType : string;
  payload : list (string * jsval);
  published : bool;
  publishedAt : option Date;
  retryCount : Z;
  lastError : option string;
  createdAt : Date
}.

(** Modelled from the spec: the schema of the store is not among the
    sources.  Its two tables; the outbox id is assigned by the store from
    a sequence (the spec: ids are monotonically orderable), so an id is
    never handed out twice, also after deletions. *)
Record Db : Type := mkDb {
  payments : list Payment;
  outbox : list Outbox;
  outbox_seq : nat
}.

(** The [data] of an [outbox.update] call, in its two shapes:
    [{ published: true, publishedAt }] and
    [{ retryCount: { increment: 1 }, lastError }]. *)
Inductive OutboxUpdateInput : Type :=
| SetPublished (publishedAt : Date)
| IncrementRetry (lastError : string).

(** The update is evaluated by the store on the row as it is then: the
    increment adds to the stored counter. *)
Definition apply_update (data : OutboxUpdateInput) (r : Outbox) : Outbox :=
  match data with
  | SetPublished t =>
      mkOutbox (id r) (aggregateId r) (aggregateType r) (eventType r)
               (payload r) true (Some t) (retryCount r) (lastError r)
               (createdAt r)
  | IncrementRetry err =>
      mkOutbox (id r) (aggregateId r) (aggregateType r) (eventType r)
               (payload r) (published r) (publishedAt r) (retryCount r + 1)
               (Some err) (createdAt r)
  end.

(** The requests the handlers send to the store. *)
Inductive DbOp : Type :=
| OpPaymentUpdate (orderCode : string)
| OpOutboxCreate (aggregateId : string)
| OpOutboxFindMany
| OpOutboxUpdate (id : nat) (data : OutboxUpdateInput)
| OpOutboxDeleteMany
| OpCommit.

(** What the store's side contributes to a request: whether it fails
    (connection lost, timeout, constraint) and the store's clock, which
    stamps [createdAt]. *)
Record DbEnv : Type := mkDbEnv {
  db_fault : DbOp -> bool;
  db_clock : Date
}.

Definition StorageError : exn := Error (Some "Can't reach database server").
Definition RecordNotFound : exn :=
  Error (Some "An operation failed because it depends on one or more records that were required but not found.").

(** Computations on the store that may throw. *)
Definition M (A : Type) : Type := Db -> result A * Db.

Definition ret {A : Type} (a : A) : M A := fun db => (Ok a, db).
Definition throw {A : Type} (e : exn) : M A := fun db => (Throw e, db).
Definition bind {A B : Type} (m : M A) (k : A -> M B) : M B :=
  fun db => match m db with
            | (Ok a, db') => k a db'
            | (Throw e, db') => (Throw e, db')
            end.
Definition lift {A : Type} (r : result A) : M A := fun db => (r, db).

(** [try { body } catch (e) { handler }]: the writes of [body] before the
    throw stay (outside a transaction each request commits by itself). *)
Definition try_catch {A : Type} (body : M A) (handler : exn -> M A) : M A :=
  fun db => match body db with
            | (Ok a, db') => (Ok a, db')
            | (Throw e, db') => handler e db'
            end.

Section Requests.
Variable env : DbEnv.

Definition request {A : Type} (op : DbOp) (run : M A) : M A :=
  fun db => if db_fault env op then (Throw StorageError, db) else run db.

(** [prisma.$transaction(async (tx) => body)]: the writes of [body] are
    kept when it returns and the commit goes through, and dropped when it
    throws. *)
Definition transaction {A : Type} (body : M A) : M A :=
  fun db => match body db with
            | (Ok a, db') =>
                if db_fault env OpCommit then (Throw StorageError, db)
                else (Ok a, db')
            | (Throw e, _) => (Throw e, db)
            end.

Fixpoint update_first {A : Type} (sel : A -> bool) (f : A -> A) (l : list A)
  : option (A * list A) :=
  match l with
  | [] => None
  | x :: rest =>
      if sel x then Some (f x, f x :: rest)
      else match update_first sel f rest with
           | Some (y, rest') => Some (y, x :: rest')
           | None => None
           end
  end.

(** [payment.update({ where: { orderCode }, data })]: the row with that
    unique key, or a throw when there is none. *)
Definition payment_update (orderCode : string) (data : Payment -> Payment)
  : M Payment :=
  request (OpPaymentUpdate orderCode) (fun db =>
    match update_first (fun p => (p_orderCode p =? orderCode)%string) data
                       (payments db) with
    | Some (p, ps) => (Ok p, mkDb ps (outbox db) (outbox_seq db))
    | None => (Throw RecordNotFound, db)
    end).

(** The columns an [outbox.create] call supplies. *)
Record OutboxCreateInput : Type := mkOutboxCreateInput {
  in_aggregateId : string;
  in_aggregateType : string;
  in_eventType : string;
  in_payload : list (string * jsval);
  in_published : bool;
  in_retryCount : Z
}.

(** [outbox.create({ data })]: one new row; the store fills in the id,
    [createdAt], and null for the two nullable columns. *)
Definition outbox_create (data : OutboxCreateInput) : M Outbox :=
  request (OpOutboxCreate (in_aggregateId data)) (fun db =>
    let row := mkOutbox (outbox_seq db) (in_aggregateId data)
                        (in_aggregateType data) (in_eventType data)
                        (in_payload data) (in_published data) None
                        (in_retryCount data) None (db_clock env) in
    (Ok row, mkDb (payments db) (outbox db ++ [row]) (S (outbox_seq db)))).

(** [outbox.update({ where: { id }, data })]: the row with that id, or a
    throw when there is none. *)
Definition outbox_update (i : nat) (data : OutboxUpdateInput) : M Outbox :=
  request (OpOutboxUpdate i data) (fun db =>
    match update_first (fun r => Nat.eqb (id r) i) (apply_update data)
                       (outbox db) with
    | Some (r, rows) => (Ok r, mkDb (payments db) rows (outbox_seq db))
    | None => (Throw RecordNotFound, db)
    end).

Definition createdAt_asc (a b : Outbox) : bool := createdAt a <=? createdAt b.
Definition createdAt_desc (a b : Outbox) : bool := createdAt b <=? createdAt a.

(** [outbox.findMany({ where, orderBy, take })]; [take] is optional.
    Rows with equal sort keys come in table order (the store leaves
    their order open). *)
Definition outbox_findMany (where_ : Outbox -> bool)
  (orderBy : Outbox -> Outbox -> bool) (take : option nat) : M (list Outbox) :=
  request OpOutboxFindMany (fun db =>
    let rows := sortBy orderBy (filter where_ (outbox db)) in
    (Ok (match take with Some n => firstn n rows | None => rows end), db)).

(** [outbox.deleteMany({ where })]: returns the count of deleted rows. *)
Definition outbox_deleteMany (where_ : Outbox -> bool) : M nat :=
  request OpOutboxDeleteMany (fun db =>
    (Ok (List.length (filter where_ (outbox db))),
     mkDb (payments db) (filter (fun r => negb (where_ r)) (outbox db))
          (outbox_seq db))).

End Requests.

(** The filter [{ lt: d }] on a nullable date column: null never matches. *)
Definition date_lt (col : option Date) (d : Date) : bool :=
  match col with
  | Some t => t <? d
  | None => false
  end.

End Prisma.

Notation "x <- m ;; k" := (Prisma.bind m (fun x => k))
  (at level 61, m at next level, right associativity).

Notation "'let?' x ':=' r 'in' k" :=
  (match r with
   | JS.Ok x => k
   | JS.Throw e => JS.Throw e
   end)
  (at level 10, x name, r at level 100, k at level 200).

(* ================================================================== *)
(** ** Payment webhook handler (ZaloPay, PayOS) *)
(* ================================================================== *)

Module Webhook.
Import JS Prisma.

Inductive PaymentProvider : Type := ZALOPAY | PAYOS.

Definition PAYMENT_COMPLETED : string := "PAYMENT_COMPLETED".
Definition PAYMENT_FAILED : string := "PAYMENT_FAILED".

Record CallbackResult : Type := mkCallbackResult {
  orderCode : option string;
  success : bool;
  response : jsval
}.

(** The platform services the handler calls. *)
Record Runtime : Type := mkRuntime {
  (** [crypto.createHmac('sha256', key).update(data).digest('hex')] *)
  hmac_sha256_hex : string -> string -> string;
  (** [JSON.parse], which throws a [SyntaxError] on other text *)
  JSON_parse : string -> result jsval;
  (** [Date.prototype.toISOString] *)
  toISOString : Date -> string;
  (** [Number.prototype.toString] beyond the safe integers *)
  Number_toString : Z -> string
}.

(** [process.env]. *)
Record ProcessEnv : Type := mkProcessEnv {
  ZALOPAY_KEY2 : option string;
  PAYOS_CHECKSUM_KEY : option string
}.

Record Env : Type := mkEnv {
  runtime : Runtime;
  process_env : ProcessEnv;
  db_env : DbEnv;
  (** the value of [new Date()] in this invocation *)
  now : Date
}.

(** [process.env.X || ''] *)
Definition or_empty (v : option string) : string :=
  match v with
  | Some s => if truthy_str s then s else ""
  | None => ""
  end.

(** [a === b] against a string. *)
Definition strict_eq_str (v : jsval) (s : string) : bool :=
  match v with
  | JStr s' => (s' =? s)%string
  | _ => false
  end.

(** [hmac.update(data)] takes a string. *)
Definition hmac_update_digest (rt : Runtime) (key : string) (data : jsval)
  : result string :=
  match data with
  | JStr d => Ok (hmac_sha256_hex rt key d)
  | _ => Throw (TypeError "The data argument must be of type string")
  end.

Definition zaloPayRejected : CallbackResult :=
  mkCallbackResult None false (JObj [("return_code", JNum (-1))]).

(** [app_trans_id?.split('_')[1] || app_trans_id] *)
Definition zaloPayOrderCode (app_trans_id : jsval) : result (option string) :=
  match app_trans_id with
  | JUndefined | JNull => Ok None
  | JStr t =>
      match nth_error (split "_" t) 1 with
      | Some seg => if truthy_str seg then Ok (Some seg) else Ok (Some t)
      | None => Ok (Some t)
      end
  | _ => Throw (TypeError "dataJson.app_trans_id?.split is not a function")
  end.

Section Verifier.
Variable env : Env.

Definition verifyZaloPayCallback (body : jsval) : result CallbackResult :=
  let? data := get body "data" in
  let? mac := get body "mac" in
  if negb (truthy data) || negb (truthy mac) then Ok zaloPayRejected
  else
    let key2 := or_empty (ZALOPAY_KEY2 (process_env env)) in
    let? expectedMac := hmac_update_digest (runtime env) key2 data in
    if negb (strict_eq_str mac expectedMac) then Ok zaloPayRejected
    else
      let? text := toString (Number_toString (runtime env)) data in
      let? dataJson := JSON_parse (runtime env) text in
      let? app_trans_id := get dataJson "app_trans_id" in
      let? orderCode := zaloPayOrderCode app_trans_id in
      Ok (mkCallbackResult orderCode true
            (JObj [("return_code", JNum 1); ("return_message", JStr "success")])).

(** The string the PayOS signature is computed over; building it throws
    when a value of the document cannot be converted to a string. *)
Definition payOSSortedData (data : jsval) : result string :=
  let? parts :=
    mapM (fun key =>
            let? text := toString (Number_toString (runtime env))
                           (index data key) in
            Ok (key ++ "=" ++ text))
         (sort (keys data)) in
  Ok (join "&" parts).

(** [data.orderCode?.toString()] *)
Definition payOSOrderCode (data : jsval) : result (option string) :=
  match index data "orderCode" with
  | JUndefined | JNull => Ok None
  | v => let? text := call_toString (Number_toString (runtime env)) v in
         Ok (Some text)
  end.

Definition verifyPayOSCallback (body : jsval) : result CallbackResult :=
  let? data := get body "data" in
  let? signature := get body "signature" in
  if negb (truthy data) || negb (truthy signature) then
    Ok (mkCallbackResult None false (JObj [("error", JStr "Invalid payload")]))
  else
    let checksumKey := or_empty (PAYOS_CHECKSUM_KEY (process_env env)) in
    let? sortedData := payOSSortedData data in
    let expectedSignature := hmac_sha256_hex (runtime env) checksumKey sortedData in
    if negb (strict_eq_str signature expectedSignature) then
      Ok (mkCallbackResult None false (JObj [("error", JStr "Invalid signature")]))
    else
      let? orderCode := payOSOrderCode data in
      Ok (mkCallbackResult orderCode
            (strict_eq_str (index data "code") "00")
            (JObj [("success", JBool true)])).

Definition verifyAndParseCallback (provider : PaymentProvider) (body : jsval)
  : result CallbackResult :=
  match provider with
  | ZALOPAY => verifyZaloPayCallback body
  | PAYOS => verifyPayOSCallback body
  end.

Definition opt_str (v : option string) : jsval :=
  match v with
  | Some s => JStr s
  | None => JNull
  end.

(** The payload both handlers build from the updated row; [stamp] is
    [completed_at] or [failed_at]. *)
Definition paymentPayload (payment : Payment) (stamp : string)
  : list (string * jsval) :=
  [ ("payment_id", JStr (p_id payment));
    ("order_code", JStr (p_orderCode payment));
    ("amount_cents", JNum (p_amountCents payment));
    ("currency", JStr (p_currency payment));
    ("provider", JStr (p_provider payment));
    ("transaction_id", opt_str (p_providerTransactionId payment));
    (stamp, JStr (toISOString (runtime env) (now env))) ].

Definition setCompleted (p : Payment) : Payment :=
  mkPayment (p_id p) (p_orderCode p) (p_amountCents p) (p_currency p)
            (p_provider p) COMPLETED (p_providerTransactionId p)
            (Some (now env)) (p_failedAt p).

Definition setFailed (p : Payment) : Payment :=
  mkPayment (p_id p) (p_orderCode p) (p_amountCents p) (p_currency p)
            (p_provider p) FAILED (p_providerTransactionId p)
            (p_completedAt p) (Some (now env)).

Definition handleSuccessPayment (orderCode : string) : M unit :=
  _ <- transaction (db_env env)
         (payment <- payment_update (db_env env) orderCode setCompleted ;;
          _ <- outbox_create (db_env env)
                 (mkOutboxCreateInput (p_id payment) "Payment" PAYMENT_COMPLETED
                    (paymentPayload payment "completed_at") false 0) ;;
          ret payment) ;;
  ret tt.

Definition handleFailedPayment (orderCode : string) : M unit :=
  _ <- transaction (db_env env)
         (payment <- payment_update (db_env env) orderCode setFailed ;;
          _ <- outbox_create (db_env env)
                 (mkOutboxCreateInput (p_id payment) "Payment" PAYMENT_FAILED
                    (paymentPayload payment "failed_at") false 0) ;;
          ret payment) ;;
  ret tt.

(** [!result.orderCode] *)
Definition orderCode_missing (r : CallbackResult) : bool :=
  match orderCode r with
  | Some s => negb (truthy_str s)
  | None => true
  end.

Definition handleCallback (provider : PaymentProvider) (callbackBody : jsval)
  : M jsval :=
  result <- lift (verifyAndParseCallback provider callbackBody) ;;
  match orderCode result with
  | Some oc =>
      if orderCode_missing result then ret (response result)
      else
        _ <- (if success result then handleSuccessPayment oc
              else handleFailedPayment oc) ;;
        ret (response result)
  | None => ret (response result)
  end.

(** The fields of the API Gateway event the handler reads:
    [event.path], [event.requestContext?.http?.path], [event.body]. *)
Record APIGatewayProxyEvent : Type := mkEvent {
  ev_path : option string;
  ev_http_path : option string;
  ev_body : option string
}.

(** The handler's answer; [res_body] is the value before
    [JSON.stringify]. *)
Record APIGatewayProxyResult : Type := mkResult {
  statusCode : Z;
  res_body : jsval
}.

Definition handler (event : APIGatewayProxyEvent) : M APIGatewayProxyResult :=
  try_catch
    (let path := or_empty (match ev_path event with
                           | Some p => if truthy_str p then Some p
                                       else ev_http_path event
                           | None => ev_http_path event
                           end) in
     body <- lift (match ev_body event with
                   | Some b => if truthy_str b then JSON_parse (runtime env) b
                               else Ok (JObj [])
                   | None => Ok (JObj [])
                   end) ;;
     if includes "zalopay" path then
       result <- handleCallback ZALOPAY body ;; ret (mkResult 200 result)
     else if includes "payos" path then
       result <- handleCallback PAYOS body ;; ret (mkResult 200 result)
     else
       ret (mkResult 400 (JObj [("error", JStr "Unknown payment provider")])))
    (fun _ => ret (mkResult 500 (JObj [("error", JStr "Internal server error")]))).

End Verifier.
End Webhook.

(* ================================================================== *)
(** ** Outbox processor (relay to Kafka) *)
(* ================================================================== *)

Module Relay.
Import JS Prisma.

Definition BATCH_SIZE : nat := 100.
Definition MAX_RETRIES : Z := 5.

(** What [TOPIC_MAPPING[eventType]] evaluates to when it is not
    [undefined]: a topic name, which is a property of the object's own,
    or a member that the object inherits from [Object.prototype] (a
    function; for [__proto__] the prototype itself). *)
Inductive TopicValue : Type :=
| TopicName (name : string)
| Inherited (member : string).

(** The property names of [Object.prototype] in Node.js. *)
Definition Object_prototype : list string :=
  [ "constructor"; "__defineGetter__"; "__defineSetter__"; "hasOwnProperty";
    "__lookupGetter__"; "__lookupSetter__"; "isPrototypeOf";
    "propertyIsEnumerable"; "toString"; "valueOf"; "__proto__";
    "toLocaleString" ].

(** [!topic] is [negb (truthy_topic topic)]: functions and objects are
    truthy, a string is unless it is empty. *)
Definition truthy_topic (t : TopicValue) : bool :=
  match t with
  | TopicName name => truthy_str name
  | Inherited _ => true
  end.

(** What [producer.send] is given for one event. *)
Record ProducerRecord : Type := mkProducerRecord {
  topic : TopicValue;
  key : string;
  value : list (string * jsval);
  headers : list (string * string)
}.

(** The invocation's surroundings: the two topic variables of
    [process.env], the outcome of getting a connected producer (kept from
    an earlier invocation or connected now), the broker's answer to a
    send, [randomUUID()] for the message of a row, the store's side, and
    the reading of [new Date()] in the [publishEvent] of a row, which is
    taken when the send of that row has returned. *)
Record Env : Type := mkEnv {
  KAFKA_TOPIC_PAYMENT_COMPLETED : option string;
  KAFKA_TOPIC_PAYMENT_FAILED : option string;
  connect : result unit;
  send : ProducerRecord -> result unit;
  randomUUID : nat -> string;
  db_env : DbEnv;
  now : Outbox -> Date
}.

(** [process.env.X || dflt] *)
Definition or_default (v : option string) (dflt : string) : string :=
  match v with
  | Some s => if truthy_str s then s else dflt
  | None => dflt
  end.

Section Processor.
Variable env : Env.

(** [TOPIC_MAPPING[eventType]], a property lookup on a plain object:
    one of its two own properties, else a member of the prototype, else
    [undefined] ([None]). *)
Definition TOPIC_MAPPING (eventType : string) : option TopicValue :=
  if (eventType =? "PAYMENT_COMPLETED")%string then
    Some (TopicName
            (or_default (KAFKA_TOPIC_PAYMENT_COMPLETED env) "payment.completed"))
  else if (eventType =? "PAYMENT_FAILED")%string then
    Some (TopicName
            (or_default (KAFKA_TOPIC_PAYMENT_FAILED env) "payment.failed"))
  else if existsb (String.eqb eventType) Object_prototype then
    Some (Inherited eventType)
  else None.

(** [error.message?.substring(0, 500) || "Unknown error"] *)
Definition errorText (error : exn) : string :=
  match message error with
  | Some m => if truthy_str (substring0 500 m) then substring0 500 m
              else "Unknown error"
  | None => "Unknown error"
  end.

Definition producerRecord (topic : TopicValue) (event : Outbox)
  : ProducerRecord :=
  mkProducerRecord topic (aggregateId event) (payload event)
    [ ("eventType", eventType event);
      ("eventVersion", "1.0");
      ("source", "payment-service");
      ("correlationId", aggregateId event);
      ("messageId", randomUUID env (id event)) ].

Definition publishEvent (event : Outbox) : M unit :=
  let unknown : M unit :=
    _ <- outbox_update (db_env env) (id event)
           (IncrementRetry ("Unknown event type: " ++ eventType event)) ;;
    ret tt in
  match TOPIC_MAPPING (eventType event) with
  | None => unknown
  | Some topic =>
      if negb (truthy_topic topic) then unknown
      else
        try_catch
          (_ <- lift (send env (producerRecord topic event)) ;;
           _ <- outbox_update (db_env env) (id event)
                  (SetPublished (now env event)) ;;
           ret tt)
          (fun error =>
             _ <- outbox_update (db_env env) (id event)
                    (IncrementRetry (errorText error)) ;;
             throw error)
  end.

(** The update that [publishEvent] gets through to the store for an
    event, read off its three branches; [None] when its requests fail.
    (What the lookup finds is truthy: the topic names are not empty.) *)
Definition settledUpdate (event : Outbox) : option OutboxUpdateInput :=
  let accepted data :=
    if db_fault (db_env env) (OpOutboxUpdate (id event) data) then None
    else Some data in
  match TOPIC_MAPPING (eventType event) with
  | None => accepted (IncrementRetry ("Unknown event type: " ++ eventType event))
  | Some topic =>
      match send env (producerRecord topic event) with
      | Ok _ =>
          match accepted (SetPublished (now env event)) with
          | Some data => Some data
          | None => accepted (IncrementRetry (errorText StorageError))
          end
      | Throw error => accepted (IncrementRetry (errorText error))
      end
  end.

(** A row of the table after the events of a batch have been settled:
    the row of a batch member (found by id) gets that member's update. *)
Definition settle (batch : list Outbox) (r : Outbox) : Outbox :=
  match find (fun e => Nat.eqb (id e) (id r)) batch with
  | Some e =>
      match settledUpdate e with
      | Some data => apply_update data r
      | None => r
      end
  | None => r
  end.

(** [Promise.allSettled(events.map(publishEvent))]: every call runs to
    its end and its outcome is collected; none stops another.  The calls
    write different rows, so they are run here in batch order. *)
Fixpoint allSettled (events : list Outbox) : M (list (result unit)) :=
  match events with
  | [] => ret []
  | event :: rest =>
      fun db =>
        let (r, db') := publishEvent event db in
        let (rs, db'') := allSettled rest db' in
        (match rs with
         | Ok l => Ok (r :: l)
         | Throw e => Throw e
         end, db'')
  end.

Definition pending (r : Outbox) : bool :=
  negb (published r) && (retryCount r <? MAX_RETRIES).

(** The batch query at the head of the handler. *)
Definition findBatch : M (list Outbox) :=
  outbox_findMany (db_env env) pending createdAt_asc (Some BATCH_SIZE).

Definition handler : M unit :=
  _ <- lift (connect env) ;;
  events <- findBatch ;;
  match events with
  | [] => ret tt
  | _ => _ <- allSettled events ;; ret tt
  end.

End Processor.
End Relay.

(* ================================================================== *)
(** ** Outbox cleanup (retention and the report of failed events) *)
(* ================================================================== *)

Module Cleanup.
Import JS Prisma.

Definition MAX_RETRIES : Z := 5.
Definition MS_PER_DAY : Z := 86400000.

(** The time values a [Date] holds: up to 8.64e15 ms either side of the
    epoch. *)
Definition MAX_TIME : Z := 8640000000000000.

(** [TimeClip]: a time value out of that range gives the invalid date,
    [None]. *)
Definition timeClip (t : Z) : option Date :=
  if Z.abs t <=? MAX_TIME then Some t else None.

(** The white space and line terminators that [parseInt] skips, among
    the code units below 256: TAB, LF, VT, FF, CR, SP and NBSP. *)
Definition is_space (c : ascii) : bool :=
  match c with
  | " "%char | "009"%char | "010"%char | "011"%char | "012"%char
  | "013"%char | "160"%char => true
  | _ => false
  end.

Definition digit (c : ascii) : option Z :=
  let n := Z.of_N (N_of_ascii c) in
  if (48 <=? n) && (n <=? 57) then Some (n - 48) else None.

Fixpoint digits (acc : option Z) (s : string) : option Z :=
  match s with
  | EmptyString => acc
  | String c rest =>
      match digit c with
      | Some d => digits (Some (match acc with
                                | Some a => 10 * a + d
                                | None => d
                                end)) rest
      | None => acc
      end
  end.

Fixpoint skip_spaces (s : string) : string :=
  match s with
  | String c rest => if is_space c then skip_spaces rest else s
  | EmptyString => s
  end.

(** [parseInt(s, 10)]: leading blanks, a sign, then the longest run of
    decimal digits; [None] is [NaN].  The result is the integer the
    digits spell; the Number that [parseInt] returns is that integer
    rounded to a double, which differs only beyond 2^53. *)
Definition parseInt10 (s : string) : option Z :=
  match skip_spaces s with
  | String "-" rest => option_map Z.opp (digits None rest)
  | String "+" rest => digits None rest
  | t => digits None t
  end.

(** The invocation's surroundings: the [RETENTION_DAYS] variable, the
    store's side, [new Date()], and the answer of CloudWatch to the
    metrics call. *)
Record Env : Type := mkEnv {
  ENV_RETENTION_DAYS : option string;
  db_env : DbEnv;
  now : Date;
  cloudwatch_send : Z -> Z -> result unit
}.

Section Sweeper.
Variable env : Env.

(** [parseInt(process.env.RETENTION_DAYS || '7', 10)] *)
Definition RETENTION_DAYS : option Z :=
  parseInt10 (match ENV_RETENTION_DAYS env with
              | Some s => if truthy_str s then s else "7"
              | None => "7"
              end).

(** [cutoffDate.setDate(cutoffDate.getDate() - RETENTION_DAYS)], in the
    UTC time zone a Lambda runs in, where every day has 86400000 ms;
    [None] is the invalid date, which [NaN] gives and so does a day
    count that takes the time value out of the range of [Date] (as
    every count beyond 2^53 does). *)
Definition cutoffDate : option Date :=
  match timeClip (now env), RETENTION_DAYS with
  | Some t, Some days => timeClip (t - days * MS_PER_DAY)
  | _, _ => None
  end.

Definition expired (cutoff : Date) (r : Outbox) : bool :=
  published r && date_lt (publishedAt r) cutoff.

Definition deleteOldPublishedEvents : M nat :=
  match cutoffDate with
  | Some cutoff => outbox_deleteMany (db_env env) (expired cutoff)
  | None => throw (Error (Some "Invalid value for argument lt: Provided Date object is invalid"))
  end.

Definition stuck (r : Outbox) : bool :=
  negb (published r) && (MAX_RETRIES <=? retryCount r).

Definition monitorFailedEvents : M (list Outbox) :=
  outbox_findMany (db_env env) stuck createdAt_desc None.

(** The metrics call sits in its own try/catch: its failure is logged and
    dropped. *)
Definition publishMetrics (deletedCount failedCount : Z) : M unit :=
  match cloudwatch_send env deletedCount failedCount with
  | Ok _ => ret tt
  | Throw _ => ret tt
  end.

Definition handler : M unit :=
  deletedCount <- deleteOldPublishedEvents ;;
  failedEvents <- monitorFailedEvents ;;
  publishMetrics (Z.of_nat deletedCount) (Z.of_nat (List.length failedEvents)).

End Sweeper.
End Cleanup.

(* ================================================================== *)
(** ** The three jobs on one store *)
(* ================================================================== *)

Module System.
Import JS Prisma.

(** One invocation of a Lambda with its surroundings.  Invocations in a
    list run one after the other: none starts before the one before it
    has ended.  The relay and the sweeper are deployed with a concurrency
    of 1; the webhook's writes are one transaction per invocation, which
    the store puts in some order. *)
Inductive Invocation : Type :=
| InvokeWebhook (env : Webhook.Env) (event : Webhook.APIGatewayProxyEvent)
| InvokeRelay (env : Relay.Env)
| InvokeCleanup (env : Cleanup.Env).

Definition invoke (i : Invocation) (db : Db) : Db :=
  match i with
  | InvokeWebhook env event => snd (Webhook.handler env event db)
  | InvokeRelay env => snd (Relay.handler env db)
  | InvokeCleanup env => snd (Cleanup.handler env db)
  end.

Definition run (invocations : list Invocation) (db : Db) : Db :=
  fold_left (fun d i => invoke i d) invocations db.

(** The constraints the store keeps or starts with: the outbox id is a
    key drawn from the sequence, and a published row has its
    [publishedAt]. *)
Definition well_formed (db : Db) : Prop :=
  NoDup (map id (outbox db))
  /\ Forall (fun r => (id r < outbox_seq db)%nat) (outbox db)
  /\ Forall (fun r => published r = true -> publishedAt r <> None) (outbox db).

(** How the rows of [db0] are found again in [db]: a row with the id of
    an earlier row has no smaller [retryCount], and is that very row when
    the earlier one was published. *)
Definition evolved (db0 db : Db) : Prop :=
  Forall (fun r0 => (id r0 < outbox_seq db)%nat) (outbox db0)
  /\ forall r0 r, In r0 (outbox db0) -> In r (outbox db) -> id r0 = id r ->
       retryCount r0 <= retryCount r /\ (published r0 = true -> r = r0).

(** What an invocation of the webhook may do to the outbox table:
    nothing, or insert one unpublished row with the next id. *)
Definition at_most_inserted (db db' : Db) : Prop :=
  (outbox db' = outbox db /\ outbox_seq db' = outbox_seq db)
  \/ (exists row,
        outbox db' = (outbox db ++ [row])%list /\ id row = outbox_seq db /\
        published row = false /\ outbox_seq db' = S (outbox_seq db)).

End System.

(* ================================================================== *)
(** ** The order-code rule in the specification's words *)
(* ================================================================== *)

Module SpecText.

(** The text after the first occurrence of [sep], when there is one. *)
Fixpoint after_first (sep : ascii) (s : string) : option string :=
  match s with
  | EmptyString => None
  | String c rest => if Ascii.eqb c sep then Some rest else after_first sep rest
  end.

(** "Takes the substring after the first [_] if present, else the whole
    value." *)
Definition orderCode_after_first_underscore (app_trans_id : string) : string :=
  match after_first "_" app_trans_id with
  | Some rest => rest
  | None => app_trans_id
  end.

End SpecText.

(* ================================================================== *)
(** ** Sample surroundings for the closed examples *)
(* ================================================================== *)

Module Demo.
Import JS Prisma.

(** The double-quote character of the JSON texts. *)
Definition dq : string := String (ascii_of_nat 34) EmptyString.

(** A keyed digest standing in for HMAC-SHA256 in the examples; the
    theorems hold for every digest function. *)
Definition hmac (key data : string) : string :=
  "hmac[" ++ key ++ "](" ++ data ++ ")".

(** The JSON text of a ZaloPay data document with one field. *)
Definition zalo_data (app_trans_id : string) : string :=
  "{" ++ dq ++ "app_trans_id" ++ dq ++ ":" ++ dq ++ app_trans_id ++ dq ++ "}".

(** [JSON.parse] on the sample documents (a throw on other text). *)
Definition parse (s : string) : result jsval :=
  if (s =? zalo_data "250101_ORD-1001")%string then
    Ok (JObj [("app_trans_id", JStr "250101_ORD-1001")])
  else if (s =? zalo_data "250101_ORD_1001")%string then
    Ok (JObj [("app_trans_id", JStr "250101_ORD_1001")])
  else Throw (SyntaxError "Unexpected token").

Definition iso (t : Date) : string := "T" ++ string_of_Z t.

(** The text of a number beyond the safe integers, in the examples:
    none of them holds such a number. *)
Definition big_number (n : Z) : string := string_of_Z n.

Definition runtime : Webhook.Runtime :=
  Webhook.mkRuntime hmac parse iso big_number.

Definition no_fault (op : DbOp) : bool := false.

(** A webhook invocation at time [t] with the given ZaloPay key. *)
Definition webhook_env (key2 : option string) (t : Date) : Webhook.Env :=
  Webhook.mkEnv runtime (Webhook.mkProcessEnv key2 None)
                (mkDbEnv no_fault t) t.

(** A ZaloPay callback body signed under [key]. *)
Definition zalo_body (key app_trans_id : string) : jsval :=
  JObj [ ("data", JStr (zalo_data app_trans_id));
         ("mac", JStr (hmac key (zalo_data app_trans_id))) ].

Definition payment (status : PaymentStatus) (completedAt : option Date)
  : Payment :=
  mkPayment "pay_1" "ORD-1001" 150000 "VND" "ZALOPAY" status (Some "zp_77")
            completedAt None.

Definition db_pending : Db := mkDb [payment PENDING None] [] 0.

(** A store side on which every outbox insert fails. *)
Definition insert_fault (op : DbOp) : bool :=
  match op with
  | OpOutboxCreate _ => true
  | _ => false
  end.

Definition payos_data : jsval :=
  JObj [("orderCode", JNum 1001); ("amount", JNum 150000);
        ("code", JStr "00")].

(** The canonical string of that document. *)
Definition payos_sorted : string := "amount=150000&code=00&orderCode=1001".

(** A PayOS callback body signed under [key]. *)
Definition payos_body (key : string) : jsval :=
  JObj [ ("data", payos_data);
         ("signature", JStr (hmac key payos_sorted)) ].

Definition day : Z := 86400000.

Definition row (i : nat) (evt : string) (pub : bool) (at_ : option Date)
  (retry : Z) (created : Date) : Outbox :=
  mkOutbox i "pay_1" "Payment" evt [] pub at_ retry None created.

(** An outbox table with an old published row, a recent published row, a
    row out of retries and a pending row. *)
Definition db_outbox : Db :=
  mkDb []
       [ row 0 "PAYMENT_COMPLETED" true (Some (1 * day)) 0 (1 * day);
         row 1 "PAYMENT_FAILED" true (Some (9 * day)) 1 (2 * day);
         row 2 "PAYMENT_COMPLETED" false None 5 (3 * day);
         row 3 "PAYMENT_COMPLETED" false None 2 (4 * day) ]
       4.

(** A sweeper invocation at time [t], [RETENTION_DAYS] unset. *)
Definition cleanup_env (t : Date) : Cleanup.Env :=
  Cleanup.mkEnv None (mkDbEnv no_fault t) t (fun _ _ => Ok tt).

(** A relay invocation against the given broker, in which every reading
    of the clock gives [t]. *)
Definition relay_env (send : Relay.ProducerRecord -> result unit) (t : Date)
  : Relay.Env :=
  Relay.mkEnv None None (Ok tt) send (fun i => "uuid-" ++ string_of_nat i)
              (mkDbEnv no_fault t) (fun _ => t).

Definition broker_down (rec : Relay.ProducerRecord) : result unit :=
  Throw (Error (Some "Connection timeout")).

Definition broker_up (rec : Relay.ProducerRecord) : result unit := Ok tt.

Definition db_payos : Db :=
  mkDb [mkPayment "pay_2" "1001" 150000 "VND" "PAYOS" PENDING None None None]
       [] 0.

End Demo.

(* ================================================================== *)
(** ** Properties of rows, and further sample surroundings *)
(* ================================================================== *)

Module Rows.
Import JS Prisma.

(** The columns of a payment that no handler writes. *)
Definition fixed_columns (p : Payment)
  : string * string * Z * string * string * option string :=
  (p_id p, p_orderCode p, p_amountCents p, p_currency p, p_provider p,
   p_providerTransactionId p).

(** A terminal status comes with its timestamp. *)
Definition timestamps_set (p : Payment) : Prop :=
  (p_status p = COMPLETED -> p_completedAt p <> None)
  /\ (p_status p = FAILED -> p_failedAt p <> None).

(** How a payment row [p] is found again later, as [p']. *)
Definition payment_evolved (p p' : Payment) : Prop :=
  fixed_columns p' = fixed_columns p
  /\ (p_status p' = PENDING -> p' = p)
  /\ (timestamps_set p -> timestamps_set p').

(** What holds of every outbox row that the webhook inserted and the
    relay updated. *)
Definition outbox_row_sound (r : Outbox) : Prop :=
  aggregateType r = "Payment"
  /\ (eventType r = "PAYMENT_COMPLETED" \/ eventType r = "PAYMENT_FAILED")
  /\ 0 <= retryCount r
  /\ (retryCount r = 0 <-> lastError r = None)
  /\ (published r = true <-> publishedAt r <> None).

(** The columns of an outbox row that describe the event. *)
Definition event_columns (r : Outbox)
  : string * string * string * list (string * jsval) * Date :=
  (aggregateId r, aggregateType r, eventType r, payload r, createdAt r).

(** The columns of an outbox row that the retry bookkeeping is about. *)
Definition retry_view (r : Outbox) : nat * bool * Z :=
  (id r, published r, retryCount r).

(** A view after [k] relay passes in which the row, as long as it was
    pending, was tried and failed. *)
Definition retried (k : nat) (v : nat * bool * Z) : nat * bool * Z :=
  match v with
  | (i, p, c) =>
      (i, p, if p then c else Z.max c (Z.min Relay.MAX_RETRIES (c + Z.of_nat k)))
  end.

End Rows.

Module Cases.
Import JS Prisma.

(** The text of a ZaloPay callback body for order ORD-1001, signed
    under the key [k2]: the JSON object with the fields [data] (the data
    document as a string, its quotes escaped) and [mac]. *)
Definition callback_text : string :=
  "{" ++ Demo.dq ++ "data" ++ Demo.dq ++ ":" ++ Demo.dq
  ++ "{\" ++ Demo.dq ++ "app_trans_id\" ++ Demo.dq ++ ":\" ++ Demo.dq
  ++ "250101_ORD-1001\" ++ Demo.dq ++ "}" ++ Demo.dq ++ ","
  ++ Demo.dq ++ "mac" ++ Demo.dq ++ ":" ++ Demo.dq
  ++ Demo.hmac "k2" (Demo.zalo_data "250101_ORD-1001") ++ Demo.dq ++ "}".

(** [JSON.parse] on the sample documents, the callback text, the empty
    object and [null]. *)
Definition parse (s : string) : result jsval :=
  if (s =? "{}")%string then Ok (JObj [])
  else if (s =? "null")%string then Ok JNull
  else if (s =? callback_text)%string
  then Ok (Demo.zalo_body "k2" "250101_ORD-1001")
  else Demo.parse s.

(** The API Gateway event of that callback. *)
Definition zalopay_event : Webhook.APIGatewayProxyEvent :=
  Webhook.mkEvent (Some "/webhooks/zalopay/callback") None
                  (Some callback_text).

(** A well-formed outbox table of sound rows: one fresh, one published
    after two failed sends. *)
Definition db_sound : Db :=
  mkDb [Demo.payment PENDING None]
       [ mkOutbox 0 "pay_1" "Payment" "PAYMENT_FAILED" [] false None 0 None
                  (1 * Demo.day);
         mkOutbox 1 "pay_1" "Payment" "PAYMENT_COMPLETED" [] true
                  (Some (2 * Demo.day)) 2 (Some "Connection timeout")
                  (1 * Demo.day) ]
       2.

Definition runtime : Webhook.Runtime :=
  Webhook.mkRuntime Demo.hmac parse Demo.iso Demo.big_number.

Definition webhook_env (key2 : option string) (t : Date) : Webhook.Env :=
  Webhook.mkEnv runtime (Webhook.mkProcessEnv key2 None)
                (mkDbEnv Demo.no_fault t) t.

(** A signed ZaloPay callback whose data document is [{}]. *)
Definition empty_doc_body (key : string) : jsval :=
  JObj [("data", JStr "{}"); ("mac", JStr (Demo.hmac key "{}"))].

(** An outbox table with two pending rows and one out of retries. *)
Definition db_pending_rows : Db :=
  mkDb [Demo.payment COMPLETED (Some Demo.day)]
       [ Demo.row 0 "PAYMENT_COMPLETED" false None 0 (1 * Demo.day);
         Demo.row 1 "PAYMENT_FAILED" false None 3 (2 * Demo.day);
         Demo.row 2 "PAYMENT_COMPLETED" false None 7 (3 * Demo.day) ]
       3.

(** A sweeper invocation at time [t] with the given [RETENTION_DAYS] and
    CloudWatch answer. *)
Definition cleanup_env (days : option string) (t : Date)
  (cloudwatch : Z -> Z -> result unit) : Cleanup.Env :=
  Cleanup.mkEnv days (mkDbEnv Demo.no_fault t) t cloudwatch.

Definition cloudwatch_down (deleted failed : Z) : result unit :=
  Throw (Error (Some "AccessDenied")).

End Cases.

(* ================================================================== *)
(** ** Lemmas on the built-ins *)
(* ================================================================== *)

Section SortFacts.
Context {A : Type} (leb : A -> A -> bool).
Hypothesis leb_total : forall a b, leb a b = true \/ leb b a = true.
Hypothesis leb_trans : forall a b c,
  leb a b = true -> leb b c = true -> leb a c = true.

Lemma insert_perm (x : A) (l : list A) :
  Permutation (JS.insert leb x l) (x :: l).
Proof.
  induction l as [|y l IH]; simpl.
  - apply Permutation_refl.
  - destruct (leb x y).
    + apply Permutation_refl.
    + eapply perm_trans; [apply perm_skip, IH | apply perm_swap].
Qed.

Lemma sortBy_perm (l : list A) : Permutation (JS.sortBy leb l) l.
Proof.
  induction l as [|x l IH]; simpl.
  - constructor.
  - eapply perm_trans; [apply insert_perm | apply perm_skip, IH].
Qed.

Lemma insert_sorted (x : A) (l : list A) :
  StronglySorted (fun a b => leb a b = true) l ->
  StronglySorted (fun a b => leb a b = true) (JS.insert leb x l).
Proof.
  induction 1 as [|y l Hs IH Hall]; simpl.
  - constructor; constructor.
  - destruct (leb x y) eqn:Hxy.
    + constructor.
      * constructor; assumption.
      * constructor; [assumption|].
        eapply Forall_impl; [|exact Hall].
        intros z Hz. eapply leb_trans; eassumption.
    + constructor; [assumption|].
      assert (Hyx : leb y x = true)
        by (destruct (leb_total x y) as [H|H]; [congruence | exact H]).
      eapply Permutation_Forall.
      * apply Permutation_sym, insert_perm.
      * constructor; assumption.
Qed.

Lemma sortBy_sorted (l : list A) :
  StronglySorted (fun a b => leb a b = true) (JS.sortBy leb l).
Proof.
  induction l as [|x l IH]; simpl.
  - constructor.
  - apply insert_sorted, IH.
Qed.

Hypothesis leb_antisym : forall a b,
  leb a b = true -> leb b a = true -> a = b.

Lemma insert_insert (a b : A) (l : list A) :
  JS.insert leb a (JS.insert leb b l) = JS.insert leb b (JS.insert leb a l).
Proof.
  induction l as [|x l IH]; simpl.
  - destruct (leb a b) eqn:Hab, (leb b a) eqn:Hba; simpl;
      rewrite ?Hab, ?Hba; try reflexivity.
    + rewrite (leb_antisym a b Hab Hba). reflexivity.
    + destruct (leb_total a b); congruence.
  - destruct (leb a x) eqn:Hax, (leb b x) eqn:Hbx; simpl.
    + destruct (leb a b) eqn:Hab, (leb b a) eqn:Hba; simpl;
        rewrite ?Hax, ?Hbx, ?Hab, ?Hba; try reflexivity.
      * rewrite (leb_antisym a b Hab Hba). reflexivity.
      * destruct (leb_total a b); congruence.
    + assert (Hba : leb b a = false).
      { destruct (leb b a) eqn:H; [|reflexivity].
        rewrite (leb_trans b a x H Hax) in Hbx. discriminate. }
      rewrite Hax, Hba. simpl. rewrite Hbx. reflexivity.
    + assert (Hab : leb a b = false).
      { destruct (leb a b) eqn:H; [|reflexivity].
        rewrite (leb_trans a b x H Hbx) in Hax. discriminate. }
      rewrite Hbx, Hab. simpl. rewrite Hax. reflexivity.
    + rewrite Hax, Hbx, IH. reflexivity.
Qed.

Lemma sortBy_permutation (l1 l2 : list A) :
  Permutation l1 l2 -> JS.sortBy leb l1 = JS.sortBy leb l2.
Proof.
  induction 1 as [| x l1 l2 _ IH | x y l | l1 l2 l3 _ IH1 _ IH2]; simpl.
  - reflexivity.
  - rewrite IH. reflexivity.
  - apply insert_insert.
  - congruence.
Qed.

End SortFacts.

Lemma In_firstn {A : Type} (x : A) (n : nat) (l : list A) :
  In x (firstn n l) -> In x l.
Proof.
  revert l. induction n as [|n IH]; intros [|y l]; simpl; try tauto.
  intros [H|H]; [left; exact H | right; apply IH, H].
Qed.

Lemma firstn_StronglySorted {A : Type} (R : A -> A -> Prop) (n : nat)
  (l : list A) :
  StronglySorted R l -> StronglySorted R (firstn n l).
Proof.
  intros Hs. revert n.
  induction Hs as [|x l Hs IH Hall]; intros [|n]; simpl; try constructor.
  - apply IH.
  - rewrite Forall_forall in *. intros y Hy.
    apply Hall. eapply In_firstn; eassumption.
Qed.

Lemma string_leb_trans (s1 s2 s3 : string) :
  String.leb s1 s2 = true -> String.leb s2 s3 = true ->
  String.leb s1 s3 = true.
Proof.
  unfold String.leb. revert s2 s3.
  induction s1 as [|a s1 IH]; intros [|b s2] [|c s3]; simpl;
    try congruence.
  unfold Ascii.compare.
  destruct (N.compare_spec (N_of_ascii a) (N_of_ascii b)) as [Hab|Hab|Hab];
  destruct (N.compare_spec (N_of_ascii b) (N_of_ascii c)) as [Hbc|Hbc|Hbc];
  destruct (N.compare_spec (N_of_ascii a) (N_of_ascii c)) as [Hac|Hac|Hac];
    try congruence; try lia.
  apply IH.
Qed.

Lemma sort_permutation (l1 l2 : list string) :
  Permutation l1 l2 -> JS.sort l1 = JS.sort l2.
Proof.
  apply sortBy_permutation.
  - apply String.leb_total.
  - apply string_leb_trans.
  - apply String.leb_antisym.
Qed.

(* ================================================================== *)
(** ** PayOS canonicalization *)
(* ================================================================== *)

Lemma lookup_permutation {A : Type} (k : string) (d1 d2 : list (string * A)) :
  NoDup (map fst d1) -> Permutation d1 d2 -> JS.lookup k d1 = JS.lookup k d2.
Proof.
  intros Hnd Hp. induction Hp as [| [k1 v1] l1 l2 Hp IH
                                  | [k1 v1] [k2 v2] l
                                  | l1 l2 l3 Hp1 IH1 Hp2 IH2]; simpl in *.
  - reflexivity.
  - inversion Hnd; subst. rewrite IH by assumption. reflexivity.
  - destruct (String.eqb_spec k1 k), (String.eqb_spec k2 k); try reflexivity.
    subst. inversion Hnd as [|? ? Hin _]; subst.
    exfalso. apply Hin. left. reflexivity.
  - rewrite IH1 by assumption. apply IH2.
    eapply Permutation_NoDup; [apply Permutation_map; exact Hp1 | exact Hnd].
Qed.

Lemma mapM_ext_in {A B : Type} (f g : A -> JS.result B) (l : list A) :
  (forall x, In x l -> f x = g x) -> JS.mapM f l = JS.mapM g l.
Proof.
  induction l as [|x l IH]; intros H; cbn [JS.mapM]; [reflexivity|].
  rewrite (H x (or_introl eq_refl)), IH; [reflexivity|].
  intros y Hy. apply H. right. exact Hy.
Qed.

Lemma payOSSortedData_permutation (env : Webhook.Env)
  (d1 d2 : list (string * JS.jsval)) :
  NoDup (map fst d1) -> Permutation d1 d2 ->
  Webhook.payOSSortedData env (JS.JObj d1)
  = Webhook.payOSSortedData env (JS.JObj d2).
Proof.
  intros Hnd Hp. unfold Webhook.payOSSortedData, JS.keys, JS.index. simpl.
  rewrite (sort_permutation (map fst d1) (map fst d2))
    by (apply Permutation_map; exact Hp).
  rewrite (mapM_ext_in _
             (fun key =>
                let? text := JS.toString
                               (Webhook.Number_toString (Webhook.runtime env))
                               match JS.lookup key d2 with
                               | Some x => x
                               | None => JS.JUndefined
                               end in
                JS.Ok (key ++ "=" ++ text)%string));
    [reflexivity|].
  intros key _. rewrite (lookup_permutation key d1 d2 Hnd Hp). reflexivity.
Qed.

(** C5. The PayOS canonical string does not depend on the order in which
    the keys of the data document were inserted: two documents holding the
    same key/value pairs (each key once) give the same sorted
    [key=value&...] string (or fail to give one alike), hence the same
    HMAC under every key, and the verifier returns the same result for
    two bodies that differ only in that order. *)
Theorem payos_canonicalization_order_independent
  (env : Webhook.Env) (d1 d2 : list (string * JS.jsval)) :
  NoDup (map fst d1) -> Permutation d1 d2 ->
  Webhook.payOSSortedData env (JS.JObj d1)
  = Webhook.payOSSortedData env (JS.JObj d2)
  /\ (forall key,
        (let? sorted := Webhook.payOSSortedData env (JS.JObj d1) in
         JS.Ok (Webhook.hmac_sha256_hex (Webhook.runtime env) key sorted))
        = (let? sorted := Webhook.payOSSortedData env (JS.JObj d2) in
           JS.Ok (Webhook.hmac_sha256_hex (Webhook.runtime env) key sorted)))
  /\ (forall body1 body2 signature,
        JS.get body1 "data" = JS.Ok (JS.JObj d1) ->
        JS.get body2 "data" = JS.Ok (JS.JObj d2) ->
        JS.get body1 "signature" = JS.Ok signature ->
        JS.get body2 "signature" = JS.Ok signature ->
        Webhook.verifyPayOSCallback env body1
        = Webhook.verifyPayOSCallback env body2).
Proof.
  intros Hnd Hp.
  pose proof (payOSSortedData_permutation env d1 d2 Hnd Hp) as Hs.
  split; [exact Hs|]. split.
  - intros key. rewrite Hs. reflexivity.
  - intros body1 body2 signature Hd1 Hd2 Hs1 Hs2.
    unfold Webhook.verifyPayOSCallback, Webhook.payOSOrderCode.
    rewrite Hd1, Hd2, Hs1, Hs2, Hs. simpl.
    unfold JS.index. simpl.
    rewrite !(lookup_permutation _ d1 d2 Hnd Hp). reflexivity.
Qed.

Lemma payos_canonicalization_order_independent_witness :
  Webhook.payOSSortedData (Demo.webhook_env None 0)
    (JS.JObj [("orderCode", JS.JNum 1001); ("amount", JS.JNum 150000);
              ("code", JS.JStr "00")])
  = Webhook.payOSSortedData (Demo.webhook_env None 0)
      (JS.JObj [("code", JS.JStr "00"); ("orderCode", JS.JNum 1001);
                ("amount", JS.JNum 150000)]).
Proof.
  apply (payos_canonicalization_order_independent
           (Demo.webhook_env None 0)
           [("orderCode", JS.JNum 1001); ("amount", JS.JNum 150000);
            ("code", JS.JStr "00")]
           [("code", JS.JStr "00"); ("orderCode", JS.JNum 1001);
            ("amount", JS.JNum 150000)]).
  - repeat constructor; simpl; intuition discriminate.
  - apply Permutation_sym.
    apply (Permutation_cons_app [("orderCode", JS.JNum 1001); ("amount", JS.JNum 150000)] []).
    apply Permutation_refl.
Defined.

Lemma mapM_ok_in {A B : Type} (f : A -> JS.result B) (l : list A)
  (ys : list B) (x : A) :
  JS.mapM f l = JS.Ok ys -> In x l -> exists y, f x = JS.Ok y.
Proof.
  revert ys. induction l as [|a l IH]; intros ys H Hin; [contradiction|].
  cbn [JS.mapM] in H. destruct (f a) as [y|] eqn:Hf; [|discriminate H].
  destruct (JS.mapM f l) as [ys'|]; [|discriminate H].
  destruct Hin as [<- | Hin]; [exists y; exact Hf|].
  apply (IH ys' eq_refl Hin).
Qed.

Lemma lookup_some_key {A : Type} (k : string) (l : list (string * A)) (v : A) :
  JS.lookup k l = Some v -> In k (map fst l).
Proof.
  induction l as [|[k' v'] l IH]; simpl; [discriminate|].
  destruct (String.eqb_spec k' k) as [E|E]; [left; exact E|].
  intros H. right. apply IH, H.
Qed.

(** A value that a template literal converts is converted by its
    [toString()] to the same text. *)
Lemma call_toString_ok (number_text : Z -> string) (v : JS.jsval) (text : string) :
  JS.toString number_text v = JS.Ok text ->
  JS.call_toString number_text v = JS.Ok text.
Proof.
  destruct v; try (intros H; exact H).
  cbn [JS.toString JS.call_toString].
  destruct (JS.lookup "toString" fields); [discriminate | intros H; exact H].
Qed.

(** Once the canonical string is built, the order code can be taken:
    [orderCode] is absent or one of the values that were converted. *)
Lemma payOSOrderCode_after_sorted (env : Webhook.Env) (data : JS.jsval)
  (sorted : string) :
  Webhook.payOSSortedData env data = JS.Ok sorted ->
  exists oc,
    Webhook.payOSOrderCode env data = JS.Ok oc
    /\ (oc = None <-> JS.index data "orderCode" = JS.JUndefined
                      \/ JS.index data "orderCode" = JS.JNull)
    /\ (forall text, oc = Some text ->
          JS.toString (Webhook.Number_toString (Webhook.runtime env))
            (JS.index data "orderCode") = JS.Ok text).
Proof.
  intros Hs. unfold Webhook.payOSSortedData in Hs.
  destruct (JS.mapM _ (JS.sort (JS.keys data))) as [parts|] eqn:Hm;
    [|discriminate Hs].
  unfold Webhook.payOSOrderCode.
  assert (Hconv : forall v, JS.index data "orderCode" = v ->
            v <> JS.JUndefined ->
            exists text,
              JS.toString (Webhook.Number_toString (Webhook.runtime env)) v
              = JS.Ok text).
  { intros v Hv Hne. unfold JS.index in Hv.
    destruct (JS.lookup "orderCode" (JS.entries data)) as [x|] eqn:Hl;
      [|congruence].
    subst x. pose proof (lookup_some_key _ _ _ Hl) as Hk.
    assert (Hin : In "orderCode" (JS.sort (JS.keys data))).
    { apply (Permutation_in _ (Permutation_sym (sortBy_perm _ _))).
      exact Hk. }
    destruct (mapM_ok_in _ _ _ _ Hm Hin) as [y Hy].
    unfold JS.index in Hy. rewrite Hl in Hy.
    destruct (JS.toString _ v) as [text|]; [|discriminate Hy].
    exists text. reflexivity. }
  destruct (JS.index data "orderCode") as [| |b|n|s0|l|fields] eqn:Hi;
    [ exists None; split; [reflexivity|];
      split; [split; auto | discriminate]
    | exists None; split; [reflexivity|];
      split; [split; auto | discriminate]
    | .. ];
    (destruct (Hconv _ eq_refl) as [text Ht]; [discriminate|];
     rewrite (call_toString_ok _ _ _ Ht); exists (Some text);
     split; [reflexivity|];
     split; [split; [discriminate | intros [H|H]; discriminate H]|];
     intros t H; injection H as <-; exact Ht).
Qed.

(* ================================================================== *)
(** ** The ZaloPay verifier *)
(* ================================================================== *)

Lemma split_no_sep (sep : ascii) (s : string) :
  JS.has_char sep s = false -> JS.split sep s = [s].
Proof.
  induction s as [|c s IH]; simpl; [reflexivity|].
  intros H. apply orb_false_iff in H. destruct H as [Hc Hs].
  rewrite Hc, (IH Hs). reflexivity.
Qed.

Lemma split_app_sep (sep : ascii) (p rest : string) :
  JS.has_char sep p = false ->
  JS.split sep (p ++ String sep rest) = p :: JS.split sep rest.
Proof.
  induction p as [|c p IH]; simpl.
  - intros _. rewrite Ascii.eqb_refl. reflexivity.
  - intros H. apply orb_false_iff in H. destruct H as [Hc Hp].
    rewrite Hc, (IH Hp). reflexivity.
Qed.

Lemma split_second_segment (sep : ascii) (p q r : string) :
  JS.has_char sep p = false -> JS.has_char sep q = false ->
  r = EmptyString \/ (exists r', r = String sep r') ->
  nth_error (JS.split sep (p ++ String sep (q ++ r))) 1 = Some q.
Proof.
  intros Hp Hq Hr. rewrite (split_app_sep sep p _ Hp). simpl.
  destruct Hr as [-> | [r' ->]].
  - assert (E : (q ++ "")%string = q).
    { clear. induction q as [|c q IH]; simpl; [|rewrite IH]; reflexivity. }
    rewrite E, (split_no_sep sep q Hq). reflexivity.
  - rewrite (split_app_sep sep q r' Hq). reflexivity.
Qed.

Lemma strict_eq_str_true (v : JS.jsval) (s : string) :
  Webhook.strict_eq_str v s = true <-> v = JS.JStr s.
Proof.
  destruct v; simpl; try (split; [discriminate | intros H; discriminate]).
  split.
  - intros H. apply String.eqb_eq in H. subst. reflexivity.
  - intros H. inversion H. apply String.eqb_refl.
Qed.

Lemma truthy_str_true (s : string) :
  JS.truthy_str s = true <-> s <> EmptyString.
Proof.
  unfold JS.truthy_str. destruct (String.eqb_spec s ""); simpl; split;
    congruence.
Qed.

(** Past the MAC check the verifier parses the data document and takes
    the order code out of it. *)
Lemma verifyZaloPayCallback_authentic (env : Webhook.Env) (body : JS.jsval)
  (d : string) (mac : JS.jsval) :
  JS.get body "data" = JS.Ok (JS.JStr d) ->
  JS.get body "mac" = JS.Ok mac ->
  JS.truthy (JS.JStr d) = true -> JS.truthy mac = true ->
  mac = JS.JStr (Webhook.hmac_sha256_hex (Webhook.runtime env)
                   (Webhook.or_empty (Webhook.ZALOPAY_KEY2 (Webhook.process_env env))) d) ->
  Webhook.verifyZaloPayCallback env body =
    (let? dataJson := Webhook.JSON_parse (Webhook.runtime env) d in
     let? app_trans_id := JS.get dataJson "app_trans_id" in
     let? orderCode := Webhook.zaloPayOrderCode app_trans_id in
     JS.Ok (Webhook.mkCallbackResult orderCode true
              (JS.JObj [("return_code", JS.JNum 1);
                        ("return_message", JS.JStr "success")]))).
Proof.
  intros Hd Hm Htd Htm Hmac. unfold Webhook.verifyZaloPayCallback.
  rewrite Hd, Hm, Htd, Htm. cbn [negb orb Webhook.hmac_update_digest].
  apply strict_eq_str_true in Hmac. rewrite Hmac. reflexivity.
Qed.

Lemma classic_readable (v : JS.jsval) :
  (v <> JS.JUndefined /\ v <> JS.JNull)
  \/ ~ (v <> JS.JUndefined /\ v <> JS.JNull).
Proof.
  destruct v; try (left; split; discriminate);
    right; intros [H1 H2]; congruence.
Qed.

Lemma get_readable (v : JS.jsval) (k : string) :
  v <> JS.JUndefined -> v <> JS.JNull -> JS.get v k = JS.Ok (JS.index v k).
Proof. destruct v; intros H1 H2; try reflexivity; congruence. Qed.

Lemma or_empty_key (v : option string) :
  Webhook.or_empty v = match v with Some k => k | None => "" end.
Proof.
  destruct v as [k|]; [|reflexivity]. unfold Webhook.or_empty.
  destruct (JS.truthy_str k) eqn:E; [reflexivity|].
  unfold JS.truthy_str in E. apply negb_false_iff, String.eqb_eq in E.
  symmetry. exact E.
Qed.





(** The order code the verifier takes from a string field: its second
    [_]-separated segment when that exists and is not empty, else the
    whole field. *)
Lemma zaloPayOrderCode_string (t : string) :
  (JS.has_char "_" t = false ->
   Webhook.zaloPayOrderCode (JS.JStr t) = JS.Ok (Some t))
  /\ (forall p q r,
        t = (p ++ String "_" (q ++ r))%string ->
        JS.has_char "_" p = false -> JS.has_char "_" q = false ->
        r = EmptyString \/ (exists r', r = String "_" r') ->
        Webhook.zaloPayOrderCode (JS.JStr t)
        = JS.Ok (Some (if (q =? "")%string then t else q))).
Proof.
  split.
  - intros H. unfold Webhook.zaloPayOrderCode.
    rewrite (split_no_sep _ _ H). reflexivity.
  - intros p q r -> Hp Hq Hr. unfold Webhook.zaloPayOrderCode.
    rewrite (split_second_segment "_" p q r Hp Hq Hr).
    unfold JS.truthy_str. destruct (q =? "")%string; reflexivity.
Qed.

(** C4, as stated, fails: for the field [250101_ORD_1001] of an authentic
    callback the verifier extracts [ORD], not the text after the first
    underscore, [ORD_1001]. *)
Lemma zalopay_orderCode_after_first_underscore_fails :
  Webhook.verifyZaloPayCallback (Demo.webhook_env (Some "k2") 0)
    (Demo.zalo_body "k2" "250101_ORD_1001")
  = JS.Ok (Webhook.mkCallbackResult (Some "ORD") true
             (JS.JObj [("return_code", JS.JNum 1);
                       ("return_message", JS.JStr "success")]))
  /\ SpecText.orderCode_after_first_underscore "250101_ORD_1001" = "ORD_1001"
  /\ Some "ORD" <> Some (SpecText.orderCode_after_first_underscore "250101_ORD_1001").
Proof.
  split; [vm_compute; reflexivity|].
  split; [reflexivity|].
  vm_compute. discriminate.
Qed.

(** C4, amended. For an authentic ZaloPay callback whose data document
    holds the string [app_trans_id], the extracted order code is the
    segment between the first and the second underscore (up to the end
    when there is one underscore only) when that segment is not empty;
    it is the whole field when the field has no underscore or that
    segment is empty. *)
Theorem zalopay_orderCode_second_segment
  (env : Webhook.Env) (body dataJson : JS.jsval) (d t : string) :
  let key2 := Webhook.or_empty (Webhook.ZALOPAY_KEY2 (Webhook.process_env env)) in
  let mac := Webhook.hmac_sha256_hex (Webhook.runtime env) key2 d in
  JS.get body "data" = JS.Ok (JS.JStr d) ->
  JS.get body "mac" = JS.Ok (JS.JStr mac) ->
  d <> EmptyString -> mac <> EmptyString ->
  Webhook.JSON_parse (Webhook.runtime env) d = JS.Ok dataJson ->
  JS.get dataJson "app_trans_id" = JS.Ok (JS.JStr t) ->
  exists oc,
    Webhook.verifyZaloPayCallback env body
    = JS.Ok (Webhook.mkCallbackResult (Some oc) true
               (JS.JObj [("return_code", JS.JNum 1);
                         ("return_message", JS.JStr "success")]))
    /\ (JS.has_char "_" t = false -> oc = t)
    /\ (forall p q r,
          t = (p ++ String "_" (q ++ r))%string ->
          JS.has_char "_" p = false -> JS.has_char "_" q = false ->
          r = EmptyString \/ (exists r', r = String "_" r') ->
          oc = if (q =? "")%string then t else q).
Proof.
  intros key2 mac Hd Hm Hdne Hmne Hparse Happ.
  assert (Hv : Webhook.verifyZaloPayCallback env body =
               (let? orderCode := Webhook.zaloPayOrderCode (JS.JStr t) in
                JS.Ok (Webhook.mkCallbackResult orderCode true
                         (JS.JObj [("return_code", JS.JNum 1);
                                   ("return_message", JS.JStr "success")])))).
  { rewrite (verifyZaloPayCallback_authentic env body d (JS.JStr mac) Hd Hm).
    - rewrite Hparse, Happ. reflexivity.
    - apply truthy_str_true, Hdne.
    - apply truthy_str_true, Hmne.
    - reflexivity. }
  destruct (zaloPayOrderCode_string t) as [Hnone Hsome].
  assert (Hex : exists oc, Webhook.zaloPayOrderCode (JS.JStr t) = JS.Ok (Some oc)).
  { unfold Webhook.zaloPayOrderCode.
    destruct (nth_error (JS.split "_" t) 1) as [seg|]; [|eauto].
    destruct (JS.truthy_str seg); eauto. }
  destruct Hex as [oc Hoc]. exists oc. rewrite Hv, Hoc.
  split; [reflexivity|]. split.
  - intros H. rewrite (Hnone H) in Hoc. congruence.
  - intros p q r Ht Hp Hq Hr. rewrite (Hsome p q r Ht Hp Hq Hr) in Hoc.
    congruence.
Qed.

Lemma zalopay_orderCode_second_segment_witness :
  exists oc,
    Webhook.verifyZaloPayCallback (Demo.webhook_env (Some "k2") 0)
      (Demo.zalo_body "k2" "250101_ORD_1001")
    = JS.Ok (Webhook.mkCallbackResult (Some oc) true
               (JS.JObj [("return_code", JS.JNum 1);
                         ("return_message", JS.JStr "success")]))
    /\ oc = "ORD".
Proof.
  destruct (zalopay_orderCode_second_segment (Demo.webhook_env (Some "k2") 0)
              (Demo.zalo_body "k2" "250101_ORD_1001")
              (JS.JObj [("app_trans_id", JS.JStr "250101_ORD_1001")])
              (Demo.zalo_data "250101_ORD_1001") "250101_ORD_1001")
    as (oc & Hv & _ & Hseg).
  - reflexivity.
  - reflexivity.
  - vm_compute. discriminate.
  - vm_compute. discriminate.
  - reflexivity.
  - reflexivity.
  - exists oc. split; [exact Hv|].
    apply (Hseg "250101" "ORD" "_1001").
    + reflexivity.
    + reflexivity.
    + reflexivity.
    + right. exists "1001". reflexivity.
Defined.

(* ================================================================== *)
(** ** The webhook's transaction *)
(* ================================================================== *)

Lemma update_first_app {A : Type} (sel : A -> bool) (f : A -> A)
  (pre : list A) (x : A) (post : list A) :
  Forall (fun z => sel z = false) pre -> sel x = true ->
  Prisma.update_first sel f (pre ++ x :: post)%list
  = Some (f x, (pre ++ f x :: post)%list).
Proof.
  intros Hpre Hx. induction Hpre as [|z pre Hz _ IH]; simpl.
  - rewrite Hx. reflexivity.
  - rewrite Hz, IH. reflexivity.
Qed.

Lemma update_first_some {A : Type} (sel : A -> bool) (f : A -> A)
  (l : list A) (y : A) (l' : list A) :
  Prisma.update_first sel f l = Some (y, l') ->
  exists pre x post,
    l = (pre ++ x :: post)%list /\ Forall (fun z => sel z = false) pre /\
    sel x = true /\ y = f x /\ l' = (pre ++ f x :: post)%list.
Proof.
  revert y l'. induction l as [|z l IH]; simpl; intros y l' H.
  - discriminate.
  - destruct (sel z) eqn:Hz.
    + inversion H; subst. exists [], z, l. repeat split; auto.
    + destruct (Prisma.update_first sel f l) as [[y0 l0]|] eqn:E;
        [|discriminate].
      inversion H; subst.
      destruct (IH y l0 eq_refl) as (pre & x & post & -> & Hpre & Hx & -> & ->).
      exists (z :: pre), x, post. repeat split; auto.
Qed.

(** The transaction both payment handlers run, request by request. *)
Lemma webhook_transaction_run (env : Webhook.Env) (oc evt stamp : string)
  (set : Prisma.Payment -> Prisma.Payment) (db : Prisma.Db) :
  Prisma.transaction (Webhook.db_env env)
    (payment <- Prisma.payment_update (Webhook.db_env env) oc set ;;
     _ <- Prisma.outbox_create (Webhook.db_env env)
            (Prisma.mkOutboxCreateInput (Prisma.p_id payment) "Payment" evt
               (Webhook.paymentPayload env payment stamp) false 0) ;;
     Prisma.ret payment) db
  = if Prisma.db_fault (Webhook.db_env env) (Prisma.OpPaymentUpdate oc)
    then (JS.Throw Prisma.StorageError, db)
    else
      match Prisma.update_first
              (fun q => (Prisma.p_orderCode q =? oc)%string) set
              (Prisma.payments db) with
      | None => (JS.Throw Prisma.RecordNotFound, db)
      | Some (p, ps) =>
          if Prisma.db_fault (Webhook.db_env env)
               (Prisma.OpOutboxCreate (Prisma.p_id p))
          then (JS.Throw Prisma.StorageError, db)
          else if Prisma.db_fault (Webhook.db_env env) Prisma.OpCommit
          then (JS.Throw Prisma.StorageError, db)
          else
            (JS.Ok p,
             Prisma.mkDb ps
               (Prisma.outbox db ++
                [Prisma.mkOutbox (Prisma.outbox_seq db) (Prisma.p_id p)
                   "Payment" evt (Webhook.paymentPayload env p stamp)
                   false None 0 None
                   (Prisma.db_clock (Webhook.db_env env))])
               (S (Prisma.outbox_seq db)))
      end.
Proof.
  unfold Prisma.transaction, Prisma.bind, Prisma.payment_update,
    Prisma.outbox_create, Prisma.request, Prisma.ret.
  destruct (Prisma.db_fault (Webhook.db_env env) (Prisma.OpPaymentUpdate oc));
    [reflexivity|].
  destruct (Prisma.update_first _ set (Prisma.payments db)) as [[p ps]|];
    [|reflexivity].
  cbn [Prisma.in_aggregateId Prisma.in_aggregateType Prisma.in_eventType
       Prisma.in_payload Prisma.in_published Prisma.in_retryCount
       Prisma.payments Prisma.outbox Prisma.outbox_seq].
  destruct (Prisma.db_fault (Webhook.db_env env)
              (Prisma.OpOutboxCreate (Prisma.p_id p))); [reflexivity|].
  destruct (Prisma.db_fault (Webhook.db_env env) Prisma.OpCommit);
    reflexivity.
Qed.

(** What a callback with a resolved order code does to the store. *)
Lemma handleCallback_resolved (env : Webhook.Env)
  (provider : Webhook.PaymentProvider) (body : JS.jsval)
  (r : Webhook.CallbackResult) (oc : string) (db : Prisma.Db) :
  Webhook.verifyAndParseCallback env provider body = JS.Ok r ->
  Webhook.orderCode r = Some oc -> oc <> EmptyString ->
  Webhook.handleCallback env provider body db
  = match (if Webhook.success r then Webhook.handleSuccessPayment env oc db
           else Webhook.handleFailedPayment env oc db) with
    | (JS.Ok _, db') => (JS.Ok (Webhook.response r), db')
    | (JS.Throw e, db') => (JS.Throw e, db')
    end.
Proof.
  intros Hv Hoc Hne. unfold Webhook.handleCallback, Prisma.bind, Prisma.lift.
  rewrite Hv, Hoc. unfold Webhook.orderCode_missing. rewrite Hoc.
  apply truthy_str_true in Hne. rewrite Hne. cbn [negb].
  destruct (Webhook.success r); reflexivity.
Qed.

Lemma handlePayment_run (env : Webhook.Env) (ok : bool) (oc : string)
  (db : Prisma.Db) :
  (if ok then Webhook.handleSuccessPayment env oc db
   else Webhook.handleFailedPayment env oc db)
  = let set := if ok then Webhook.setCompleted env else Webhook.setFailed env in
    let evt := if ok then "PAYMENT_COMPLETED" else "PAYMENT_FAILED" in
    let stamp := if ok then "completed_at" else "failed_at" in
    if Prisma.db_fault (Webhook.db_env env) (Prisma.OpPaymentUpdate oc)
    then (JS.Throw Prisma.StorageError, db)
    else
      match Prisma.update_first
              (fun q => (Prisma.p_orderCode q =? oc)%string) set
              (Prisma.payments db) with
      | None => (JS.Throw Prisma.RecordNotFound, db)
      | Some (p, ps) =>
          if Prisma.db_fault (Webhook.db_env env)
               (Prisma.OpOutboxCreate (Prisma.p_id p))
          then (JS.Throw Prisma.StorageError, db)
          else if Prisma.db_fault (Webhook.db_env env) Prisma.OpCommit
          then (JS.Throw Prisma.StorageError, db)
          else
            (JS.Ok tt,
             Prisma.mkDb ps
               (Prisma.outbox db ++
                [Prisma.mkOutbox (Prisma.outbox_seq db) (Prisma.p_id p)
                   "Payment" evt (Webhook.paymentPayload env p stamp)
                   false None 0 None
                   (Prisma.db_clock (Webhook.db_env env))])
               (S (Prisma.outbox_seq db)))
      end.
Proof.
  destruct ok; cbv zeta;
    unfold Webhook.handleSuccessPayment, Webhook.handleFailedPayment;
    unfold Prisma.bind at 1; rewrite webhook_transaction_run;
    destruct (Prisma.db_fault (Webhook.db_env env) (Prisma.OpPaymentUpdate oc));
    try reflexivity;
    destruct (Prisma.update_first _ _ (Prisma.payments db)) as [[p ps]|];
    try reflexivity;
    destruct (Prisma.db_fault (Webhook.db_env env)
                (Prisma.OpOutboxCreate (Prisma.p_id p))); try reflexivity;
    destruct (Prisma.db_fault (Webhook.db_env env) Prisma.OpCommit);
    reflexivity.
Qed.

Lemma orderCode_sel_false (oc : string) (l : list Prisma.Payment) :
  Forall (fun q => (Prisma.p_orderCode q =? oc)%string = false) l
  <-> Forall (fun q => Prisma.p_orderCode q <> oc) l.
Proof.
  split; intros H; eapply Forall_impl; try exact H; intros q Hq;
    apply String.eqb_neq; exact Hq.
Qed.

(** C1. For a callback with a resolved order code, the payment update
    and the outbox insert happen together or not at all: the handler
    either throws and leaves the store exactly as it was, or returns the
    provider response with the matched Payment row set to its terminal
    status and timestamp and exactly one new outbox row appended
    (PAYMENT_COMPLETED or PAYMENT_FAILED, published false, retry count 0,
    the payload snapshot).  In particular a failing insert after the
    update, a failing commit, or a missing Payment row leave no change,
    and without failure both writes are committed. *)
Theorem webhook_payment_and_outbox_atomic
  (env : Webhook.Env) (provider : Webhook.PaymentProvider)
  (body : JS.jsval) (r : Webhook.CallbackResult) (oc : string)
  (db : Prisma.Db) :
  Webhook.verifyAndParseCallback env provider body = JS.Ok r ->
  Webhook.orderCode r = Some oc -> oc <> EmptyString ->
  let out := Webhook.handleCallback env provider body db in
  let ok := Webhook.success r in
  let fault := Prisma.db_fault (Webhook.db_env env) in
  let terminal p0 :=
    Prisma.mkPayment (Prisma.p_id p0) (Prisma.p_orderCode p0)
      (Prisma.p_amountCents p0) (Prisma.p_currency p0) (Prisma.p_provider p0)
      (if ok then Prisma.COMPLETED else Prisma.FAILED)
      (Prisma.p_providerTransactionId p0)
      (if ok then Some (Webhook.now env) else Prisma.p_completedAt p0)
      (if ok then Prisma.p_failedAt p0 else Some (Webhook.now env)) in
  let entry p0 :=
    Prisma.mkOutbox (Prisma.outbox_seq db) (Prisma.p_id p0) "Payment"
      (if ok then "PAYMENT_COMPLETED" else "PAYMENT_FAILED")
      [ ("payment_id", JS.JStr (Prisma.p_id p0));
        ("order_code", JS.JStr (Prisma.p_orderCode p0));
        ("amount_cents", JS.JNum (Prisma.p_amountCents p0));
        ("currency", JS.JStr (Prisma.p_currency p0));
        ("provider", JS.JStr (Prisma.p_provider p0));
        ("transaction_id",
         Webhook.opt_str (Prisma.p_providerTransactionId p0));
        (if ok then "completed_at" else "failed_at",
         JS.JStr (Webhook.toISOString (Webhook.runtime env) (Webhook.now env))) ]
      false None 0 None (Prisma.db_clock (Webhook.db_env env)) in
  let both pre p0 post :=
    (JS.Ok (Webhook.response r),
     Prisma.mkDb (pre ++ terminal p0 :: post)
                 (Prisma.outbox db ++ [entry p0])
                 (S (Prisma.outbox_seq db))) in
  ((exists e, out = (JS.Throw e, db))
   \/ (exists pre p0 post,
         Prisma.payments db = (pre ++ p0 :: post)%list /\
         Prisma.p_orderCode p0 = oc /\
         Forall (fun q => Prisma.p_orderCode q <> oc) pre /\
         out = both pre p0 post))
  /\ (Forall (fun q => Prisma.p_orderCode q <> oc) (Prisma.payments db) ->
      exists e, out = (JS.Throw e, db))
  /\ (forall pre p0 post,
        Prisma.payments db = (pre ++ p0 :: post)%list ->
        Prisma.p_orderCode p0 = oc ->
        Forall (fun q => Prisma.p_orderCode q <> oc) pre ->
        if fault (Prisma.OpPaymentUpdate oc)
           || fault (Prisma.OpOutboxCreate (Prisma.p_id p0))
           || fault Prisma.OpCommit
        then out = (JS.Throw Prisma.StorageError, db)
        else out = both pre p0 post).
Proof.
  intros Hv Hoc Hne out ok fault terminal entry both.
  assert (Hout : out = match (if ok then Webhook.handleSuccessPayment env oc db
                              else Webhook.handleFailedPayment env oc db) with
                       | (JS.Ok _, db') => (JS.Ok (Webhook.response r), db')
                       | (JS.Throw e, db') => (JS.Throw e, db')
                       end)
    by (apply handleCallback_resolved; assumption).
  rewrite handlePayment_run in Hout. cbv zeta in Hout. fold fault in Hout.
  assert (Hrun : forall pre p0 post,
            Prisma.payments db = (pre ++ p0 :: post)%list ->
            Prisma.p_orderCode p0 = oc ->
            Forall (fun q => Prisma.p_orderCode q <> oc) pre ->
            Prisma.update_first (fun q => (Prisma.p_orderCode q =? oc)%string)
              (if ok then Webhook.setCompleted env else Webhook.setFailed env)
              (Prisma.payments db)
            = Some (terminal p0, (pre ++ terminal p0 :: post)%list)).
  { intros pre p0 post Hp Hp0 Hpre. rewrite Hp.
    rewrite update_first_app.
    - unfold terminal. destruct ok; reflexivity.
    - apply orderCode_sel_false, Hpre.
    - apply String.eqb_eq, Hp0. }
  split; [|split].
  - destruct (fault (Prisma.OpPaymentUpdate oc)); [left; eauto|].
    destruct (Prisma.update_first _ _ (Prisma.payments db)) as [[p ps]|] eqn:E;
      [|left; eauto].
    destruct (update_first_some _ _ _ _ _ E)
      as (pre & p0 & post & Hp & Hpre & Hp0 & _ & _).
    apply String.eqb_eq in Hp0. apply orderCode_sel_false in Hpre.
    pose proof (Hrun pre p0 post Hp Hp0 Hpre) as E'.
    injection E' as E1 E2. subst p ps.
    destruct (fault (Prisma.OpOutboxCreate (Prisma.p_id (terminal p0))));
      [left; eauto|].
    destruct (fault Prisma.OpCommit); [left; eauto|].
    right. exists pre, p0, post. repeat split; assumption.
  - intros Hall.
    destruct (fault (Prisma.OpPaymentUpdate oc)); [eauto|].
    destruct (Prisma.update_first _ _ (Prisma.payments db)) as [[p ps]|] eqn:E;
      [|eauto].
    exfalso.
    destruct (update_first_some _ _ _ _ _ E)
      as (pre & p0 & post & Hp & _ & Hp0 & _ & _).
    apply String.eqb_eq in Hp0. rewrite Forall_forall in Hall.
    apply (Hall p0); [|exact Hp0].
    rewrite Hp. apply in_or_app. right. left. reflexivity.
  - intros pre p0 post Hp Hp0 Hpre.
    rewrite (Hrun pre p0 post Hp Hp0 Hpre) in Hout.
    replace (Prisma.p_id (terminal p0)) with (Prisma.p_id p0) in Hout
      by reflexivity.
    destruct (fault (Prisma.OpPaymentUpdate oc)); [exact Hout|].
    destruct (fault (Prisma.OpOutboxCreate (Prisma.p_id p0))); [exact Hout|].
    destruct (fault Prisma.OpCommit); [exact Hout|].
    exact Hout.
Qed.


Lemma webhook_payment_and_outbox_atomic_witness :
  Webhook.handleCallback (Demo.webhook_env (Some "k2") 1000) Webhook.ZALOPAY
    (Demo.zalo_body "k2" "250101_ORD-1001") Demo.db_pending
  = (JS.Ok (JS.JObj [("return_code", JS.JNum 1);
                     ("return_message", JS.JStr "success")]),
     Prisma.mkDb [Demo.payment Prisma.COMPLETED (Some 1000)]
       [Prisma.mkOutbox 0 "pay_1" "Payment" "PAYMENT_COMPLETED"
          [("payment_id", JS.JStr "pay_1");
           ("order_code", JS.JStr "ORD-1001");
           ("amount_cents", JS.JNum 150000);
           ("currency", JS.JStr "VND");
           ("provider", JS.JStr "ZALOPAY");
           ("transaction_id", JS.JStr "zp_77");
           ("completed_at", JS.JStr "T1000")]
          false None 0 None 1000]
       1).
Proof.
  exact (proj2 (proj2
    (webhook_payment_and_outbox_atomic
       (Demo.webhook_env (Some "k2") 1000) Webhook.ZALOPAY
       (Demo.zalo_body "k2" "250101_ORD-1001")
       (Webhook.mkCallbackResult (Some "ORD-1001") true
          (JS.JObj [("return_code", JS.JNum 1);
                    ("return_message", JS.JStr "success")]))
       "ORD-1001" Demo.db_pending
       eq_refl eq_refl
       (fun H : "ORD-1001"%string = EmptyString =>
          eq_ind "ORD-1001"%string
            (fun s => match s with EmptyString => False | _ => True end)
            I EmptyString H)))
    [] (Demo.payment Prisma.PENDING None) [] eq_refl eq_refl
    (Forall_nil _)).
Defined.

(** With a failing outbox insert the payment update made inside the
    transaction is not visible afterwards. *)
Example webhook_insert_failure_rolls_back :
  Webhook.handleCallback
    (Webhook.mkEnv Demo.runtime (Webhook.mkProcessEnv (Some "k2") None)
       (Prisma.mkDbEnv Demo.insert_fault 1000) 1000)
    Webhook.ZALOPAY (Demo.zalo_body "k2" "250101_ORD-1001") Demo.db_pending
  = (JS.Throw Prisma.StorageError, Demo.db_pending).
Proof. vm_compute. reflexivity. Qed.

(** C2 (the code departs from the claim). A replayed callback is not
    detected: the first callback completes the payment and inserts one
    outbox entry; the same callback again, one second later, rewrites
    [completedAt] and inserts a second PAYMENT_COMPLETED entry for the
    same payment. *)
Example webhook_replay_inserts_second_entry :
  let body := Demo.zalo_body "k2" "250101_ORD-1001" in
  let first := Webhook.handleCallback (Demo.webhook_env (Some "k2") 1000)
                 Webhook.ZALOPAY body Demo.db_pending in
  let second := Webhook.handleCallback (Demo.webhook_env (Some "k2") 2000)
                  Webhook.ZALOPAY body (snd first) in
  fst first = fst second
  /\ Prisma.payments (snd first)
     = [Demo.payment Prisma.COMPLETED (Some 1000)]
  /\ Prisma.payments (snd second)
     = [Demo.payment Prisma.COMPLETED (Some 2000)]
  /\ map (fun e => (Prisma.id e, Prisma.aggregateId e, Prisma.eventType e))
         (Prisma.outbox (snd first))
     = [(0%nat, "pay_1", "PAYMENT_COMPLETED")]
  /\ map (fun e => (Prisma.id e, Prisma.aggregateId e, Prisma.eventType e))
         (Prisma.outbox (snd second))
     = [(0%nat, "pay_1", "PAYMENT_COMPLETED");
        (1%nat, "pay_1", "PAYMENT_COMPLETED")].
Proof. vm_compute. repeat split; reflexivity. Qed.



(** The unsigned-by-anyone callback of the example above does reach the
    store: the pending payment is completed and an outbox entry is
    inserted. *)
Example unset_secret_callback_mutates_store :
  let out := Webhook.handleCallback (Demo.webhook_env None 1000) Webhook.PAYOS
               (Demo.payos_body "") Demo.db_payos in
  fst out = JS.Ok (JS.JObj [("success", JS.JBool true)])
  /\ map Prisma.p_status (Prisma.payments (snd out)) = [Prisma.COMPLETED]
  /\ map Prisma.eventType (Prisma.outbox (snd out)) = ["PAYMENT_COMPLETED"].
Proof. vm_compute. repeat split; reflexivity. Qed.

(* ================================================================== *)
(** ** The relay's batch *)
(* ================================================================== *)

Lemma createdAt_asc_total (a b : Prisma.Outbox) :
  Prisma.createdAt_asc a b = true \/ Prisma.createdAt_asc b a = true.
Proof. unfold Prisma.createdAt_asc. lia. Qed.

Lemma createdAt_asc_trans (a b c : Prisma.Outbox) :
  Prisma.createdAt_asc a b = true -> Prisma.createdAt_asc b c = true ->
  Prisma.createdAt_asc a c = true.
Proof. unfold Prisma.createdAt_asc. lia. Qed.

Lemma StronglySorted_app_le {A : Type} (R : A -> A -> Prop) (l1 l2 : list A) :
  StronglySorted R (l1 ++ l2) ->
  forall a b, In a l1 -> In b l2 -> R a b.
Proof.
  induction l1 as [|x l1 IH]; simpl; intros Hs a b Ha Hb; [contradiction|].
  inversion Hs as [|? ? Hs' Hall]; subst.
  destruct Ha as [<- | Ha].
  - rewrite Forall_forall in Hall. apply Hall, in_or_app. right. exact Hb.
  - apply IH; assumption.
Qed.

Lemma pending_spec (r : Prisma.Outbox) :
  Relay.pending r = true <->
  Prisma.published r = false /\ Prisma.retryCount r < Relay.MAX_RETRIES.
Proof.
  unfold Relay.pending. rewrite andb_true_iff, negb_true_iff, Z.ltb_lt.
  reflexivity.
Qed.

Lemma findBatch_run (env : Relay.Env) (db : Prisma.Db) :
  Relay.findBatch env db
  = if Prisma.db_fault (Relay.db_env env) Prisma.OpOutboxFindMany
    then (JS.Throw Prisma.StorageError, db)
    else (JS.Ok (firstn Relay.BATCH_SIZE
                   (JS.sortBy Prisma.createdAt_asc
                      (filter Relay.pending (Prisma.outbox db)))), db).
Proof. reflexivity. Qed.

(** C6. The batch query of the relay returns (unless the store fails,
    and then nothing) at most 100 rows of the outbox table, each with
    published = false and retryCount < 5, in ascending order of
    createdAt; these are the oldest pending rows, and the query changes
    nothing in the store. *)
Theorem relay_batch_selection (env : Relay.Env) (db : Prisma.Db) :
  Relay.MAX_RETRIES = 5 /\ Relay.BATCH_SIZE = 100%nat /\
  if Prisma.db_fault (Relay.db_env env) Prisma.OpOutboxFindMany
  then Relay.findBatch env db = (JS.Throw Prisma.StorageError, db)
  else
    exists batch,
      Relay.findBatch env db = (JS.Ok batch, db)
      /\ (List.length batch <= 100)%nat
      /\ Forall (fun r => Prisma.published r = false
                          /\ Prisma.retryCount r < 5) batch
      /\ StronglySorted
           (fun a b => Prisma.createdAt a <= Prisma.createdAt b) batch
      /\ (forall r, In r batch -> In r (Prisma.outbox db))
      /\ (forall r r', In r batch -> In r' (Prisma.outbox db) ->
            Prisma.published r' = false -> Prisma.retryCount r' < 5 ->
            In r' batch \/ Prisma.createdAt r <= Prisma.createdAt r').
Proof.
  split; [reflexivity|]. split; [reflexivity|].
  rewrite findBatch_run.
  destruct (Prisma.db_fault (Relay.db_env env) Prisma.OpOutboxFindMany);
    [reflexivity|].
  set (rows := JS.sortBy Prisma.createdAt_asc
                 (filter Relay.pending (Prisma.outbox db))).
  assert (Hperm : Permutation rows (filter Relay.pending (Prisma.outbox db)))
    by apply sortBy_perm.
  assert (Hsorted : StronglySorted
                      (fun a b => Prisma.createdAt a <= Prisma.createdAt b) rows).
  { eapply StronglySorted_ind with
      (P := StronglySorted (fun a b => Prisma.createdAt a <= Prisma.createdAt b));
      [constructor | | apply (sortBy_sorted Prisma.createdAt_asc
                                createdAt_asc_total createdAt_asc_trans)].
    intros a l _ IH Hall. constructor; [exact IH|].
    eapply Forall_impl; [|exact Hall].
    intros b Hb. unfold Prisma.createdAt_asc in Hb. lia. }
  exists (firstn Relay.BATCH_SIZE rows). split; [reflexivity|].
  split; [apply firstn_le_length|].
  assert (Hin : forall r, In r (firstn Relay.BATCH_SIZE rows) ->
                          In r (Prisma.outbox db) /\ Relay.pending r = true).
  { intros r Hr. apply In_firstn in Hr.
    apply (Permutation_in _ Hperm) in Hr. apply filter_In in Hr. exact Hr. }
  split; [|split; [|split]].
  - apply Forall_forall. intros r Hr.
    destruct (Hin r Hr) as [_ Hp]. apply pending_spec in Hp. exact Hp.
  - apply firstn_StronglySorted, Hsorted.
  - intros r Hr. apply (Hin r Hr).
  - intros r r' Hr Hr' Hpub Hretry.
    assert (Hrows : In r' rows).
    { apply (Permutation_in _ (Permutation_sym Hperm)).
      apply filter_In. split; [exact Hr'|].
      apply pending_spec. split; assumption. }
    rewrite <- (firstn_skipn Relay.BATCH_SIZE rows) in Hrows, Hsorted.
    apply in_app_or in Hrows. destruct Hrows as [H|H]; [left; exact H|].
    right. exact (StronglySorted_app_le _ _ _ Hsorted r r' Hr H).
Qed.

(* ================================================================== *)
(** ** The sweeper *)
(* ================================================================== *)

Lemma timeClip_some (t : Z) (d : Prisma.Date) :
  Cleanup.timeClip t = Some d <-> d = t /\ Z.abs t <= 8640000000000000.
Proof.
  unfold Cleanup.timeClip, Cleanup.MAX_TIME.
  destruct (Z.leb_spec (Z.abs t) 8640000000000000); split.
  - intros H0. injection H0 as <-. split; [reflexivity | assumption].
  - intros [-> _]. reflexivity.
  - discriminate.
  - intros [_ H0]. lia.
Qed.

(** The cutoff is a date exactly when the clock reading is one, the
    variable reads as a number of days, and that many days before the
    reading is within the range of dates. *)
Lemma cutoffDate_some (env : Cleanup.Env) (cutoff : Prisma.Date) :
  Cleanup.cutoffDate env = Some cutoff <->
  exists days,
    Cleanup.RETENTION_DAYS env = Some days
    /\ cutoff = Cleanup.now env - days * 86400000
    /\ Z.abs (Cleanup.now env) <= 8640000000000000
    /\ Z.abs cutoff <= 8640000000000000.
Proof.
  unfold Cleanup.cutoffDate, Cleanup.MS_PER_DAY. split.
  - destruct (Cleanup.timeClip (Cleanup.now env)) as [t|] eqn:Ht;
      [|discriminate].
    apply timeClip_some in Ht. destruct Ht as [-> Hnow].
    destruct (Cleanup.RETENTION_DAYS env) as [days|]; [|discriminate].
    intros H. apply timeClip_some in H. destruct H as [-> Hc].
    exists days. auto.
  - intros (days & -> & -> & Hnow & Hc).
    rewrite (proj2 (timeClip_some (Cleanup.now env) (Cleanup.now env)))
      by auto.
    apply timeClip_some. auto.
Qed.

Lemma expired_spec (cutoff : Prisma.Date) (r : Prisma.Outbox) :
  Cleanup.expired cutoff r = true <->
  Prisma.published r = true /\
  exists t, Prisma.publishedAt r = Some t /\ t < cutoff.
Proof.
  unfold Cleanup.expired, Prisma.date_lt. rewrite andb_true_iff.
  destruct (Prisma.publishedAt r) as [t|].
  - rewrite Z.ltb_lt. split.
    + intros [H1 H2]. split; [exact H1|]. exists t. split; [reflexivity|lia].
    + intros [H1 (t' & Ht & Hlt)]. inversion Ht; subst. split; [exact H1|lia].
  - split; [intros [_ H]; discriminate|].
    intros [_ (t & Ht & _)]. discriminate.
Qed.

Lemma stuck_spec (r : Prisma.Outbox) :
  Cleanup.stuck r = true <->
  Prisma.published r = false /\ Cleanup.MAX_RETRIES <= Prisma.retryCount r.
Proof.
  unfold Cleanup.stuck. rewrite andb_true_iff, negb_true_iff, Z.leb_le.
  reflexivity.
Qed.

Lemma filter_negb_length {A : Type} (f : A -> bool) (l : list A) :
  List.length l
  = (List.length (filter f l) + List.length (filter (fun x => negb (f x)) l))%nat.
Proof.
  induction l as [|x l IH]; simpl; [reflexivity|].
  destruct (f x); simpl; lia.
Qed.

Lemma filter_none {A : Type} (f : A -> bool) (l : list A) :
  filter f (filter (fun x => negb (f x)) l) = [].
Proof.
  induction l as [|x l IH]; simpl; [reflexivity|].
  destruct (f x) eqn:E; simpl; [exact IH|]. rewrite E. exact IH.
Qed.

Lemma filter_id {A : Type} (f : A -> bool) (l : list A) :
  filter (fun x => negb (f x)) (filter (fun x => negb (f x)) l)
  = filter (fun x => negb (f x)) l.
Proof.
  induction l as [|x l IH]; simpl; [reflexivity|].
  destruct (f x) eqn:E; simpl; [exact IH|]. rewrite E. simpl. rewrite IH.
  reflexivity.
Qed.

Lemma filter_stuck_unexpired (cutoff : Prisma.Date) (l : list Prisma.Outbox) :
  filter Cleanup.stuck (filter (fun r => negb (Cleanup.expired cutoff r)) l)
  = filter Cleanup.stuck l.
Proof.
  assert (Hgone : forall r, negb (Cleanup.expired cutoff r) = false ->
                            Cleanup.stuck r = false).
  { intros r. unfold Cleanup.expired, Cleanup.stuck.
    destruct (Prisma.published r); simpl; [reflexivity | discriminate]. }
  induction l as [|r l IH]; [reflexivity|].
  cbn [filter]. destruct (negb (Cleanup.expired cutoff r)) eqn:K; cbn [filter].
  - rewrite IH. reflexivity.
  - rewrite (Hgone r K). exact IH.
Qed.

(** C9. A sweeper run on a store that answers, at a clock reading
    [now]: with RETENTION_DAYS read as the number [days] (7 when the
    variable is unset) and the cutoff [now - days * 86400000] a valid
    date, the run deletes exactly the outbox rows with published = true
    and publishedAt before the cutoff, keeps every other row, and
    returns the number of rows it deleted; run again at once it deletes
    nothing.  The report of failed events returns exactly the rows with
    published = false and retryCount >= 5 and changes nothing: these
    rows survive the delete as well.  When RETENTION_DAYS is not a
    number, or the cutoff is out of the range of dates, the delete
    throws and the store is as it was. *)
Theorem sweeper_deletes_expired_and_reports_stuck
  (env : Cleanup.Env) (db : Prisma.Db) :
  (forall op, Prisma.db_fault (Cleanup.db_env env) op = false) ->
  Z.abs (Cleanup.now env) <= 8640000000000000 ->
  (Cleanup.ENV_RETENTION_DAYS env = None ->
   Cleanup.RETENTION_DAYS env = Some 7)
  /\ match Cleanup.RETENTION_DAYS env with
     | None =>
         exists e,
           Cleanup.deleteOldPublishedEvents env db = (JS.Throw e, db)
     | Some days =>
         let cutoff := Cleanup.now env - days * 86400000 in
         if Z.abs cutoff <=? 8640000000000000 then
           exists n db1 failedEvents,
             Cleanup.deleteOldPublishedEvents env db = (JS.Ok n, db1)
             /\ Prisma.payments db1 = Prisma.payments db
             /\ (forall r, In r (Prisma.outbox db1) <->
                   In r (Prisma.outbox db) /\
                   ~ (Prisma.published r = true /\
                      exists t, Prisma.publishedAt r = Some t /\ t < cutoff))
             /\ List.length (Prisma.outbox db)
                = (n + List.length (Prisma.outbox db1))%nat
             /\ Cleanup.deleteOldPublishedEvents env db1 = (JS.Ok 0%nat, db1)
             /\ Cleanup.monitorFailedEvents env db1 = (JS.Ok failedEvents, db1)
             /\ Permutation failedEvents
                  (filter (fun r => negb (Prisma.published r)
                                    && (5 <=? Prisma.retryCount r))
                          (Prisma.outbox db))
             /\ (forall r, In r failedEvents <->
                   In r (Prisma.outbox db) /\ Prisma.published r = false /\
                   5 <= Prisma.retryCount r)
             /\ (forall r, In r failedEvents -> In r (Prisma.outbox db1))
         else
           exists e,
             Cleanup.deleteOldPublishedEvents env db = (JS.Throw e, db)
     end.
Proof.
  intros Hnf Hnow. split.
  - intros Henv. unfold Cleanup.RETENTION_DAYS. rewrite Henv. reflexivity.
  - assert (Hclip : Cleanup.timeClip (Cleanup.now env) = Some (Cleanup.now env)).
    { unfold Cleanup.timeClip, Cleanup.MAX_TIME.
      destruct (Z.leb_spec (Z.abs (Cleanup.now env)) 8640000000000000);
        [reflexivity | lia]. }
    destruct (Cleanup.RETENTION_DAYS env) as [days|] eqn:Hdays.
    2:{ eexists. unfold Cleanup.deleteOldPublishedEvents, Cleanup.cutoffDate.
        rewrite Hclip, Hdays. reflexivity. }
    cbv zeta. set (cutoff := Cleanup.now env - days * 86400000).
    assert (Hdate : Cleanup.cutoffDate env
                    = if Z.abs cutoff <=? 8640000000000000 then Some cutoff
                      else None).
    { unfold Cleanup.cutoffDate. rewrite Hclip, Hdays. reflexivity. }
    destruct (Z.abs cutoff <=? 8640000000000000).
    2:{ eexists. unfold Cleanup.deleteOldPublishedEvents.
        rewrite Hdate. reflexivity. }
    rename Hdate into Hcut.
    set (keep := fun r => negb (Cleanup.expired cutoff r)).
    set (db1 := Prisma.mkDb (Prisma.payments db)
                  (filter keep (Prisma.outbox db)) (Prisma.outbox_seq db)).
    assert (Hkeep : forall r, In r (Prisma.outbox db1) <->
              In r (Prisma.outbox db) /\
              ~ (Prisma.published r = true /\
                 exists t, Prisma.publishedAt r = Some t /\ t < cutoff)).
    { intros r. cbn [db1 Prisma.outbox]. rewrite filter_In.
      unfold keep. rewrite negb_true_iff, <- expired_spec.
      destruct (Cleanup.expired cutoff r); intuition congruence. }
    assert (Hstuck : forall rows r,
              In r (JS.sortBy Prisma.createdAt_desc (filter Cleanup.stuck rows))
              <-> In r rows /\ Prisma.published r = false /\
                  5 <= Prisma.retryCount r).
    { intros rows r. rewrite <- stuck_spec, <- filter_In.
      split; apply Permutation_in;
        [|apply Permutation_sym]; apply sortBy_perm. }
    assert (Hsame : filter Cleanup.stuck (Prisma.outbox db1)
                    = filter Cleanup.stuck (Prisma.outbox db)).
    { apply filter_stuck_unexpired. }
    exists (List.length (filter (Cleanup.expired cutoff) (Prisma.outbox db))),
      db1,
      (JS.sortBy Prisma.createdAt_desc (filter Cleanup.stuck (Prisma.outbox db))).
    split; [|split; [|split; [|split; [|split; [|split; [|split; [|split]]]]]]].
    + unfold Cleanup.deleteOldPublishedEvents. rewrite Hcut.
      unfold Prisma.outbox_deleteMany, Prisma.request. rewrite Hnf.
      reflexivity.
    + reflexivity.
    + exact Hkeep.
    + cbn [db1 Prisma.outbox]. apply filter_negb_length.
    + unfold Cleanup.deleteOldPublishedEvents. rewrite Hcut.
      unfold Prisma.outbox_deleteMany, Prisma.request. rewrite Hnf.
      cbn [db1 Prisma.outbox Prisma.payments Prisma.outbox_seq].
      fold keep. unfold keep at 2.
      rewrite (filter_none (Cleanup.expired cutoff)).
      unfold keep. rewrite (filter_id (Cleanup.expired cutoff)). reflexivity.
    + unfold Cleanup.monitorFailedEvents, Prisma.outbox_findMany,
        Prisma.request. rewrite Hnf, Hsame. reflexivity.
    + apply sortBy_perm.
    + apply Hstuck.
    + intros r Hr. apply Hstuck in Hr. apply Hkeep.
      destruct Hr as (Hin & Hpub & _). split; [exact Hin|].
      intros [Hp _]. congruence.
Qed.

Lemma sweeper_deletes_expired_and_reports_stuck_witness :
  exists n db1 failedEvents,
    Cleanup.deleteOldPublishedEvents (Demo.cleanup_env (10 * Demo.day))
      Demo.db_outbox = (JS.Ok n, db1)
    /\ List.length (Prisma.outbox Demo.db_outbox)
       = (n + List.length (Prisma.outbox db1))%nat
    /\ Cleanup.monitorFailedEvents (Demo.cleanup_env (10 * Demo.day)) db1
       = (JS.Ok failedEvents, db1)
    /\ In (Demo.row 2 "PAYMENT_COMPLETED" false None 5 (3 * Demo.day))
          failedEvents.
Proof.
  assert (Hnf : forall op,
            Prisma.db_fault
              (Cleanup.db_env (Demo.cleanup_env (10 * Demo.day))) op = false)
    by (intros op; reflexivity).
  assert (Hnow : Z.abs (Cleanup.now (Demo.cleanup_env (10 * Demo.day)))
                 <= 8640000000000000) by (vm_compute; discriminate).
  destruct (proj2 (sweeper_deletes_expired_and_reports_stuck
                     (Demo.cleanup_env (10 * Demo.day)) Demo.db_outbox
                     Hnf Hnow))
    as (n & db1 & failedEvents & Hdel & _ & _ & Hlen & _ & Hmon & _
        & Hin & _).
  exists n, db1, failedEvents.
  split; [exact Hdel|]. split; [exact Hlen|]. split; [exact Hmon|].
  apply Hin. split.
  - right. right. left. reflexivity.
  - split; [reflexivity|]. vm_compute. discriminate.
Defined.

(** The sweep of the sample table: the old published row goes, the count
    is 1, and the row out of retries is reported and kept. *)
Example sweeper_run_on_sample :
  let env := Demo.cleanup_env (10 * Demo.day) in
  let first := Cleanup.deleteOldPublishedEvents env Demo.db_outbox in
  fst first = JS.Ok 1%nat
  /\ map Prisma.id (Prisma.outbox (snd first)) = [1; 2; 3]%nat
  /\ fst (Cleanup.deleteOldPublishedEvents env (snd first)) = JS.Ok 0%nat
  /\ match fst (Cleanup.monitorFailedEvents env (snd first)) with
     | JS.Ok rows => map Prisma.id rows = [2%nat]
     | JS.Throw _ => False
     end.
Proof. vm_compute. repeat split; reflexivity. Qed.

(* ================================================================== *)
(** ** A relay pass *)
(* ================================================================== *)

Lemma apply_update_id (data : Prisma.OutboxUpdateInput) (r : Prisma.Outbox) :
  Prisma.id (Prisma.apply_update data r) = Prisma.id r.
Proof. destruct data; reflexivity. Qed.

Lemma In_same_id (rows : list Prisma.Outbox) (a b : Prisma.Outbox) :
  NoDup (map Prisma.id rows) -> In a rows -> In b rows ->
  Prisma.id a = Prisma.id b -> a = b.
Proof.
  induction rows as [|x rows IH]; simpl; intros Hnd Ha Hb Hid; [contradiction|].
  inversion Hnd as [|? ? Hx Hnd']; subst.
  destruct Ha as [<- | Ha], Hb as [<- | Hb].
  - reflexivity.
  - exfalso. apply Hx. rewrite Hid. apply in_map, Hb.
  - exfalso. apply Hx. rewrite <- Hid. apply in_map, Ha.
  - apply IH; assumption.
Qed.

Lemma map_unmatched (f : Prisma.Outbox -> Prisma.Outbox) (i : nat)
  (rows : list Prisma.Outbox) :
  ~ In i (map Prisma.id rows) ->
  map (fun r => if Nat.eqb (Prisma.id r) i then f r else r) rows = rows.
Proof.
  induction rows as [|x rows IH]; simpl; intros H; [reflexivity|].
  destruct (Nat.eqb_spec (Prisma.id x) i) as [E|E].
  - exfalso. apply H. left. exact E.
  - rewrite IH; [reflexivity|]. intros Hin. apply H. right. exact Hin.
Qed.

Lemma update_first_by_id (f : Prisma.Outbox -> Prisma.Outbox) (i : nat)
  (rows : list Prisma.Outbox) (r0 : Prisma.Outbox) :
  NoDup (map Prisma.id rows) -> In r0 rows -> Prisma.id r0 = i ->
  Prisma.update_first (fun r => Nat.eqb (Prisma.id r) i) f rows
  = Some (f r0, map (fun r => if Nat.eqb (Prisma.id r) i then f r else r) rows).
Proof.
  induction rows as [|x rows IH]; simpl; intros Hnd Hin Hid; [contradiction|].
  inversion Hnd as [|? ? Hx Hnd']; subst.
  destruct (Nat.eqb_spec (Prisma.id x) (Prisma.id r0)) as [E|E].
  - assert (x = r0).
    { destruct Hin as [H|H]; [exact H|].
      exfalso. apply Hx. rewrite E. apply in_map, H. }
    subst x. rewrite map_unmatched by exact Hx. reflexivity.
  - destruct Hin as [H|H]; [subst x; congruence|].
    rewrite (IH Hnd' H eq_refl). reflexivity.
Qed.

Lemma map_same {A : Type} (b : A -> bool) (l : list A) :
  map (fun r => if b r then r else r) l = l.
Proof.
  induction l as [|x l IH]; simpl; [reflexivity|].
  rewrite IH. destruct (b x); reflexivity.
Qed.

(** What the lookup finds is truthy: a topic name is never the empty
    string. *)
Lemma TOPIC_MAPPING_truthy (env : Relay.Env) (eventType : string)
  (topic : Relay.TopicValue) :
  Relay.TOPIC_MAPPING env eventType = Some topic ->
  Relay.truthy_topic topic = true.
Proof.
  assert (Hd : forall v dflt, dflt <> EmptyString ->
                 JS.truthy_str (Relay.or_default v dflt) = true).
  { intros [s0|] dflt Hne; unfold Relay.or_default;
      [destruct (JS.truthy_str s0) eqn:E; [exact E|] |];
      apply truthy_str_true, Hne. }
  unfold Relay.TOPIC_MAPPING.
  destruct (eventType =? "PAYMENT_COMPLETED")%string;
    [intros H; injection H as <-; apply Hd; discriminate|].
  destruct (eventType =? "PAYMENT_FAILED")%string;
    [intros H; injection H as <-; apply Hd; discriminate|].
  destruct (existsb _ _); [|discriminate].
  intros H; injection H as <-. reflexivity.
Qed.

(** So [publishEvent] has three branches: no value found, the send
    accepted, the send refused. *)
Lemma publishEvent_branches (env : Relay.Env) (event : Prisma.Outbox) :
  Relay.publishEvent env event
  = match Relay.TOPIC_MAPPING env (Prisma.eventType event) with
    | None =>
        _ <- Prisma.outbox_update (Relay.db_env env) (Prisma.id event)
               (Prisma.IncrementRetry
                  ("Unknown event type: " ++ Prisma.eventType event)) ;;
        Prisma.ret tt
    | Some topic =>
        Prisma.try_catch
          (_ <- Prisma.lift
                  (Relay.send env (Relay.producerRecord env topic event)) ;;
           _ <- Prisma.outbox_update (Relay.db_env env) (Prisma.id event)
                  (Prisma.SetPublished (Relay.now env event)) ;;
           Prisma.ret tt)
          (fun error =>
             _ <- Prisma.outbox_update (Relay.db_env env) (Prisma.id event)
                    (Prisma.IncrementRetry (Relay.errorText error)) ;;
             Prisma.throw error)
    end.
Proof.
  unfold Relay.publishEvent.
  destruct (Relay.TOPIC_MAPPING env (Prisma.eventType event)) as [topic|] eqn:E;
    [rewrite (TOPIC_MAPPING_truthy _ _ _ E)|]; reflexivity.
Qed.

(** The store after [publishEvent], when the event's row is in the
    table: that row carries the update that went through, the others are
    as they were. *)
Lemma publishEvent_run (env : Relay.Env) (event : Prisma.Outbox)
  (db : Prisma.Db) :
  NoDup (map Prisma.id (Prisma.outbox db)) ->
  In event (Prisma.outbox db) ->
  snd (Relay.publishEvent env event db)
  = Prisma.mkDb (Prisma.payments db)
      (map (fun r => if Nat.eqb (Prisma.id r) (Prisma.id event)
                     then match Relay.settledUpdate env event with
                          | Some data => Prisma.apply_update data r
                          | None => r
                          end
                     else r) (Prisma.outbox db))
      (Prisma.outbox_seq db).
Proof.
  intros Hnd Hin.
  assert (Hupd : forall data,
    Prisma.outbox_update (Relay.db_env env) (Prisma.id event) data db
    = if Prisma.db_fault (Relay.db_env env)
           (Prisma.OpOutboxUpdate (Prisma.id event) data)
      then (JS.Throw Prisma.StorageError, db)
      else (JS.Ok (Prisma.apply_update data event),
            Prisma.mkDb (Prisma.payments db)
              (map (fun r => if Nat.eqb (Prisma.id r) (Prisma.id event)
                             then Prisma.apply_update data r else r)
                   (Prisma.outbox db))
              (Prisma.outbox_seq db))).
  { intros data. unfold Prisma.outbox_update, Prisma.request.
    destruct (Prisma.db_fault _ _); [reflexivity|].
    rewrite (update_first_by_id _ _ _ event Hnd Hin eq_refl). reflexivity. }
  assert (Hsame : Prisma.mkDb (Prisma.payments db)
                    (map (fun r => if Nat.eqb (Prisma.id r) (Prisma.id event)
                                   then r else r) (Prisma.outbox db))
                    (Prisma.outbox_seq db) = db).
  { rewrite map_same. destruct db; reflexivity. }
  rewrite publishEvent_branches. unfold Relay.settledUpdate.
  destruct (Relay.TOPIC_MAPPING env (Prisma.eventType event)) as [topic|].
  - unfold Prisma.try_catch, Prisma.bind, Prisma.lift, Prisma.throw, Prisma.ret.
    destruct (Relay.send env (Relay.producerRecord env topic event)) as [u|error].
    + rewrite (Hupd (Prisma.SetPublished (Relay.now env event))).
      destruct (Prisma.db_fault _ (Prisma.OpOutboxUpdate _ (Prisma.SetPublished _)));
        [|reflexivity].
      rewrite (Hupd (Prisma.IncrementRetry (Relay.errorText Prisma.StorageError))).
      destruct (Prisma.db_fault _ _); cbn [snd];
        [symmetry; exact Hsame | reflexivity].
    + rewrite (Hupd (Prisma.IncrementRetry (Relay.errorText error))).
      destruct (Prisma.db_fault _ _); cbn [snd];
        [symmetry; exact Hsame | reflexivity].
  - unfold Prisma.bind, Prisma.ret. rewrite Hupd.
    destruct (Prisma.db_fault _ _); cbn [snd];
      [symmetry; exact Hsame | reflexivity].
Qed.

Lemma settle_cons (env : Relay.Env) (e : Prisma.Outbox)
  (rest : list Prisma.Outbox) (r : Prisma.Outbox) :
  ~ In (Prisma.id e) (map Prisma.id rest) ->
  Relay.settle env rest
    (if Nat.eqb (Prisma.id r) (Prisma.id e)
     then match Relay.settledUpdate env e with
          | Some data => Prisma.apply_update data r
          | None => r
          end
     else r)
  = Relay.settle env (e :: rest) r.
Proof.
  intros Hfresh. unfold Relay.settle at 2. cbn [find].
  rewrite (Nat.eqb_sym (Prisma.id e) (Prisma.id r)).
  destruct (Nat.eqb_spec (Prisma.id r) (Prisma.id e)) as [E|E];
    [|reflexivity].
  assert (Hnone : forall r', Prisma.id r' = Prisma.id e ->
                    Relay.settle env rest r' = r').
  { intros r' Hr'. unfold Relay.settle.
    destruct (find (fun e0 => Nat.eqb (Prisma.id e0) (Prisma.id r')) rest)
      as [e0|] eqn:F; [|reflexivity].
    exfalso. apply find_some in F. destruct F as [Hin Heq].
    apply Nat.eqb_eq in Heq. apply Hfresh. rewrite <- Hr', <- Heq.
    apply in_map, Hin. }
  destruct (Relay.settledUpdate env e) as [data|]; apply Hnone;
    [rewrite apply_update_id|]; exact E.
Qed.

Lemma allSettled_run (env : Relay.Env) (batch : list Prisma.Outbox) :
  forall db,
    NoDup (map Prisma.id (Prisma.outbox db)) ->
    NoDup (map Prisma.id batch) ->
    (forall e, In e batch -> In e (Prisma.outbox db)) ->
    exists rs,
      Relay.allSettled env batch db
      = (JS.Ok rs,
         Prisma.mkDb (Prisma.payments db)
           (map (Relay.settle env batch) (Prisma.outbox db))
           (Prisma.outbox_seq db)).
Proof.
  induction batch as [|e rest IH]; intros db Hnd Hbatch Hsub.
  - exists []. cbn [Relay.allSettled]. unfold Prisma.ret.
    replace (map (Relay.settle env []) (Prisma.outbox db))
      with (Prisma.outbox db)
      by (symmetry; rewrite <- (map_id (Prisma.outbox db)) at 2;
          apply map_ext; reflexivity).
    destruct db; reflexivity.
  - inversion Hbatch as [|? ? He Hrest]; subst.
    cbn [Relay.allSettled].
    pose proof (publishEvent_run env e db Hnd (Hsub e (or_introl eq_refl)))
      as Hone.
    destruct (Relay.publishEvent env e db) as [r db1]. cbn [snd] in Hone.
    subst db1.
    set (one := fun r0 => if Nat.eqb (Prisma.id r0) (Prisma.id e)
                          then match Relay.settledUpdate env e with
                               | Some data => Prisma.apply_update data r0
                               | None => r0
                               end
                          else r0).
    assert (Hone_id : forall r0, Prisma.id (one r0) = Prisma.id r0).
    { intros r0. unfold one. destruct (Nat.eqb _ _); [|reflexivity].
      destruct (Relay.settledUpdate env e); [apply apply_update_id|reflexivity]. }
    destruct (IH (Prisma.mkDb (Prisma.payments db)
                    (map one (Prisma.outbox db)) (Prisma.outbox_seq db)))
      as [rs Hrs].
    + cbn [Prisma.outbox]. rewrite map_map.
      rewrite (map_ext _ Prisma.id Hone_id). exact Hnd.
    + exact Hrest.
    + intros e' He'. cbn [Prisma.outbox].
      assert (E : one e' = e').
      { unfold one. destruct (Nat.eqb_spec (Prisma.id e') (Prisma.id e)) as [E|E];
          [|reflexivity].
        exfalso. apply He. rewrite <- E. apply in_map, He'. }
      rewrite <- E. apply in_map, Hsub. right. exact He'.
    + rewrite Hrs. exists (r :: rs).
      cbn [Prisma.payments Prisma.outbox Prisma.outbox_seq].
      rewrite map_map.
      rewrite (map_ext _ (Relay.settle env (e :: rest))
                 (fun r0 => settle_cons env e rest r0 He)).
      reflexivity.
Qed.

(** Selecting rows keeps their ids distinct. *)
Lemma filter_ids_distinct (keep : Prisma.Outbox -> bool)
  (rows : list Prisma.Outbox) :
  NoDup (map Prisma.id rows) -> NoDup (map Prisma.id (filter keep rows)).
Proof.
  intros Hnd. induction rows as [|r rows IH]; simpl in *; [constructor|].
  inversion Hnd as [|? ? Hr Hrows]; subst.
  destruct (keep r); simpl; [|apply IH, Hrows].
  constructor; [|apply IH, Hrows].
  intros Hin. apply Hr. apply in_map_iff in Hin.
  destruct Hin as (y & Hy & Hin). apply filter_In in Hin.
  rewrite <- Hy. apply in_map, Hin.
Qed.

Lemma NoDup_firstn {A : Type} (n : nat) (l : list A) :
  NoDup l -> NoDup (firstn n l).
Proof.
  revert l. induction n as [|n IH]; intros [|x l] H; simpl; try constructor.
  - inversion H; subst. intros Hin. apply In_firstn in Hin. contradiction.
  - inversion H; subst. apply IH. assumption.
Qed.

(** The batch of a table with unique ids: members of the table, pending,
    no id twice. *)
Lemma batch_members (rows : list Prisma.Outbox) :
  NoDup (map Prisma.id rows) ->
  let batch := firstn Relay.BATCH_SIZE
                 (JS.sortBy Prisma.createdAt_asc (filter Relay.pending rows)) in
  NoDup (map Prisma.id batch)
  /\ (forall e, In e batch -> In e rows /\ Relay.pending e = true).
Proof.
  intros Hnd batch. split.
  - unfold batch. rewrite <- firstn_map. apply NoDup_firstn.
    eapply Permutation_NoDup.
    + apply Permutation_map, Permutation_sym, sortBy_perm.
    + apply filter_ids_distinct, Hnd.
  - intros e He. unfold batch in He. apply In_firstn in He.
    apply (Permutation_in _ (sortBy_perm _ _)) in He.
    apply filter_In in He. exact He.
Qed.

(** One invocation of the relay on a table with unique ids. *)
Lemma relay_handler_run (env : Relay.Env) (db : Prisma.Db) :
  NoDup (map Prisma.id (Prisma.outbox db)) ->
  Relay.handler env db
  = match Relay.connect env with
    | JS.Throw e => (JS.Throw e, db)
    | JS.Ok _ =>
        if Prisma.db_fault (Relay.db_env env) Prisma.OpOutboxFindMany
        then (JS.Throw Prisma.StorageError, db)
        else
          (JS.Ok tt,
           Prisma.mkDb (Prisma.payments db)
             (map (Relay.settle env
                     (firstn Relay.BATCH_SIZE
                        (JS.sortBy Prisma.createdAt_asc
                           (filter Relay.pending (Prisma.outbox db)))))
                  (Prisma.outbox db))
             (Prisma.outbox_seq db))
    end.
Proof.
  intros Hnd. unfold Relay.handler, Prisma.bind, Prisma.lift.
  destruct (Relay.connect env) as [u|e]; [|reflexivity].
  rewrite findBatch_run.
  destruct (Prisma.db_fault (Relay.db_env env) Prisma.OpOutboxFindMany);
    [reflexivity|].
  destruct (batch_members (Prisma.outbox db) Hnd) as [Hbnd Hbin].
  destruct (allSettled_run env _ db Hnd Hbnd (fun e He => proj1 (Hbin e He)))
    as [rs Hrs].
  destruct (firstn Relay.BATCH_SIZE
              (JS.sortBy Prisma.createdAt_asc
                 (filter Relay.pending (Prisma.outbox db)))) as [|e batch].
  - cbn [Relay.allSettled] in Hrs. unfold Prisma.ret in *.
    injection Hrs as _ Hdb. rewrite <- Hdb. reflexivity.
  - rewrite Hrs. reflexivity.
Qed.

Lemma substring_length_le (n m : nat) (s : string) :
  (String.length (String.substring n m s) <= m)%nat.
Proof.
  revert n m. induction s as [|c s IH]; intros [|n] [|m]; simpl; try lia.
  - specialize (IH 0%nat m). lia.
  - apply (IH n 0%nat).
  - apply (IH n (S m)).
Qed.

Lemma errorText_bounded (error : JS.exn) :
  (String.length (Relay.errorText error) <= 500)%nat
  /\ Relay.errorText error <> EmptyString.
Proof.
  unfold Relay.errorText.
  destruct (JS.message error) as [m|].
  - destruct (JS.truthy_str (JS.substring0 500 m)) eqn:E.
    + split; [apply substring_length_le | apply truthy_str_true, E].
    + split; [vm_compute; lia | discriminate].
  - split; [vm_compute; lia | discriminate].
Qed.

Lemma settle_id (env : Relay.Env) (batch : list Prisma.Outbox)
  (r : Prisma.Outbox) :
  Prisma.id (Relay.settle env batch r) = Prisma.id r.
Proof.
  unfold Relay.settle.
  destruct (find _ batch) as [e|]; [|reflexivity].
  destruct (Relay.settledUpdate env e); [apply apply_update_id | reflexivity].
Qed.

(** In a table with unique ids a row is settled by the batch member that
    is this row, and by nothing when it is not in the batch. *)
Lemma settle_row (env : Relay.Env) (rows batch : list Prisma.Outbox)
  (r : Prisma.Outbox) :
  NoDup (map Prisma.id rows) ->
  (forall e, In e batch -> In e rows) ->
  In r rows ->
  (In r batch /\
   Relay.settle env batch r
   = match Relay.settledUpdate env r with
     | Some data => Prisma.apply_update data r
     | None => r
     end)
  \/ (~ In r batch /\ Relay.settle env batch r = r).
Proof.
  intros Hnd Hsub Hr. unfold Relay.settle.
  destruct (find (fun e => Nat.eqb (Prisma.id e) (Prisma.id r)) batch)
    as [e|] eqn:F.
  - apply find_some in F. destruct F as [He Hid]. apply Nat.eqb_eq in Hid.
    assert (e = r) by (apply (In_same_id rows); auto). subst e.
    left. split; [exact He | reflexivity].
  - right. split; [|reflexivity]. intros Hin.
    apply (find_none _ _ F) in Hin. rewrite Nat.eqb_refl in Hin.
    discriminate.
Qed.

(** The order in which the members of a batch are settled does not show
    in the store: each writes its own row. *)
Lemma allSettled_order_irrelevant (env : Relay.Env)
  (batch batch' : list Prisma.Outbox) (db : Prisma.Db) :
  NoDup (map Prisma.id (Prisma.outbox db)) ->
  NoDup (map Prisma.id batch) ->
  (forall e, In e batch -> In e (Prisma.outbox db)) ->
  Permutation batch batch' ->
  snd (Relay.allSettled env batch db) = snd (Relay.allSettled env batch' db).
Proof.
  intros Hnd Hb Hsub Hperm.
  assert (Hb' : NoDup (map Prisma.id batch'))
    by (eapply Permutation_NoDup; [apply Permutation_map, Hperm | exact Hb]).
  assert (Hsub' : forall e, In e batch' -> In e (Prisma.outbox db)).
  { intros e He. apply Hsub.
    apply (Permutation_in _ (Permutation_sym Hperm)), He. }
  destruct (allSettled_run env batch db Hnd Hb Hsub) as [rs ->].
  destruct (allSettled_run env batch' db Hnd Hb' Hsub') as [rs' ->].
  cbn [snd]. f_equal. apply map_ext_in. intros r Hr.
  destruct (settle_row env (Prisma.outbox db) batch r Hnd Hsub Hr)
    as [[Hin E] | [Hout E]];
  destruct (settle_row env (Prisma.outbox db) batch' r Hnd Hsub' Hr)
    as [[Hin' E'] | [Hout' E']]; rewrite E, E'; try reflexivity.
  - exfalso. apply Hout'. apply (Permutation_in _ Hperm), Hin.
  - exfalso. apply Hout.
    apply (Permutation_in _ (Permutation_sym Hperm)), Hin'.
Qed.

Lemma settledUpdate_no_fault (env : Relay.Env) (e : Prisma.Outbox) :
  (forall op, Prisma.db_fault (Relay.db_env env) op = false) ->
  Relay.settledUpdate env e
  = Some (match Relay.TOPIC_MAPPING env (Prisma.eventType e) with
          | None =>
              Prisma.IncrementRetry
                ("Unknown event type: " ++ Prisma.eventType e)
          | Some topic =>
              match Relay.send env (Relay.producerRecord env topic e) with
              | JS.Ok _ => Prisma.SetPublished (Relay.now env e)
              | JS.Throw error =>
                  Prisma.IncrementRetry (Relay.errorText error)
              end
          end).
Proof.
  intros Hnf. unfold Relay.settledUpdate.
  destruct (Relay.TOPIC_MAPPING env (Prisma.eventType e)) as [topic|].
  - destruct (Relay.send env (Relay.producerRecord env topic e));
      rewrite !Hnf; reflexivity.
  - rewrite Hnf. reflexivity.
Qed.

(** The names for which the lookup finds nothing: all but the two event
    types and the members of [Object.prototype]. *)
Lemma TOPIC_MAPPING_none (env : Relay.Env) (eventType : string) :
  Relay.TOPIC_MAPPING env eventType = None <->
  eventType <> "PAYMENT_COMPLETED" /\ eventType <> "PAYMENT_FAILED"
  /\ ~ In eventType Relay.Object_prototype.
Proof.
  unfold Relay.TOPIC_MAPPING.
  destruct (String.eqb_spec eventType "PAYMENT_COMPLETED") as [E1|E1];
    [split; [discriminate | intros (H & _); contradiction]|].
  destruct (String.eqb_spec eventType "PAYMENT_FAILED") as [E2|E2];
    [split; [discriminate | intros (_ & H & _); contradiction]|].
  destruct (existsb (String.eqb eventType) Relay.Object_prototype) eqn:E3.
  - apply existsb_exists in E3. destruct E3 as (x & Hx & Heq).
    apply String.eqb_eq in Heq. subst x.
    split; [discriminate | intros (_ & _ & H); contradiction].
  - split; [|reflexivity]. intros _. split; [exact E1|]. split; [exact E2|].
    intros Hin.
    assert (K : existsb (String.eqb eventType) Relay.Object_prototype = true)
      by (apply existsb_exists; exists eventType;
          split; [exact Hin | apply String.eqb_refl]).
    congruence.
Qed.

(** C7. A relay pass on a store that answers, with the producer
    connected: no outbox row is lost or duplicated, rows outside the
    batch are untouched, and every batch member gets the outcome of its
    own publish attempt whatever happens to the others (published, with
    publishedAt the clock reading of its own attempt, on success;
    retryCount + 1 and the error text on failure).  A member is sent
    when the lookup of its event type finds something: for the two event
    types, and for a name that the mapping object inherits from
    [Object.prototype].  When every send fails, every batch member has
    retryCount incremented by exactly 1, stays unpublished and stores an
    error text: for a member that was sent, the message of its failed
    send cut to 500 characters (never empty); for a member that was not,
    the text naming its event type; and no row is newly marked
    published. *)
Theorem relay_pass_failures_isolated (env : Relay.Env) (db : Prisma.Db) :
  NoDup (map Prisma.id (Prisma.outbox db)) ->
  (forall op, Prisma.db_fault (Relay.db_env env) op = false) ->
  Relay.connect env = JS.Ok tt ->
  let sent (r : Prisma.Outbox) :=
    Prisma.eventType r = "PAYMENT_COMPLETED"
    \/ Prisma.eventType r = "PAYMENT_FAILED"
    \/ In (Prisma.eventType r)
          [ "constructor"; "__defineGetter__"; "__defineSetter__";
            "hasOwnProperty"; "__lookupGetter__"; "__lookupSetter__";
            "isPrototypeOf"; "propertyIsEnumerable"; "toString"; "valueOf";
            "__proto__"; "toLocaleString" ] in
  exists batch db',
    Relay.findBatch env db = (JS.Ok batch, db)
    /\ Relay.handler env db = (JS.Ok tt, db')
    /\ Prisma.payments db' = Prisma.payments db
    /\ map Prisma.id (Prisma.outbox db') = map Prisma.id (Prisma.outbox db)
    /\ (forall r, In r (Prisma.outbox db) -> ~ In r batch ->
          In r (Prisma.outbox db'))
    /\ (forall r, In r batch ->
          (sent r <-> Relay.TOPIC_MAPPING env (Prisma.eventType r) <> None)
          /\ In (match Relay.TOPIC_MAPPING env (Prisma.eventType r) with
                 | None =>
                     Prisma.apply_update
                       (Prisma.IncrementRetry
                          ("Unknown event type: " ++ Prisma.eventType r)) r
                 | Some topic =>
                     match Relay.send env (Relay.producerRecord env topic r) with
                     | JS.Ok _ =>
                         Prisma.apply_update
                           (Prisma.SetPublished (Relay.now env r)) r
                     | JS.Throw error =>
                         Prisma.apply_update
                           (Prisma.IncrementRetry (Relay.errorText error)) r
                     end
                 end) (Prisma.outbox db'))
    /\ ((forall rec, exists error, Relay.send env rec = JS.Throw error) ->
        (forall r, In r batch ->
           exists err,
             In (Prisma.mkOutbox (Prisma.id r) (Prisma.aggregateId r)
                   (Prisma.aggregateType r) (Prisma.eventType r)
                   (Prisma.payload r) false (Prisma.publishedAt r)
                   (Prisma.retryCount r + 1) (Some err) (Prisma.createdAt r))
                (Prisma.outbox db')
             /\ (sent r ->
                 (exists topic error,
                    Relay.send env (Relay.producerRecord env topic r)
                    = JS.Throw error
                    /\ err = match JS.message error with
                             | Some m =>
                                 if (String.substring 0 500 m =? "")%string
                                 then "Unknown error"
                                 else String.substring 0 500 m
                             | None => "Unknown error"
                             end)
                 /\ (String.length err <= 500)%nat
                 /\ err <> EmptyString)
             /\ (~ sent r ->
                 err = ("Unknown event type: " ++ Prisma.eventType r)%string))
        /\ (forall r', In r' (Prisma.outbox db') ->
              Prisma.published r' = true -> In r' (Prisma.outbox db))).
Proof.
  intros Hnd Hnf Hconn sent.
  assert (Hsent : forall r,
            sent r <-> Relay.TOPIC_MAPPING env (Prisma.eventType r) <> None).
  { intros r. pose proof (TOPIC_MAPPING_none env (Prisma.eventType r)) as K.
    unfold sent. fold Relay.Object_prototype.
    destruct (Relay.TOPIC_MAPPING env (Prisma.eventType r)) as [topic|].
    - split; [discriminate|]. intros _.
      destruct (String.eqb_spec (Prisma.eventType r) "PAYMENT_COMPLETED");
        [left; assumption|].
      destruct (String.eqb_spec (Prisma.eventType r) "PAYMENT_FAILED");
        [right; left; assumption|].
      right. right.
      destruct (in_dec string_dec (Prisma.eventType r) Relay.Object_prototype)
        as [Hin|Hout]; [exact Hin|].
      exfalso. assert (@Some Relay.TopicValue topic = None);
        [apply K; auto | discriminate].
    - split; [|intros H; contradiction H; reflexivity].
      destruct (proj1 K eq_refl) as (H1 & H2 & H3).
      intros [H|[H|H]]; contradiction. }
  set (batch := firstn Relay.BATCH_SIZE
                  (JS.sortBy Prisma.createdAt_asc
                     (filter Relay.pending (Prisma.outbox db)))).
  destruct (batch_members (Prisma.outbox db) Hnd) as [_ Hbin].
  fold batch in Hbin.
  assert (Hsub : forall e, In e batch -> In e (Prisma.outbox db))
    by (intros e He; apply (Hbin e He)).
  assert (Hmember : forall r, In r batch ->
            Relay.settle env batch r
            = Prisma.apply_update
                (match Relay.TOPIC_MAPPING env (Prisma.eventType r) with
                 | None =>
                     Prisma.IncrementRetry
                       ("Unknown event type: " ++ Prisma.eventType r)
                 | Some topic =>
                     match Relay.send env (Relay.producerRecord env topic r) with
                     | JS.Ok _ => Prisma.SetPublished (Relay.now env r)
                     | JS.Throw error =>
                         Prisma.IncrementRetry (Relay.errorText error)
                     end
                 end) r).
  { intros r Hr.
    destruct (settle_row env (Prisma.outbox db) batch r Hnd Hsub (Hsub r Hr))
      as [[_ E] | [Hn _]]; [|contradiction].
    rewrite E, (settledUpdate_no_fault env r Hnf). reflexivity. }
  exists batch,
    (Prisma.mkDb (Prisma.payments db)
       (map (Relay.settle env batch) (Prisma.outbox db))
       (Prisma.outbox_seq db)).
  split; [rewrite findBatch_run, Hnf; reflexivity|].
  split; [rewrite (relay_handler_run env db Hnd), Hconn, Hnf; reflexivity|].
  split; [reflexivity|].
  cbn [Prisma.outbox].
  split; [rewrite map_map; apply map_ext; intros r; apply settle_id|].
  split.
  { intros r Hr Hn.
    destruct (settle_row env (Prisma.outbox db) batch r Hnd Hsub Hr)
      as [[Hin _] | [_ E]]; [contradiction|].
    rewrite <- E. apply in_map, Hr. }
  split.
  { intros r Hr. split; [apply Hsent|].
    replace (match Relay.TOPIC_MAPPING env (Prisma.eventType r) with
             | None => _ | Some topic => _ end)
      with (Relay.settle env batch r).
    - apply in_map, Hsub, Hr.
    - rewrite (Hmember r Hr).
      destruct (Relay.TOPIC_MAPPING env (Prisma.eventType r)) as [topic|];
        [|reflexivity].
      destruct (Relay.send env (Relay.producerRecord env topic r)); reflexivity. }
  intros Hdown. split.
  - intros r Hr.
    destruct (Hbin r Hr) as [Hrow Hpend]. apply pending_spec in Hpend.
    destruct Hpend as [Hpub _].
    pose proof (in_map (Relay.settle env batch) _ _ Hrow) as Hin.
    rewrite (Hmember r Hr) in Hin.
    pose proof (Hsent r) as Hs.
    destruct (Relay.TOPIC_MAPPING env (Prisma.eventType r)) as [topic|].
    + destruct (Hdown (Relay.producerRecord env topic r)) as [error Herr].
      rewrite Herr in Hin. exists (Relay.errorText error).
      cbn [Prisma.apply_update] in Hin. rewrite Hpub in Hin.
      split; [exact Hin|].
      split.
      * intros _. split; [|split; apply errorText_bounded].
        exists topic, error. split; [exact Herr|].
        unfold Relay.errorText, JS.substring0, JS.truthy_str.
        destruct (JS.message error) as [m|]; [|reflexivity].
        destruct (String.substring 0 500 m =? "")%string; reflexivity.
      * intros Hn. exfalso. apply Hn, Hs. discriminate.
    + exists ("Unknown event type: " ++ Prisma.eventType r)%string.
      cbn [Prisma.apply_update] in Hin. rewrite Hpub in Hin.
      split; [exact Hin|].
      split; [|reflexivity].
      intros H. apply Hs in H. contradiction H. reflexivity.
  - intros r' Hr' Hpub'. apply in_map_iff in Hr'.
    destruct Hr' as (r & E & Hr).
    destruct (settle_row env (Prisma.outbox db) batch r Hnd Hsub Hr)
      as [[Hin _] | [_ E']].
    + exfalso. rewrite (Hmember r Hin) in E.
      destruct (Hbin r Hin) as [_ Hpend]. apply pending_spec in Hpend.
      destruct Hpend as [Hpub _].
      destruct (Relay.TOPIC_MAPPING env (Prisma.eventType r)) as [topic|].
      * destruct (Hdown (Relay.producerRecord env topic r)) as [error Herr].
        rewrite Herr in E. subst r'. cbn in Hpub'. congruence.
      * subst r'. cbn in Hpub'. congruence.
    + rewrite E' in E. subst r'. exact Hr.
Qed.

Lemma relay_pass_failures_isolated_witness :
  exists db',
    Relay.handler (Demo.relay_env Demo.broker_down (5 * Demo.day))
      Demo.db_outbox = (JS.Ok tt, db')
    /\ map Prisma.id (Prisma.outbox db')
       = map Prisma.id (Prisma.outbox Demo.db_outbox).
Proof.
  destruct (relay_pass_failures_isolated
              (Demo.relay_env Demo.broker_down (5 * Demo.day)) Demo.db_outbox)
    as (batch & db' & _ & Hrun & _ & Hids & _).
  - repeat constructor; simpl; intuition discriminate.
  - intros op. reflexivity.
  - reflexivity.
  - exists db'. split; [exact Hrun | exact Hids].
Defined.

(** The pass over the sample table with the broker down: the pending
    row has one more retry and the error text, nothing is published, and
    the row out of retries is not touched. *)
Example relay_pass_broker_down_on_sample :
  let out := Relay.handler (Demo.relay_env Demo.broker_down (5 * Demo.day))
               Demo.db_outbox in
  fst out = JS.Ok tt
  /\ map (fun r => (Prisma.id r, Prisma.published r, Prisma.retryCount r,
                    Prisma.lastError r))
         (Prisma.outbox (snd out))
     = [ (0%nat, true, 0, None); (1%nat, true, 1, None);
         (2%nat, false, 5, None);
         (3%nat, false, 3, Some "Connection timeout") ].
Proof. vm_compute. split; reflexivity. Qed.

(* ================================================================== *)
(** ** Published entries across invocations *)
(* ================================================================== *)

Lemma evolved_refl (db : Prisma.Db) :
  System.well_formed db -> System.evolved db db.
Proof.
  intros (Hnd & Hlt & _). split; [exact Hlt|].
  intros r0 r Hr0 Hr Hid.
  assert (r0 = r) by (apply (In_same_id (Prisma.outbox db)); assumption).
  subst. split; [lia | reflexivity].
Qed.

(** A step that leaves the outbox table and the sequence as they are. *)
Lemma step_same (db0 db db' : Prisma.Db) :
  System.well_formed db /\ System.evolved db0 db ->
  Prisma.outbox db' = Prisma.outbox db ->
  Prisma.outbox_seq db' = Prisma.outbox_seq db ->
  System.well_formed db' /\ System.evolved db0 db'.
Proof.
  unfold System.well_formed, System.evolved. intros H Ho Hs.
  rewrite Ho, Hs. exact H.
Qed.

(** A step that appends one unpublished row with the next id. *)
Lemma step_append (db0 db db' : Prisma.Db) (row : Prisma.Outbox) :
  System.well_formed db /\ System.evolved db0 db ->
  Prisma.outbox db' = (Prisma.outbox db ++ [row])%list ->
  Prisma.id row = Prisma.outbox_seq db ->
  Prisma.published row = false ->
  Prisma.outbox_seq db' = S (Prisma.outbox_seq db) ->
  System.well_formed db' /\ System.evolved db0 db'.
Proof.
  unfold System.well_formed, System.evolved.
  intros [(Hnd & Hlt & Hpub) (Hlt0 & Hev)] Ho Hid Hrow Hs.
  rewrite Ho, Hs. repeat split.
  - rewrite map_app. simpl.
    eapply Permutation_NoDup; [apply Permutation_cons_append|].
    constructor; [|exact Hnd].
    intros Hin. apply in_map_iff in Hin. destruct Hin as (r & Hr & Hin).
    rewrite Forall_forall in Hlt. specialize (Hlt r Hin). lia.
  - apply Forall_app. split.
    + eapply Forall_impl; [|exact Hlt]. intros r Hr. simpl in Hr. lia.
    + constructor; [lia | constructor].
  - apply Forall_app. split; [exact Hpub|].
    constructor; [congruence | constructor].
  - eapply Forall_impl; [|exact Hlt0]. intros r Hr. simpl in Hr. lia.
  - apply in_app_or in H0. destruct H0 as [H0 | [<- | []]].
    + apply (Hev r0 r H H0 H1).
    + rewrite Forall_forall in Hlt0. specialize (Hlt0 r0 H). lia.
  - apply in_app_or in H0. destruct H0 as [H0 | [<- | []]].
    + apply (Hev r0 r H H0 H1).
    + rewrite Forall_forall in Hlt0. specialize (Hlt0 r0 H). lia.
Qed.

(** A step that deletes rows. *)
Lemma step_filter (db0 db db' : Prisma.Db) (f : Prisma.Outbox -> bool) :
  System.well_formed db /\ System.evolved db0 db ->
  Prisma.outbox db' = filter f (Prisma.outbox db) ->
  Prisma.outbox_seq db' = Prisma.outbox_seq db ->
  System.well_formed db' /\ System.evolved db0 db'.
Proof.
  unfold System.well_formed, System.evolved.
  intros [(Hnd & Hlt & Hpub) (Hlt0 & Hev)] Ho Hs.
  rewrite Ho, Hs. repeat split.
  - apply filter_ids_distinct, Hnd.
  - apply Forall_forall. intros r Hr. apply filter_In in Hr.
    rewrite Forall_forall in Hlt. apply Hlt, Hr.
  - apply Forall_forall. intros r Hr. apply filter_In in Hr.
    rewrite Forall_forall in Hpub. apply Hpub, Hr.
  - exact Hlt0.
  - apply filter_In in H0. apply (Hev r0 r H (proj1 H0) H1).
  - apply filter_In in H0. apply (Hev r0 r H (proj1 H0) H1).
Qed.

(** A step that applies updates to unpublished rows. *)
Lemma step_update (db0 db db' : Prisma.Db)
  (g : Prisma.Outbox -> Prisma.Outbox) :
  System.well_formed db /\ System.evolved db0 db ->
  Prisma.outbox db' = map g (Prisma.outbox db) ->
  Prisma.outbox_seq db' = Prisma.outbox_seq db ->
  (forall r, In r (Prisma.outbox db) ->
     g r = r \/
     (Prisma.published r = false /\
      exists data, g r = Prisma.apply_update data r)) ->
  System.well_formed db' /\ System.evolved db0 db'.
Proof.
  unfold System.well_formed, System.evolved.
  intros [(Hnd & Hlt & Hpub) (Hlt0 & Hev)] Ho Hs Hg.
  assert (Hid : forall r, In r (Prisma.outbox db) ->
                          Prisma.id (g r) = Prisma.id r).
  { intros r Hr. destruct (Hg r Hr) as [-> | (_ & data & ->)];
      [reflexivity | apply apply_update_id]. }
  rewrite Forall_forall in Hlt, Hpub.
  rewrite Ho, Hs. repeat split.
  - rewrite map_map. rewrite (map_ext_in _ Prisma.id _ Hid). exact Hnd.
  - apply Forall_forall. intros r' Hr'. apply in_map_iff in Hr'.
    destruct Hr' as (r & <- & Hr). rewrite (Hid r Hr). apply Hlt, Hr.
  - apply Forall_forall. intros r' Hr'. apply in_map_iff in Hr'.
    destruct Hr' as (r & <- & Hr).
    destruct (Hg r Hr) as [-> | (Hunpub & data & ->)]; [apply Hpub, Hr|].
    destruct data; simpl; congruence.
  - exact Hlt0.
  - apply in_map_iff in H0. destruct H0 as (r1 & <- & Hr1).
    rewrite (Hid r1 Hr1) in H1.
    destruct (Hev r0 r1 H Hr1 H1) as [Hle _].
    destruct (Hg r1 Hr1) as [-> | (_ & data & ->)]; [exact Hle|].
    destruct data; simpl; lia.
  - intros Hp0. apply in_map_iff in H0. destruct H0 as (r1 & <- & Hr1).
    rewrite (Hid r1 Hr1) in H1.
    destruct (Hev r0 r1 H Hr1 H1) as [_ Heq]. specialize (Heq Hp0).
    subst r1.
    destruct (Hg r0 Hr1) as [-> | (Hunpub & _)]; [reflexivity | congruence].
Qed.

Lemma handlePayment_outbox (env : Webhook.Env) (ok : bool) (oc : string)
  (db : Prisma.Db) :
  System.at_most_inserted db
    (snd (if ok then Webhook.handleSuccessPayment env oc db
          else Webhook.handleFailedPayment env oc db)).
Proof.
  rewrite handlePayment_run. cbv zeta.
  destruct (Prisma.db_fault _ (Prisma.OpPaymentUpdate oc));
    [left; split; reflexivity|].
  destruct (Prisma.update_first _ _ (Prisma.payments db)) as [[p ps]|];
    [|left; split; reflexivity].
  destruct (Prisma.db_fault _ (Prisma.OpOutboxCreate _));
    [left; split; reflexivity|].
  destruct (Prisma.db_fault _ Prisma.OpCommit); [left; split; reflexivity|].
  right. eexists. cbn [snd Prisma.outbox Prisma.outbox_seq].
  split; [reflexivity|]. repeat split.
Qed.

Lemma handleCallback_outbox (env : Webhook.Env)
  (provider : Webhook.PaymentProvider) (body : JS.jsval) (db : Prisma.Db) :
  System.at_most_inserted db (snd (Webhook.handleCallback env provider body db)).
Proof.
  unfold Webhook.handleCallback, Prisma.bind, Prisma.lift, Prisma.ret.
  destruct (Webhook.verifyAndParseCallback env provider body) as [r|e];
    [|left; split; reflexivity].
  destruct (Webhook.orderCode r) as [oc|]; [|left; split; reflexivity].
  destruct (Webhook.orderCode_missing r); [left; split; reflexivity|].
  pose proof (handlePayment_outbox env (Webhook.success r) oc db) as H.
  destruct (Webhook.success r).
  - destruct (Webhook.handleSuccessPayment env oc db) as [[u|e] db1]; exact H.
  - destruct (Webhook.handleFailedPayment env oc db) as [[u|e] db1]; exact H.
Qed.

Lemma webhook_handler_outbox (env : Webhook.Env)
  (event : Webhook.APIGatewayProxyEvent) (db : Prisma.Db) :
  System.at_most_inserted db (snd (Webhook.handler env event db)).
Proof.
  assert (Hsame : System.at_most_inserted db db) by (left; split; reflexivity).
  unfold Webhook.handler, Prisma.try_catch, Prisma.bind, Prisma.lift, Prisma.ret.
  destruct (match Webhook.ev_body event with
            | Some b => if JS.truthy_str b
                        then Webhook.JSON_parse (Webhook.runtime env) b
                        else JS.Ok (JS.JObj [])
            | None => JS.Ok (JS.JObj [])
            end) as [body|e]; [|exact Hsame].
  destruct (JS.includes "zalopay" _).
  - pose proof (handleCallback_outbox env Webhook.ZALOPAY body db) as H.
    destruct (Webhook.handleCallback env Webhook.ZALOPAY body db)
      as [[v|e] db1]; exact H.
  - destruct (JS.includes "payos" _); [|exact Hsame].
    pose proof (handleCallback_outbox env Webhook.PAYOS body db) as H.
    destruct (Webhook.handleCallback env Webhook.PAYOS body db)
      as [[v|e] db1]; exact H.
Qed.

Lemma filter_all {A : Type} (l : list A) : filter (fun _ => true) l = l.
Proof. induction l as [|x l IH]; simpl; [|rewrite IH]; reflexivity. Qed.

Lemma cleanup_handler_outbox (env : Cleanup.Env) (db : Prisma.Db) :
  exists f,
    Prisma.outbox (snd (Cleanup.handler env db)) = filter f (Prisma.outbox db)
    /\ Prisma.outbox_seq (snd (Cleanup.handler env db)) = Prisma.outbox_seq db.
Proof.
  assert (Hsame : exists f, Prisma.outbox db = filter f (Prisma.outbox db)
                            /\ Prisma.outbox_seq db = Prisma.outbox_seq db).
  { exists (fun _ => true). rewrite filter_all. split; reflexivity. }
  unfold Cleanup.handler, Prisma.bind, Cleanup.deleteOldPublishedEvents.
  destruct (Cleanup.cutoffDate env) as [cutoff|]; [|exact Hsame].
  unfold Prisma.outbox_deleteMany, Prisma.request.
  destruct (Prisma.db_fault _ Prisma.OpOutboxDeleteMany); [exact Hsame|].
  unfold Cleanup.monitorFailedEvents, Prisma.outbox_findMany, Prisma.request.
  exists (fun r => negb (Cleanup.expired cutoff r)).
  destruct (Prisma.db_fault _ Prisma.OpOutboxFindMany);
    [split; reflexivity|].
  unfold Cleanup.publishMetrics, Prisma.ret.
  destruct (Cleanup.cloudwatch_send env _ _); split; reflexivity.
Qed.

Lemma invoke_preserves (db0 db : Prisma.Db) (i : System.Invocation) :
  System.well_formed db /\ System.evolved db0 db ->
  System.well_formed (System.invoke i db)
  /\ System.evolved db0 (System.invoke i db).
Proof.
  intros H. destruct i as [env event | env | env]; cbn [System.invoke].
  - destruct (webhook_handler_outbox env event db)
      as [[Ho Hs] | (row & Ho & Hid & Hpub & Hs)].
    + apply (step_same db0 db); assumption.
    + apply (step_append db0 db _ row); assumption.
  - destruct H as [Hwf Hev]. pose proof Hwf as (Hnd & _ & _).
    rewrite (relay_handler_run env db Hnd).
    destruct (Relay.connect env); [|split; assumption].
    destruct (Prisma.db_fault _ Prisma.OpOutboxFindMany); [split; assumption|].
    cbn [snd].
    destruct (batch_members (Prisma.outbox db) Hnd) as [_ Hbin].
    eapply (step_update db0 db); [split; eassumption | reflexivity
                                 | reflexivity |].
    intros r Hr.
    destruct (settle_row env (Prisma.outbox db) _ r Hnd
                (fun e He => proj1 (Hbin e He)) Hr) as [[Hin E] | [_ E]];
      [|left; exact E].
    rewrite E. destruct (Relay.settledUpdate env r) as [data|];
      [|left; reflexivity].
    right. split; [|exists data; reflexivity].
    apply pending_spec, (Hbin r Hin).
  - destruct (cleanup_handler_outbox env db) as (f & Ho & Hs).
    apply (step_filter db0 db _ f); assumption.
Qed.

Lemma run_preserves (invocations : list System.Invocation) :
  forall db0 db,
    System.well_formed db /\ System.evolved db0 db ->
    System.well_formed (System.run invocations db)
    /\ System.evolved db0 (System.run invocations db).
Proof.
  induction invocations as [|i rest IH]; intros db0 db H; [exact H|].
  apply (IH db0 (System.invoke i db)), invoke_preserves, H.
Qed.

(** C8, as stated, fails: the mark-published write is not conditional on
    published = false.  Two relay invocations that both read their batch
    before either writes (A at time 1000, B at time 2000) both publish
    row 3, and B's write changes the row that A had already marked
    published: its publishedAt goes from 1000 to 2000. *)
Lemma relay_mark_published_not_conditional :
  let envA := Demo.relay_env Demo.broker_up 1000 in
  let envB := Demo.relay_env Demo.broker_up 2000 in
  let batch := [Demo.row 3 "PAYMENT_COMPLETED" false None 2 (4 * Demo.day)] in
  let dbA := snd (Relay.allSettled envA batch Demo.db_outbox) in
  let dbB := snd (Relay.allSettled envB batch dbA) in
  Relay.findBatch envA Demo.db_outbox = (JS.Ok batch, Demo.db_outbox)
  /\ Relay.findBatch envB Demo.db_outbox = (JS.Ok batch, Demo.db_outbox)
  /\ In (Demo.row 3 "PAYMENT_COMPLETED" true (Some 1000) 2 (4 * Demo.day))
        (Prisma.outbox dbA)
  /\ ~ In (Demo.row 3 "PAYMENT_COMPLETED" true (Some 1000) 2 (4 * Demo.day))
          (Prisma.outbox dbB)
  /\ In (Demo.row 3 "PAYMENT_COMPLETED" true (Some 2000) 2 (4 * Demo.day))
        (Prisma.outbox dbB).
Proof.
  vm_compute. repeat split; auto.
  intros H. repeat (destruct H as [H|H]; [discriminate H|]). exact H.
Qed.

(** C8, amended. Over any sequence of invocations of the webhook, the
    relay and the sweeper in which each runs after the one before has
    ended, starting from a well-formed store: an outbox row that is
    published is later either still there unchanged or deleted; every
    published row has its publishedAt; and the retryCount of a row never
    decreases.  The mark-published write itself is an unconditional
    update by id (it rewrites whatever row has the id, published or
    not); published rows are left alone because a batch holds
    unpublished rows only. *)
Theorem published_entries_stable
  (invocations : list System.Invocation) (db : Prisma.Db) :
  System.well_formed db ->
  let db' := System.run invocations db in
  (forall r, In r (Prisma.outbox db) -> Prisma.published r = true ->
     In r (Prisma.outbox db')
     \/ ~ In (Prisma.id r) (map Prisma.id (Prisma.outbox db')))
  /\ (forall r', In r' (Prisma.outbox db') -> Prisma.published r' = true ->
        Prisma.publishedAt r' <> None)
  /\ (forall r r', In r (Prisma.outbox db) -> In r' (Prisma.outbox db') ->
        Prisma.id r = Prisma.id r' ->
        Prisma.retryCount r <= Prisma.retryCount r')
  /\ (forall dbenv r t,
        In r (Prisma.outbox db) ->
        Prisma.db_fault dbenv
          (Prisma.OpOutboxUpdate (Prisma.id r) (Prisma.SetPublished t)) = false ->
        fst (Prisma.outbox_update dbenv (Prisma.id r) (Prisma.SetPublished t) db)
        = JS.Ok (Prisma.apply_update (Prisma.SetPublished t) r)
        /\ In (Prisma.apply_update (Prisma.SetPublished t) r)
              (Prisma.outbox
                 (snd (Prisma.outbox_update dbenv (Prisma.id r)
                         (Prisma.SetPublished t) db)))).
Proof.
  intros Hwf db'.
  destruct (run_preserves invocations db db (conj Hwf (evolved_refl db Hwf)))
    as [(Hnd' & _ & Hpub') (_ & Hev)].
  fold db' in Hnd', Hpub', Hev.
  split; [|split; [|split]].
  - intros r Hr Hp.
    destruct (in_dec Nat.eq_dec (Prisma.id r) (map Prisma.id (Prisma.outbox db')))
      as [Hin|Hout]; [left | right; exact Hout].
    apply in_map_iff in Hin. destruct Hin as (r' & Hid & Hr').
    destruct (Hev r r' Hr Hr' (eq_sym Hid)) as [_ Heq].
    rewrite <- (Heq Hp) at 1. exact Hr'.
  - rewrite Forall_forall in Hpub'. exact Hpub'.
  - intros r r' Hr Hr' Hid. apply (Hev r r' Hr Hr' Hid).
  - intros dbenv r t Hr Hnf. destruct Hwf as (Hnd & _ & _).
    unfold Prisma.outbox_update, Prisma.request. rewrite Hnf.
    rewrite (update_first_by_id _ _ _ r Hnd Hr eq_refl).
    cbn [fst snd Prisma.outbox]. split; [reflexivity|].
    apply in_map_iff. exists r. split; [|exact Hr].
    rewrite Nat.eqb_refl. reflexivity.
Qed.

Lemma sample_table_well_formed : System.well_formed Demo.db_outbox.
Proof.
  split; [|split].
  - repeat constructor; simpl; intuition discriminate.
  - apply Forall_forall. intros r Hr. simpl in Hr.
    repeat (destruct Hr as [<- | Hr]; [simpl; lia|]). contradiction.
  - apply Forall_forall. intros r Hr. simpl in Hr.
    repeat (destruct Hr as [<- | Hr]; [simpl; congruence|]). contradiction.
Qed.

Lemma published_entries_stable_witness :
  In (Demo.row 1 "PAYMENT_FAILED" true (Some (9 * Demo.day)) 1 (2 * Demo.day))
     (Prisma.outbox
        (System.run
           [ System.InvokeRelay (Demo.relay_env Demo.broker_up (5 * Demo.day));
             System.InvokeCleanup (Demo.cleanup_env (10 * Demo.day));
             System.InvokeRelay
               (Demo.relay_env Demo.broker_down (11 * Demo.day)) ]
           Demo.db_outbox))
  \/ ~ In 1%nat
        (map Prisma.id
           (Prisma.outbox
              (System.run
                 [ System.InvokeRelay
                     (Demo.relay_env Demo.broker_up (5 * Demo.day));
                   System.InvokeCleanup (Demo.cleanup_env (10 * Demo.day));
                   System.InvokeRelay
                     (Demo.relay_env Demo.broker_down (11 * Demo.day)) ]
                 Demo.db_outbox))).
Proof.
  apply (proj1 (published_entries_stable
           [ System.InvokeRelay (Demo.relay_env Demo.broker_up (5 * Demo.day));
             System.InvokeCleanup (Demo.cleanup_env (10 * Demo.day));
             System.InvokeRelay
               (Demo.relay_env Demo.broker_down (11 * Demo.day)) ]
           Demo.db_outbox sample_table_well_formed)
           (Demo.row 1 "PAYMENT_FAILED" true (Some (9 * Demo.day)) 1
              (2 * Demo.day))).
  - right. left. reflexivity.
  - reflexivity.
Defined.

(** The three invocations of the example on the sample table: the relay
    publishes row 3, the sweep deletes row 0, the second relay pass finds
    nothing pending; rows 1 and 3 are as they were when published. *)
Example jobs_on_sample :
  map (fun r => (Prisma.id r, Prisma.published r, Prisma.publishedAt r,
                 Prisma.retryCount r))
      (Prisma.outbox
         (System.run
            [ System.InvokeRelay (Demo.relay_env Demo.broker_up (5 * Demo.day));
              System.InvokeCleanup (Demo.cleanup_env (10 * Demo.day));
              System.InvokeRelay
                (Demo.relay_env Demo.broker_down (11 * Demo.day)) ]
            Demo.db_outbox))
  = [ (1%nat, true, Some (9 * Demo.day), 1); (2%nat, false, None, 5);
      (3%nat, true, Some (5 * Demo.day), 2) ].
Proof. vm_compute. reflexivity. Qed.

(* ================================================================== *)
(** ** The webhook handler as a whole *)
(* ================================================================== *)

Lemma handleCallback_run (env : Webhook.Env)
  (provider : Webhook.PaymentProvider) (body : JS.jsval) (db : Prisma.Db) :
  Webhook.handleCallback env provider body db
  = match Webhook.verifyAndParseCallback env provider body with
    | JS.Throw e => (JS.Throw e, db)
    | JS.Ok r =>
        match Webhook.orderCode r with
        | Some oc =>
            if JS.truthy_str oc then
              match (if Webhook.success r
                     then Webhook.handleSuccessPayment env oc db
                     else Webhook.handleFailedPayment env oc db) with
              | (JS.Ok _, db') => (JS.Ok (Webhook.response r), db')
              | (JS.Throw e, db') => (JS.Throw e, db')
              end
            else (JS.Ok (Webhook.response r), db)
        | None => (JS.Ok (Webhook.response r), db)
        end
    end.
Proof.
  unfold Webhook.handleCallback, Prisma.bind, Prisma.lift, Prisma.ret.
  destruct (Webhook.verifyAndParseCallback env provider body) as [r|e];
    [|reflexivity].
  unfold Webhook.orderCode_missing.
  destruct (Webhook.orderCode r) as [oc|]; [|reflexivity].
  destruct (JS.truthy_str oc); [|reflexivity].
  cbn [negb]. destruct (Webhook.success r); reflexivity.
Qed.

(** The two ways a payment handler ends: a throw with the store as it
    was, or the update of the first payment with the order code together
    with the insert of its outbox row. *)
Lemma handlePayment_cases (env : Webhook.Env) (ok : bool) (oc : string)
  (db : Prisma.Db) :
  let out := if ok then Webhook.handleSuccessPayment env oc db
             else Webhook.handleFailedPayment env oc db in
  (exists e, out = (JS.Throw e, db))
  \/ (exists pre p0 post,
        Prisma.payments db = (pre ++ p0 :: post)%list /\
        Prisma.p_orderCode p0 = oc /\
        out = (JS.Ok tt,
               Prisma.mkDb
                 (pre ++ (if ok then Webhook.setCompleted env p0
                          else Webhook.setFailed env p0) :: post)
                 (Prisma.outbox db ++
                  [Prisma.mkOutbox (Prisma.outbox_seq db) (Prisma.p_id p0)
                     "Payment"
                     (if ok then "PAYMENT_COMPLETED" else "PAYMENT_FAILED")
                     (Webhook.paymentPayload env
                        (if ok then Webhook.setCompleted env p0
                         else Webhook.setFailed env p0)
                        (if ok then "completed_at" else "failed_at"))
                     false None 0 None
                     (Prisma.db_clock (Webhook.db_env env))])
                 (S (Prisma.outbox_seq db)))).
Proof.
  cbv zeta. rewrite handlePayment_run. cbv zeta.
  destruct (Prisma.db_fault _ (Prisma.OpPaymentUpdate oc)); [left; eauto|].
  destruct (Prisma.update_first _ _ (Prisma.payments db)) as [[p ps]|] eqn:E;
    [|left; eauto].
  destruct (update_first_some _ _ _ _ _ E)
    as (pre & p0 & post & Hp & _ & Hp0 & -> & ->).
  apply String.eqb_eq in Hp0.
  destruct (Prisma.db_fault _ (Prisma.OpOutboxCreate _)); [left; eauto|].
  destruct (Prisma.db_fault _ Prisma.OpCommit); [left; eauto|].
  right. exists pre, p0, post. split; [exact Hp|]. split; [exact Hp0|].
  destruct ok; reflexivity.
Qed.

(** What a call of [handleCallback] can do to the store. *)
Lemma handleCallback_cases (env : Webhook.Env)
  (provider : Webhook.PaymentProvider) (body : JS.jsval) (db : Prisma.Db) :
  let out := Webhook.handleCallback env provider body db in
  snd out = db
  \/ (exists r oc pre p0 post,
        Webhook.verifyAndParseCallback env provider body = JS.Ok r /\
        Webhook.orderCode r = Some oc /\ oc <> EmptyString /\
        Prisma.payments db = (pre ++ p0 :: post)%list /\
        Prisma.p_orderCode p0 = oc /\
        out = (JS.Ok (Webhook.response r),
               Prisma.mkDb
                 (pre ++ (if Webhook.success r then Webhook.setCompleted env p0
                          else Webhook.setFailed env p0) :: post)
                 (Prisma.outbox db ++
                  [Prisma.mkOutbox (Prisma.outbox_seq db) (Prisma.p_id p0)
                     "Payment"
                     (if Webhook.success r then "PAYMENT_COMPLETED"
                      else "PAYMENT_FAILED")
                     (Webhook.paymentPayload env
                        (if Webhook.success r then Webhook.setCompleted env p0
                         else Webhook.setFailed env p0)
                        (if Webhook.success r then "completed_at"
                         else "failed_at"))
                     false None 0 None
                     (Prisma.db_clock (Webhook.db_env env))])
                 (S (Prisma.outbox_seq db)))).
Proof.
  cbv zeta. rewrite handleCallback_run.
  destruct (Webhook.verifyAndParseCallback env provider body) as [r|e] eqn:Hv;
    [|left; reflexivity].
  destruct (Webhook.orderCode r) as [oc|] eqn:Hoc; [|left; reflexivity].
  destruct (JS.truthy_str oc) eqn:Ht; [|left; reflexivity].
  destruct (handlePayment_cases env (Webhook.success r) oc db)
    as [[e He] | (pre & p0 & post & Hp & Hp0 & Hout)];
    cbv zeta in *.
  - rewrite He. left. reflexivity.
  - rewrite Hout. right. exists r, oc, pre, p0, post.
    repeat split; try assumption. apply truthy_str_true, Ht.
Qed.

(** X1. The webhook handler never throws: whatever the event and the
    store, it returns a response with status 200, 400 or 500, and a
    response other than 200 means that the store is exactly as it was
    (a failed parse, verification or transaction leaves no trace).  The
    closing disconnect of the client in the finally block is not part of
    the model. *)
Theorem webhook_handler_never_throws (env : Webhook.Env)
  (event : Webhook.APIGatewayProxyEvent) (db : Prisma.Db) :
  exists res db',
    Webhook.handler env event db = (JS.Ok res, db')
    /\ (Webhook.statusCode res = 200 \/ Webhook.statusCode res = 400
        \/ Webhook.statusCode res = 500)
    /\ (Webhook.statusCode res <> 200 -> db' = db).
Proof.
  assert (Hcb : forall provider body,
    exists res db',
      Prisma.try_catch
        (result <- Webhook.handleCallback env provider body ;;
         Prisma.ret (Webhook.mkResult 200 result))
        (fun _ => Prisma.ret
           (Webhook.mkResult 500
              (JS.JObj [("error", JS.JStr "Internal server error")]))) db
      = (JS.Ok res, db')
      /\ (Webhook.statusCode res = 200 \/ Webhook.statusCode res = 400
          \/ Webhook.statusCode res = 500)
      /\ (Webhook.statusCode res <> 200 -> db' = db)).
  { intros provider body.
    unfold Prisma.try_catch, Prisma.bind, Prisma.ret.
    destruct (handleCallback_cases env provider body db) as [H | H];
      cbv zeta in H.
    - destruct (Webhook.handleCallback env provider body db) as [[v|e] db1];
        cbn [snd] in H; subst db1; eexists; eexists;
        (split; [reflexivity|]); cbn [Webhook.statusCode];
        (split; [auto | intros _; reflexivity]).
    - destruct H as (r & oc & pre & p0 & post & _ & _ & _ & _ & _ & ->).
      eexists; eexists. split; [reflexivity|]. cbn [Webhook.statusCode].
      split; [auto | intros H; contradiction H; reflexivity]. }
  unfold Webhook.handler.
  set (path := Webhook.or_empty _).
  destruct (match Webhook.ev_body event with
            | Some b => if JS.truthy_str b
                        then Webhook.JSON_parse (Webhook.runtime env) b
                        else JS.Ok (JS.JObj [])
            | None => JS.Ok (JS.JObj [])
            end) as [body|e] eqn:Hbody.
  - destruct (JS.includes "zalopay" path) eqn:Hz;
      [|destruct (JS.includes "payos" path) eqn:Hp].
    + destruct (Hcb Webhook.ZALOPAY body) as (res & db' & Hrun & Hst).
      exists res, db'. split; [|exact Hst].
      unfold Prisma.try_catch, Prisma.bind, Prisma.lift, Prisma.ret in *.
      exact Hrun.
    + destruct (Hcb Webhook.PAYOS body) as (res & db' & Hrun & Hst).
      exists res, db'. split; [|exact Hst].
      unfold Prisma.try_catch, Prisma.bind, Prisma.lift, Prisma.ret in *.
      exact Hrun.
    + eexists; eexists. split.
      * unfold Prisma.try_catch, Prisma.bind, Prisma.lift, Prisma.ret.
        reflexivity.
      * cbn [Webhook.statusCode]. split; [auto | intros _; reflexivity].
  - eexists; eexists. split.
    + unfold Prisma.try_catch, Prisma.bind, Prisma.lift, Prisma.ret.
      reflexivity.
    + cbn [Webhook.statusCode]. split; [auto | intros _; reflexivity].
Qed.

(** The store after the handler is the store after one call of
    [handleCallback], or the store before. *)
Lemma webhook_handler_store (env : Webhook.Env)
  (event : Webhook.APIGatewayProxyEvent) (db : Prisma.Db) :
  snd (Webhook.handler env event db) = db
  \/ exists provider body,
       snd (Webhook.handler env event db)
       = snd (Webhook.handleCallback env provider body db).
Proof.
  unfold Webhook.handler, Prisma.try_catch, Prisma.bind, Prisma.lift,
    Prisma.ret.
  destruct (match Webhook.ev_body event with
            | Some b => if JS.truthy_str b
                        then Webhook.JSON_parse (Webhook.runtime env) b
                        else JS.Ok (JS.JObj [])
            | None => JS.Ok (JS.JObj [])
            end) as [body|e]; [|left; reflexivity].
  destruct (JS.includes "zalopay" _).
  - right. exists Webhook.ZALOPAY, body.
    destruct (Webhook.handleCallback env Webhook.ZALOPAY body db)
      as [[v|e] db1]; reflexivity.
  - destruct (JS.includes "payos" _); [|left; reflexivity].
    right. exists Webhook.PAYOS, body.
    destruct (Webhook.handleCallback env Webhook.PAYOS body db)
      as [[v|e] db1]; reflexivity.
Qed.

(** X2. Whatever the event, the webhook handler either leaves the store
    as it was or does exactly this: it sets one payment (the first with
    the order code) to COMPLETED or FAILED with the timestamp, and
    appends one outbox row for that payment (aggregateId = the payment's
    id, the matching event type, the payload built from the updated row,
    unpublished, no retries).  No other payment row, no existing outbox
    row is touched. *)
Theorem webhook_handler_effect (env : Webhook.Env)
  (event : Webhook.APIGatewayProxyEvent) (db : Prisma.Db) :
  let db' := snd (Webhook.handler env event db) in
  db' = db
  \/ exists (ok : bool) (pre : list Prisma.Payment) (p0 : Prisma.Payment)
            (post : list Prisma.Payment),
       Prisma.payments db = (pre ++ p0 :: post)%list
       /\ db'
          = Prisma.mkDb
              (pre ++ (if ok then Webhook.setCompleted env p0
                       else Webhook.setFailed env p0) :: post)
              (Prisma.outbox db ++
               [Prisma.mkOutbox (Prisma.outbox_seq db) (Prisma.p_id p0)
                  "Payment"
                  (if ok then "PAYMENT_COMPLETED" else "PAYMENT_FAILED")
                  (Webhook.paymentPayload env
                     (if ok then Webhook.setCompleted env p0
                      else Webhook.setFailed env p0)
                     (if ok then "completed_at" else "failed_at"))
                  false None 0 None
                  (Prisma.db_clock (Webhook.db_env env))])
              (S (Prisma.outbox_seq db)).
Proof.
  cbv zeta.
  destruct (webhook_handler_store env event db) as [H | (provider & body & H)];
    [left; exact H|].
  rewrite H.
  destruct (handleCallback_cases env provider body db)
    as [H' | (r & oc & pre & p0 & post & _ & _ & _ & Hp & _ & Hout)];
    cbv zeta in *; [left; exact H'|].
  right. exists (Webhook.success r), pre, p0, post.
  split; [exact Hp|]. rewrite Hout. reflexivity.
Qed.

Lemma verifyZaloPayCallback_success (env : Webhook.Env) (body : JS.jsval)
  (r : Webhook.CallbackResult) :
  Webhook.verifyZaloPayCallback env body = JS.Ok r ->
  r = Webhook.zaloPayRejected \/ Webhook.success r = true.
Proof.
  unfold Webhook.verifyZaloPayCallback.
  destruct (JS.get body "data") as [data|]; [|discriminate].
  destruct (JS.get body "mac") as [mac|]; [|discriminate].
  destruct (negb (JS.truthy data) || negb (JS.truthy mac));
    [intros H; injection H as <-; left; reflexivity|].
  destruct (Webhook.hmac_update_digest _ _ data) as [expected|];
    [|discriminate].
  destruct (negb (Webhook.strict_eq_str mac expected));
    [intros H; injection H as <-; left; reflexivity|].
  destruct (JS.toString _ data) as [text|]; [|discriminate].
  destruct (Webhook.JSON_parse _ text) as [dataJson|]; [|discriminate].
  destruct (JS.get dataJson "app_trans_id") as [app|]; [|discriminate].
  destruct (Webhook.zaloPayOrderCode app) as [oc|]; [|discriminate].
  intros H. injection H as <-. right. reflexivity.
Qed.

(** X3. A ZaloPay callback never marks a payment as failed: after
    [handleCallback] for ZaloPay, every payment row with status FAILED
    and every outbox row of type PAYMENT_FAILED was in the store before
    (when the verifier resolves an order code it reports success). *)
Theorem zalopay_never_marks_failed (env : Webhook.Env) (body : JS.jsval)
  (db : Prisma.Db) :
  let db' := snd (Webhook.handleCallback env Webhook.ZALOPAY body db) in
  (forall p, In p (Prisma.payments db') ->
     Prisma.p_status p = Prisma.FAILED -> In p (Prisma.payments db))
  /\ (forall row, In row (Prisma.outbox db') ->
        Prisma.eventType row = "PAYMENT_FAILED" ->
        In row (Prisma.outbox db)).
Proof.
  cbv zeta.
  destruct (handleCallback_cases env Webhook.ZALOPAY body db)
    as [H | (r & oc & pre & p0 & post & Hv & Hoc & _ & Hp & _ & Hout)];
    cbv zeta in *.
  - rewrite H. split; intros; assumption.
  - assert (Hs : Webhook.success r = true).
    { destruct (verifyZaloPayCallback_success env body r Hv) as [-> | Hs];
        [discriminate Hoc | exact Hs]. }
    rewrite Hout, Hs. cbn [snd Prisma.payments Prisma.outbox]. split.
    + intros p Hin Hst. rewrite Hp. apply in_app_or in Hin.
      apply in_or_app. destruct Hin as [Hin | [<- | Hin]].
      * left. exact Hin.
      * discriminate Hst.
      * right. right. exact Hin.
    + intros row Hin Hty. apply in_app_or in Hin.
      destruct Hin as [Hin | [<- | []]]; [exact Hin | discriminate Hty].
Qed.

Lemma mapM_throws {A B : Type} (f : A -> JS.result B) (l : list A) :
  (exists e, JS.mapM f l = JS.Throw e) <->
  exists x e, In x l /\ f x = JS.Throw e.
Proof.
  induction l as [|a l IH]; cbn [JS.mapM].
  - split; [intros [e H]; discriminate H | intros (x & e & [] & _)].
  - destruct (f a) as [y|e0] eqn:Hf.
    + destruct (JS.mapM f l) as [ys|e1].
      * split; [intros [e H]; discriminate H|].
        intros (x & e & [<- | Hin] & Hx); [congruence|].
        assert (K : exists e', @JS.Ok (list B) ys = JS.Throw e')
          by (apply IH; exists x, e; auto).
        destruct K as [e' K]. discriminate K.
      * split; [|intros _; exists e1; reflexivity].
        intros _. destruct (proj1 IH (ex_intro _ e1 eq_refl))
          as (x & e & Hin & Hx).
        exists x, e. split; [right; exact Hin | exact Hx].
    + split; [|intros _; exists e0; reflexivity].
      intros _. exists a, e0. split; [left; reflexivity | exact Hf].
Qed.

(** Building the canonical string throws exactly when one of the values
    of the document cannot be converted. *)
Lemma payOSSortedData_throws (env : Webhook.Env) (data : JS.jsval) :
  (exists e, Webhook.payOSSortedData env data = JS.Throw e)
  <-> exists k e,
        In k (JS.keys data)
        /\ JS.toString (Webhook.Number_toString (Webhook.runtime env))
             (JS.index data k) = JS.Throw e.
Proof.
  unfold Webhook.payOSSortedData.
  set (f := fun k : string =>
              let? text := JS.toString
                             (Webhook.Number_toString (Webhook.runtime env))
                             (JS.index data k) in
              JS.Ok (k ++ "=" ++ text)%string).
  pose proof (mapM_throws f (JS.sort (JS.keys data))) as K.
  split.
  - intros [e He].
    destruct (JS.mapM f (JS.sort (JS.keys data))) as [parts|e0];
      [discriminate He|].
    destruct (proj1 K (ex_intro _ e0 eq_refl)) as (k & e1 & Hin & Hk).
    exists k. unfold f in Hk.
    destruct (JS.toString _ (JS.index data k)) as [text|e2];
      [discriminate Hk|].
    exists e2. split; [|reflexivity].
    apply (Permutation_in _ (sortBy_perm String.leb (JS.keys data))), Hin.
  - intros (k & e & Hin & Hk).
    destruct (proj2 K) as [e0 He0].
    { exists k, e. split.
      - apply (Permutation_in _
                 (Permutation_sym (sortBy_perm String.leb (JS.keys data)))),
          Hin.
      - unfold f. rewrite Hk. reflexivity. }
    rewrite He0. exists e0. reflexivity.
Qed.

(** The order code of a document whose canonical string was built. *)
Lemma payOSOrderCode_values (env : Webhook.Env) (data : JS.jsval)
  (sorted : string) :
  Webhook.payOSSortedData env data = JS.Ok sorted ->
  exists oc,
    Webhook.payOSOrderCode env data = JS.Ok oc
    /\ (oc = None <-> JS.index data "orderCode" = JS.JUndefined
                      \/ JS.index data "orderCode" = JS.JNull)
    /\ (forall n, Z.abs n <= 9007199254740991 ->
          JS.index data "orderCode" = JS.JNum n ->
          oc = Some (JS.string_of_Z n))
    /\ (forall text, JS.index data "orderCode" = JS.JStr text ->
          oc = Some text).
Proof.
  intros Hs.
  destruct (payOSOrderCode_after_sorted env data sorted Hs)
    as (oc & Hoc & Hnone & _).
  exists oc. split; [exact Hoc|]. split; [exact Hnone|].
  unfold Webhook.payOSOrderCode in Hoc. split.
  - intros n Hn Hi. rewrite Hi in Hoc.
    assert (Ht : JS.number_text
                   (Webhook.Number_toString (Webhook.runtime env)) n
                 = JS.string_of_Z n).
    { unfold JS.number_text, JS.MAX_SAFE_INTEGER.
      destruct (Z.leb_spec (Z.abs n) 9007199254740991); [reflexivity | lia]. }
    cbn [JS.call_toString JS.toString] in Hoc. rewrite Ht in Hoc.
    congruence.
  - intros text Hi. rewrite Hi in Hoc.
    cbn [JS.call_toString JS.toString] in Hoc. congruence.
Qed.

(** The PayOS verifier on a body whose fields can be read. *)
Lemma verifyPayOSCallback_readable (env : Webhook.Env) (body : JS.jsval) :
  body <> JS.JUndefined -> body <> JS.JNull ->
  let key := match Webhook.PAYOS_CHECKSUM_KEY (Webhook.process_env env) with
             | Some k => k
             | None => ""
             end in
  let data := JS.index body "data" in
  let signature := JS.index body "signature" in
  Webhook.verifyPayOSCallback env body
  = if negb (JS.truthy data) || negb (JS.truthy signature)
    then JS.Ok (Webhook.mkCallbackResult None false
                  (JS.JObj [("error", JS.JStr "Invalid payload")]))
    else match Webhook.payOSSortedData env data with
         | JS.Ok sorted =>
             if Webhook.strict_eq_str signature
                  (Webhook.hmac_sha256_hex (Webhook.runtime env) key sorted)
             then
               match Webhook.payOSOrderCode env data with
               | JS.Ok oc =>
                   JS.Ok (Webhook.mkCallbackResult oc
                            (Webhook.strict_eq_str (JS.index data "code") "00")
                            (JS.JObj [("success", JS.JBool true)]))
               | JS.Throw e => JS.Throw e
               end
             else JS.Ok (Webhook.mkCallbackResult None false
                           (JS.JObj [("error", JS.JStr "Invalid signature")]))
         | JS.Throw e => JS.Throw e
         end.
Proof.
  intros H1 H2 key data signature. unfold Webhook.verifyPayOSCallback.
  rewrite !(get_readable body _ H1 H2), or_empty_key. fold key data signature.
  destruct (negb (JS.truthy data) || negb (JS.truthy signature));
    [reflexivity|].
  destruct (Webhook.payOSSortedData env data) as [sorted|]; [|reflexivity].
  destruct (Webhook.strict_eq_str signature _); [|reflexivity].
  cbn [negb]. destruct (Webhook.payOSOrderCode env data); reflexivity.
Qed.

(** X4. The PayOS verifier goes one of four ways.  It answers
    [Invalid payload] exactly when the fields of the body can be read
    and [data] or [signature] is missing (falsy).  It answers
    [Invalid signature] exactly when both are there, the canonical
    string of [data] can be built, and [signature] is not its hex HMAC
    under the key (PAYOS_CHECKSUM_KEY, the empty string when unset).  It
    answers [{success: true}] exactly when [signature] is that HMAC; the
    success flag is then set exactly when [data.code] is the string
    [00], and the order code is that of [data.orderCode] (absent for a
    missing or null field, the decimal text for a safe integer, a string
    as it is).  It throws exactly when the body is null or the canonical
    string cannot be built, which is when one of the values of [data]
    cannot be converted to a string: past the signature check it never
    throws.  Without an order code, and on a throw, nothing is written
    to the store. *)
Theorem payos_verifier_outcomes (env : Webhook.Env) (body : JS.jsval) :
  let key := match Webhook.PAYOS_CHECKSUM_KEY (Webhook.process_env env) with
             | Some k => k
             | None => ""
             end in
  let hmac := Webhook.hmac_sha256_hex (Webhook.runtime env) key in
  let data := JS.index body "data" in
  let signature := JS.index body "signature" in
  let readable := body <> JS.JUndefined /\ body <> JS.JNull in
  let present := JS.truthy data = true /\ JS.truthy signature = true in
  let invalid (m : string) :=
    Webhook.mkCallbackResult None false (JS.JObj [("error", JS.JStr m)]) in
  (Webhook.verifyPayOSCallback env body = JS.Ok (invalid "Invalid payload")
   <-> readable /\ ~ present)
  /\ (Webhook.verifyPayOSCallback env body = JS.Ok (invalid "Invalid signature")
      <-> readable /\ present
          /\ exists sorted,
               Webhook.payOSSortedData env data = JS.Ok sorted
               /\ signature <> JS.JStr (hmac sorted))
  /\ (forall r,
        Webhook.verifyPayOSCallback env body = JS.Ok r
        /\ Webhook.response r = JS.JObj [("success", JS.JBool true)]
        <-> readable /\ present
            /\ exists sorted oc,
                 Webhook.payOSSortedData env data = JS.Ok sorted
                 /\ signature = JS.JStr (hmac sorted)
                 /\ Webhook.payOSOrderCode env data = JS.Ok oc
                 /\ r = Webhook.mkCallbackResult oc
                          (Webhook.strict_eq_str (JS.index data "code") "00")
                          (JS.JObj [("success", JS.JBool true)]))
  /\ ((exists e, Webhook.verifyPayOSCallback env body = JS.Throw e)
      <-> ~ readable
          \/ (present
              /\ exists e, Webhook.payOSSortedData env data = JS.Throw e))
  /\ ((exists e, Webhook.payOSSortedData env data = JS.Throw e)
      <-> exists k e,
            In k (JS.keys data)
            /\ JS.toString (Webhook.Number_toString (Webhook.runtime env))
                 (JS.index data k) = JS.Throw e)
  /\ (forall sorted,
        Webhook.payOSSortedData env data = JS.Ok sorted ->
        exists oc,
          Webhook.payOSOrderCode env data = JS.Ok oc
          /\ (oc = None <-> JS.index data "orderCode" = JS.JUndefined
                            \/ JS.index data "orderCode" = JS.JNull)
          /\ (forall n, Z.abs n <= 9007199254740991 ->
                JS.index data "orderCode" = JS.JNum n ->
                oc = Some (JS.string_of_Z n))
          /\ (forall text, JS.index data "orderCode" = JS.JStr text ->
                oc = Some text))
  /\ (Webhook.strict_eq_str (JS.index data "code") "00" = true
      <-> JS.index data "code" = JS.JStr "00")
  /\ (forall db,
        match Webhook.verifyPayOSCallback env body with
        | JS.Ok r =>
            Webhook.orderCode r = None ->
            Webhook.handleCallback env Webhook.PAYOS body db
            = (JS.Ok (Webhook.response r), db)
        | JS.Throw e =>
            Webhook.handleCallback env Webhook.PAYOS body db
            = (JS.Throw e, db)
        end).
Proof.
  intros key hmac data signature readable present invalid.
  assert (Hstore : forall db,
            match Webhook.verifyPayOSCallback env body with
            | JS.Ok r =>
                Webhook.orderCode r = None ->
                Webhook.handleCallback env Webhook.PAYOS body db
                = (JS.Ok (Webhook.response r), db)
            | JS.Throw e =>
                Webhook.handleCallback env Webhook.PAYOS body db
                = (JS.Throw e, db)
            end).
  { intros db. unfold Webhook.handleCallback, Prisma.bind, Prisma.lift.
    cbn [Webhook.verifyAndParseCallback].
    destruct (Webhook.verifyPayOSCallback env body) as [r|e];
      [|reflexivity].
    intros Hoc. rewrite Hoc. reflexivity. }
  pose proof (payOSSortedData_throws env data) as Hkeys.
  pose proof (payOSOrderCode_values env data) as Hcode.
  assert (Hnull : ~ readable ->
            exists e, Webhook.verifyPayOSCallback env body = JS.Throw e).
  { intros Hn. unfold readable in Hn.
    destruct body; try (exfalso; apply Hn; split; discriminate);
      eexists; reflexivity. }
  assert (Hread : forall r, Webhook.verifyPayOSCallback env body = JS.Ok r ->
                            readable)
    by (intros r Hv; split; intros ->; discriminate Hv).
  assert (Hsig : forall sorted,
            Webhook.strict_eq_str signature (hmac sorted) = false <->
            signature <> JS.JStr (hmac sorted)).
  { intros sorted. rewrite <- strict_eq_str_true.
    destruct (Webhook.strict_eq_str signature (hmac sorted)); split;
      congruence. }
  assert (Hrun : readable ->
            Webhook.verifyPayOSCallback env body
            = if negb (JS.truthy data) || negb (JS.truthy signature)
              then JS.Ok (invalid "Invalid payload")
              else match Webhook.payOSSortedData env data with
                   | JS.Ok sorted =>
                       if Webhook.strict_eq_str signature (hmac sorted)
                       then
                         match Webhook.payOSOrderCode env data with
                         | JS.Ok oc =>
                             JS.Ok (Webhook.mkCallbackResult oc
                                      (Webhook.strict_eq_str
                                         (JS.index data "code") "00")
                                      (JS.JObj [("success", JS.JBool true)]))
                         | JS.Throw e => JS.Throw e
                         end
                       else JS.Ok (invalid "Invalid signature")
                   | JS.Throw e => JS.Throw e
                   end)
    by (intros [H1 H2]; apply (verifyPayOSCallback_readable env body H1 H2)).
  assert (Hpres : negb (JS.truthy data) || negb (JS.truthy signature) = false
                  <-> present).
  { unfold present.
    destruct (JS.truthy data), (JS.truthy signature); cbn; split;
      intros H; try discriminate H; try (destruct H; discriminate); auto. }
  split; [|split; [|split; [|split; [|split; [exact Hkeys
            |split; [exact Hcode
            |split; [apply strict_eq_str_true | exact Hstore]]]]]]].
  - split.
    + intros Hv. pose proof (Hread _ Hv) as Hr. split; [exact Hr|].
      intros Hp. apply Hpres in Hp. rewrite (Hrun Hr), Hp in Hv.
      destruct (Webhook.payOSSortedData env data) as [sorted|];
        [|discriminate Hv].
      destruct (Webhook.strict_eq_str signature (hmac sorted));
        [|discriminate Hv].
      destruct (Webhook.payOSOrderCode env data); discriminate Hv.
    + intros [Hr Hn]. rewrite (Hrun Hr).
      destruct (negb (JS.truthy data) || negb (JS.truthy signature)) eqn:E;
        [reflexivity|].
      exfalso. apply Hn, Hpres. reflexivity.
  - split.
    + intros Hv. pose proof (Hread _ Hv) as Hr. split; [exact Hr|].
      rewrite (Hrun Hr) in Hv.
      destruct (negb (JS.truthy data) || negb (JS.truthy signature)) eqn:E;
        [discriminate Hv|].
      split; [apply Hpres; reflexivity|].
      destruct (Webhook.payOSSortedData env data) as [sorted|];
        [|discriminate Hv].
      exists sorted. split; [reflexivity|]. apply Hsig.
      destruct (Webhook.strict_eq_str signature (hmac sorted)); [|reflexivity].
      destruct (Webhook.payOSOrderCode env data); discriminate Hv.
    + intros (Hr & Hp & sorted & Hs & Hne).
      apply Hpres in Hp. apply Hsig in Hne.
      rewrite (Hrun Hr), Hp, Hs, Hne. reflexivity.
  - intros r. split.
    + intros [Hv Hresp]. pose proof (Hread _ Hv) as Hr.
      split; [exact Hr|]. rewrite (Hrun Hr) in Hv.
      destruct (negb (JS.truthy data) || negb (JS.truthy signature)) eqn:E;
        [injection Hv as <-; discriminate Hresp|].
      split; [apply Hpres; reflexivity|].
      destruct (Webhook.payOSSortedData env data) as [sorted|];
        [|discriminate Hv].
      destruct (Webhook.strict_eq_str signature (hmac sorted)) eqn:Es;
        [|injection Hv as <-; discriminate Hresp].
      apply strict_eq_str_true in Es.
      destruct (Webhook.payOSOrderCode env data) as [oc|]; [|discriminate Hv].
      injection Hv as <-. exists sorted, oc. auto.
    + intros (Hr & Hp & sorted & oc & Hs & Hm & Hoc & ->).
      apply Hpres in Hp. apply strict_eq_str_true in Hm.
      rewrite (Hrun Hr), Hp, Hs, Hm, Hoc. split; reflexivity.
  - split.
    + intros [e He].
      destruct (classic_readable body) as [Hr | Hn]; [|left; exact Hn].
      right. rewrite (Hrun Hr) in He.
      destruct (negb (JS.truthy data) || negb (JS.truthy signature)) eqn:E;
        [discriminate He|].
      split; [apply Hpres; reflexivity|].
      destruct (Webhook.payOSSortedData env data) as [sorted|e0] eqn:Hs;
        [|exists e0; reflexivity].
      exfalso.
      destruct (Webhook.strict_eq_str signature (hmac sorted));
        [|discriminate He].
      destruct (Hcode sorted eq_refl) as (oc & Hoc & _).
      rewrite Hoc in He. discriminate He.
    + intros [Hn | (Hp & e & He)]; [apply Hnull, Hn|].
      destruct (classic_readable body) as [Hr | Hn]; [|apply Hnull, Hn].
      apply Hpres in Hp. rewrite (Hrun Hr), Hp, He. exists e. reflexivity.
Qed.

Lemma payos_verifier_outcomes_witness :
  Webhook.verifyPayOSCallback (Demo.webhook_env None 1000)
    (Demo.payos_body "forged")
  = JS.Ok (Webhook.mkCallbackResult None false
             (JS.JObj [("error", JS.JStr "Invalid signature")])).
Proof.
  apply (proj1 (proj2 (payos_verifier_outcomes (Demo.webhook_env None 1000)
                         (Demo.payos_body "forged")))).
  split; [split; discriminate|]. split; [split; reflexivity|].
  exists Demo.payos_sorted. split; [reflexivity|].
  vm_compute. discriminate.
Defined.

(** X5. An authentic ZaloPay callback whose data document has no
    [app_trans_id], or a null or empty one, is acknowledged like a
    recorded payment ([return_code: 1]) while nothing is written to the
    store. *)
Theorem zalopay_without_order_code_unrecorded (env : Webhook.Env)
  (body dataJson app_trans_id : JS.jsval) (d : string) (db : Prisma.Db) :
  let key2 := Webhook.or_empty (Webhook.ZALOPAY_KEY2 (Webhook.process_env env)) in
  let mac := Webhook.hmac_sha256_hex (Webhook.runtime env) key2 d in
  JS.get body "data" = JS.Ok (JS.JStr d) ->
  JS.get body "mac" = JS.Ok (JS.JStr mac) ->
  d <> EmptyString -> mac <> EmptyString ->
  Webhook.JSON_parse (Webhook.runtime env) d = JS.Ok dataJson ->
  JS.get dataJson "app_trans_id" = JS.Ok app_trans_id ->
  app_trans_id = JS.JUndefined \/ app_trans_id = JS.JNull
  \/ app_trans_id = JS.JStr "" ->
  Webhook.handleCallback env Webhook.ZALOPAY body db
  = (JS.Ok (JS.JObj [("return_code", JS.JNum 1);
                     ("return_message", JS.JStr "success")]), db).
Proof.
  intros key2 mac Hd Hm Hdne Hmne Hparse Happ Hcases.
  rewrite handleCallback_run. cbn [Webhook.verifyAndParseCallback].
  rewrite (verifyZaloPayCallback_authentic env body d (JS.JStr mac) Hd Hm);
    [| apply truthy_str_true, Hdne | apply truthy_str_true, Hmne
     | reflexivity].
  rewrite Hparse, Happ.
  destruct Hcases as [-> | [-> | ->]]; reflexivity.
Qed.

Lemma zalopay_without_order_code_unrecorded_witness :
  Webhook.handleCallback (Cases.webhook_env (Some "k2") 1000) Webhook.ZALOPAY
    (Cases.empty_doc_body "k2") Demo.db_pending
  = (JS.Ok (JS.JObj [("return_code", JS.JNum 1);
                     ("return_message", JS.JStr "success")]),
     Demo.db_pending).
Proof.
  apply (zalopay_without_order_code_unrecorded
           (Cases.webhook_env (Some "k2") 1000) (Cases.empty_doc_body "k2")
           (JS.JObj []) JS.JUndefined "{}" Demo.db_pending).
  - reflexivity.
  - reflexivity.
  - discriminate.
  - vm_compute. discriminate.
  - reflexivity.
  - reflexivity.
  - left. reflexivity.
Defined.

(* ================================================================== *)
(** ** The payment table across invocations *)
(* ================================================================== *)

Lemma publishEvent_keeps_payments (env : Relay.Env) (event : Prisma.Outbox)
  (db : Prisma.Db) :
  Prisma.payments (snd (Relay.publishEvent env event db)) = Prisma.payments db.
Proof.
  assert (Hupd : forall data d,
            Prisma.payments
              (snd (Prisma.outbox_update (Relay.db_env env)
                      (Prisma.id event) data d)) = Prisma.payments d).
  { intros data d. unfold Prisma.outbox_update, Prisma.request.
    destruct (Prisma.db_fault _ _); [reflexivity|].
    destruct (Prisma.update_first _ _ (Prisma.outbox d)) as [[r rows]|];
      reflexivity. }
  rewrite publishEvent_branches.
  destruct (Relay.TOPIC_MAPPING env (Prisma.eventType event)) as [topic|].
  - unfold Prisma.try_catch, Prisma.bind, Prisma.lift, Prisma.throw, Prisma.ret.
    destruct (Relay.send env _) as [u|error].
    + pose proof (Hupd (Prisma.SetPublished (Relay.now env event)) db) as H1.
      destruct (Prisma.outbox_update _ _ (Prisma.SetPublished _) db)
        as [[r|e] db1]; cbn [snd] in *; [exact H1|].
      pose proof (Hupd (Prisma.IncrementRetry (Relay.errorText e)) db1) as H2.
      destruct (Prisma.outbox_update _ _ _ db1) as [[r|e'] db2];
        cbn [snd] in *; congruence.
    + pose proof (Hupd (Prisma.IncrementRetry (Relay.errorText error)) db) as H1.
      destruct (Prisma.outbox_update _ _ _ db) as [[r|e] db1];
        cbn [snd] in *; exact H1.
  - unfold Prisma.bind, Prisma.ret.
    pose proof (Hupd (Prisma.IncrementRetry
                        ("Unknown event type: " ++ Prisma.eventType event)) db)
      as H1.
    destruct (Prisma.outbox_update _ _ _ db) as [[r|e] db1];
      cbn [snd] in *; exact H1.
Qed.

Lemma allSettled_keeps_payments (env : Relay.Env)
  (events : list Prisma.Outbox) :
  forall db,
    Prisma.payments (snd (Relay.allSettled env events db))
    = Prisma.payments db.
Proof.
  induction events as [|e rest IH]; intros db; [reflexivity|].
  cbn [Relay.allSettled].
  pose proof (publishEvent_keeps_payments env e db) as H1.
  destruct (Relay.publishEvent env e db) as [r db1]. cbn [snd] in H1.
  specialize (IH db1).
  destruct (Relay.allSettled env rest db1) as [rs db2]. cbn [snd] in *.
  congruence.
Qed.

Lemma relay_handler_keeps_payments (env : Relay.Env) (db : Prisma.Db) :
  Prisma.payments (snd (Relay.handler env db)) = Prisma.payments db.
Proof.
  unfold Relay.handler, Prisma.bind, Prisma.lift, Prisma.ret.
  destruct (Relay.connect env); [|reflexivity].
  rewrite findBatch_run.
  destruct (Prisma.db_fault _ Prisma.OpOutboxFindMany); [reflexivity|].
  destruct (firstn _ _) as [|e batch]; [reflexivity|].
  pose proof (allSettled_keeps_payments env (e :: batch) db) as H.
  destruct (Relay.allSettled env (e :: batch) db) as [[rs|err] db1];
    exact H.
Qed.

Lemma cleanup_handler_keeps_payments (env : Cleanup.Env) (db : Prisma.Db) :
  Prisma.payments (snd (Cleanup.handler env db)) = Prisma.payments db.
Proof.
  unfold Cleanup.handler, Prisma.bind, Cleanup.deleteOldPublishedEvents.
  destruct (Cleanup.cutoffDate env) as [cutoff|]; [|reflexivity].
  unfold Prisma.outbox_deleteMany, Prisma.request.
  destruct (Prisma.db_fault _ Prisma.OpOutboxDeleteMany); [reflexivity|].
  unfold Cleanup.monitorFailedEvents, Prisma.outbox_findMany, Prisma.request.
  destruct (Prisma.db_fault _ Prisma.OpOutboxFindMany); [reflexivity|].
  unfold Cleanup.publishMetrics, Prisma.ret.
  destruct (Cleanup.cloudwatch_send env _ _); reflexivity.
Qed.

Lemma payment_evolved_refl (p : Prisma.Payment) : Rows.payment_evolved p p.
Proof.
  split; [reflexivity|]. split; [reflexivity | intros H; exact H].
Qed.

Lemma payment_evolved_set (env : Webhook.Env) (ok : bool)
  (p0 p : Prisma.Payment) :
  Rows.payment_evolved p0 p ->
  Rows.payment_evolved p0
    (if ok then Webhook.setCompleted env p else Webhook.setFailed env p).
Proof.
  intros (Hfix & _ & _). destruct ok; (split; [|split]).
  - rewrite <- Hfix. reflexivity.
  - discriminate.
  - intros _. split; cbn; [discriminate | discriminate].
  - rewrite <- Hfix. reflexivity.
  - discriminate.
  - intros _. split; cbn; [discriminate | discriminate].
Qed.

Lemma Forall2_evolved_refl (l : list Prisma.Payment) :
  Forall2 Rows.payment_evolved l l.
Proof.
  induction l; constructor; [apply payment_evolved_refl | assumption].
Qed.

Lemma invoke_payments (i : System.Invocation) (payments0 : list Prisma.Payment)
  (db : Prisma.Db) :
  Forall2 Rows.payment_evolved payments0 (Prisma.payments db) ->
  Forall2 Rows.payment_evolved payments0
    (Prisma.payments (System.invoke i db)).
Proof.
  intros H. destruct i as [env event | env | env]; cbn [System.invoke].
  - destruct (webhook_handler_effect env event db)
      as [E | (ok & pre & p0 & post & Hp & E)]; cbv zeta in E; rewrite E;
      [exact H|].
    cbn [Prisma.payments]. rewrite Hp in H.
    apply Forall2_app_inv_r in H.
    destruct H as (l1 & l2 & Hpre & Hrest & ->).
    inversion Hrest as [|a ? l2' ? Ha Hpost]; subst.
    apply Forall2_app; [exact Hpre|].
    constructor; [apply payment_evolved_set, Ha | exact Hpost].
  - rewrite relay_handler_keeps_payments. exact H.
  - rewrite cleanup_handler_keeps_payments. exact H.
Qed.

Lemma run_payments (invocations : list System.Invocation) :
  forall payments0 db,
    Forall2 Rows.payment_evolved payments0 (Prisma.payments db) ->
    Forall2 Rows.payment_evolved payments0
      (Prisma.payments (System.run invocations db)).
Proof.
  induction invocations as [|i rest IH]; intros payments0 db H; [exact H|].
  apply (IH payments0 (System.invoke i db)), invoke_payments, H.
Qed.

(** X6. Over any sequence of invocations of the three jobs the payment
    table keeps its rows in place: no payment is added or deleted, the
    id, order code, amount, currency, provider and provider transaction
    id of each row never change, and a row that is PENDING at the end is
    the row it was at the start (no handler returns a payment to
    PENDING).  The relay and the sweeper never write the table at all. *)
Theorem payments_keep_identity
  (invocations : list System.Invocation) (db : Prisma.Db) :
  Forall2
    (fun p p' =>
       (Prisma.p_id p', Prisma.p_orderCode p', Prisma.p_amountCents p',
        Prisma.p_currency p', Prisma.p_provider p',
        Prisma.p_providerTransactionId p')
       = (Prisma.p_id p, Prisma.p_orderCode p, Prisma.p_amountCents p,
          Prisma.p_currency p, Prisma.p_provider p,
          Prisma.p_providerTransactionId p)
       /\ (Prisma.p_status p' = Prisma.PENDING -> p' = p))
    (Prisma.payments db) (Prisma.payments (System.run invocations db))
  /\ (forall env d,
        Prisma.payments (snd (Relay.handler env d)) = Prisma.payments d)
  /\ (forall env d,
        Prisma.payments (snd (Cleanup.handler env d)) = Prisma.payments d).
Proof.
  split; [|split; [apply relay_handler_keeps_payments
                  | apply cleanup_handler_keeps_payments]].
  eapply Forall2_impl;
    [|apply (run_payments invocations (Prisma.payments db) db),
        Forall2_evolved_refl].
  intros p p' (Hfix & Hpending & _). split; [exact Hfix | exact Hpending].
Qed.

(** X7. If every COMPLETED payment has its completedAt and every FAILED
    payment its failedAt, this is still so after any sequence of
    invocations: the webhook writes the status and its timestamp
    together.  (The other timestamp is left as it is: a payment
    completed and later failed carries both.) *)
Theorem payment_terminal_timestamps
  (invocations : list System.Invocation) (db : Prisma.Db) :
  Forall (fun p =>
            (Prisma.p_status p = Prisma.COMPLETED ->
             Prisma.p_completedAt p <> None)
            /\ (Prisma.p_status p = Prisma.FAILED ->
                Prisma.p_failedAt p <> None))
         (Prisma.payments db) ->
  Forall (fun p =>
            (Prisma.p_status p = Prisma.COMPLETED ->
             Prisma.p_completedAt p <> None)
            /\ (Prisma.p_status p = Prisma.FAILED ->
                Prisma.p_failedAt p <> None))
         (Prisma.payments (System.run invocations db)).
Proof.
  intros Hts.
  pose proof (run_payments invocations (Prisma.payments db) db
                (Forall2_evolved_refl _)) as H.
  induction H as [|p p' l l' (_ & _ & Hp) _ IH]; [constructor|].
  inversion Hts; subst. constructor; [apply Hp; assumption | apply IH].
  assumption.
Qed.

Lemma payment_terminal_timestamps_witness :
  Forall (fun p =>
            (Prisma.p_status p = Prisma.COMPLETED ->
             Prisma.p_completedAt p <> None)
            /\ (Prisma.p_status p = Prisma.FAILED ->
                Prisma.p_failedAt p <> None))
         (Prisma.payments
            (System.run
               [System.InvokeRelay (Demo.relay_env Demo.broker_up (5 * Demo.day))]
               Cases.db_pending_rows)).
Proof.
  apply (payment_terminal_timestamps
           [System.InvokeRelay (Demo.relay_env Demo.broker_up (5 * Demo.day))]
           Cases.db_pending_rows).
  constructor; [|constructor].
  split; [intros _; discriminate | intros H; discriminate H].
Defined.

(* ================================================================== *)
(** ** Relay passes: outcome, draining, exhausted retries *)
(* ================================================================== *)

(** X8. On a table with unique ids the relay invocation fails only
    before it writes: when the producer cannot be connected or the batch
    cannot be read it throws and the store is as it was; otherwise it
    returns normally, whatever the broker answers and whichever updates
    the store refuses, and it leaves the payment table and the ids of
    the outbox rows as they were. *)
Theorem relay_handler_outcome (env : Relay.Env) (db : Prisma.Db) :
  NoDup (map Prisma.id (Prisma.outbox db)) ->
  match Relay.connect env with
  | JS.Throw e => Relay.handler env db = (JS.Throw e, db)
  | JS.Ok _ =>
      if Prisma.db_fault (Relay.db_env env) Prisma.OpOutboxFindMany
      then Relay.handler env db = (JS.Throw Prisma.StorageError, db)
      else exists db',
             Relay.handler env db = (JS.Ok tt, db')
             /\ Prisma.payments db' = Prisma.payments db
             /\ map Prisma.id (Prisma.outbox db')
                = map Prisma.id (Prisma.outbox db)
             /\ Prisma.outbox_seq db' = Prisma.outbox_seq db
  end.
Proof.
  intros Hnd. rewrite (relay_handler_run env db Hnd).
  destruct (Relay.connect env); [|reflexivity].
  destruct (Prisma.db_fault _ Prisma.OpOutboxFindMany); [reflexivity|].
  eexists. split; [reflexivity|]. cbn [Prisma.payments Prisma.outbox
                                       Prisma.outbox_seq].
  split; [reflexivity|]. split; [|reflexivity].
  rewrite map_map. apply map_ext. intros r. apply settle_id.
Qed.

Lemma relay_handler_outcome_witness :
  Relay.handler
    (Relay.mkEnv None None (JS.Throw (JS.Error (Some "Connection timeout")))
       Demo.broker_up (fun i => JS.string_of_nat i)
       (Prisma.mkDbEnv Demo.no_fault 0) (fun _ => 0))
    Demo.db_outbox
  = (JS.Throw (JS.Error (Some "Connection timeout")), Demo.db_outbox).
Proof.
  apply (relay_handler_outcome
           (Relay.mkEnv None None
              (JS.Throw (JS.Error (Some "Connection timeout")))
              Demo.broker_up (fun i => JS.string_of_nat i)
              (Prisma.mkDbEnv Demo.no_fault 0) (fun _ => 0))
           Demo.db_outbox).
  repeat constructor; simpl; intuition discriminate.
Defined.

(** With at most [BATCH_SIZE] pending rows the batch holds all of
    them. *)
Lemma batch_all_pending (rows : list Prisma.Outbox) (r : Prisma.Outbox) :
  (List.length (filter Relay.pending rows) <= Relay.BATCH_SIZE)%nat ->
  In r (firstn Relay.BATCH_SIZE
          (JS.sortBy Prisma.createdAt_asc (filter Relay.pending rows)))
  <-> In r rows /\ Relay.pending r = true.
Proof.
  intros Hlen. rewrite firstn_all2.
  - rewrite <- filter_In. split; apply Permutation_in;
      [|apply Permutation_sym]; apply sortBy_perm.
  - rewrite (Permutation_length (sortBy_perm _ _)). exact Hlen.
Qed.

(** A pass that reaches all pending rows, on a store that answers. *)
Lemma relay_full_pass (env : Relay.Env) (db : Prisma.Db) :
  NoDup (map Prisma.id (Prisma.outbox db)) ->
  (forall op, Prisma.db_fault (Relay.db_env env) op = false) ->
  Relay.connect env = JS.Ok tt ->
  (List.length (filter Relay.pending (Prisma.outbox db))
   <= Relay.BATCH_SIZE)%nat ->
  exists g,
    Relay.handler env db
    = (JS.Ok tt,
       Prisma.mkDb (Prisma.payments db) (map g (Prisma.outbox db))
                   (Prisma.outbox_seq db))
    /\ forall r, In r (Prisma.outbox db) ->
         g r = if Relay.pending r
               then Prisma.apply_update
                      (match Relay.TOPIC_MAPPING env (Prisma.eventType r) with
                       | None =>
                           Prisma.IncrementRetry
                             ("Unknown event type: " ++ Prisma.eventType r)
                       | Some topic =>
                           match Relay.send env
                                   (Relay.producerRecord env topic r) with
                           | JS.Ok _ => Prisma.SetPublished (Relay.now env r)
                           | JS.Throw error =>
                               Prisma.IncrementRetry (Relay.errorText error)
                           end
                       end) r
               else r.
Proof.
  intros Hnd Hnf Hconn Hlen.
  eexists. split.
  - rewrite (relay_handler_run env db Hnd), Hconn, Hnf. reflexivity.
  - intros r Hr.
    destruct (batch_members (Prisma.outbox db) Hnd) as [_ Hbin].
    destruct (settle_row env (Prisma.outbox db) _ r Hnd
                (fun e He => proj1 (Hbin e He)) Hr) as [[Hin E] | [Hout E]];
      rewrite E.
    + apply (batch_all_pending _ _ Hlen) in Hin. destruct Hin as [_ Hp].
      rewrite Hp, (settledUpdate_no_fault env r Hnf). reflexivity.
    + destruct (Relay.pending r) eqn:Hp; [|reflexivity].
      exfalso. apply Hout. apply (batch_all_pending _ _ Hlen).
      split; assumption.
Qed.

Lemma filter_nothing {A : Type} (f : A -> bool) (l : list A) :
  (forall x, In x l -> f x = false) -> filter f l = [].
Proof.
  induction l as [|x l IH]; intros H; simpl; [reflexivity|].
  rewrite (H x (or_introl eq_refl)). apply IH.
  intros y Hy. apply H. right. exact Hy.
Qed.

Lemma relay_handler_nothing_pending (env : Relay.Env) (db : Prisma.Db) :
  NoDup (map Prisma.id (Prisma.outbox db)) ->
  filter Relay.pending (Prisma.outbox db) = [] ->
  Relay.connect env = JS.Ok tt ->
  Prisma.db_fault (Relay.db_env env) Prisma.OpOutboxFindMany = false ->
  Relay.handler env db = (JS.Ok tt, db).
Proof.
  intros Hnd Hnone Hconn Hnf.
  rewrite (relay_handler_run env db Hnd), Hconn, Hnf, Hnone.
  cbn [JS.sortBy firstn]. f_equal.
  rewrite (map_ext _ (fun r => r)) by reflexivity.
  rewrite map_id. destruct db; reflexivity.
Qed.

(** X9. A relay pass with the broker accepting every message, the store
    answering, at most 100 pending rows and each of them of an event
    type that is sent (one of the two types, or a name found on the
    prototype of the mapping object) publishes them all: every pending
    row is marked published, with publishedAt the clock reading of its
    own attempt and its retry count and last error kept, the other rows
    are as they were, and nothing is pending afterwards, so that the
    next pass finds an empty batch and changes nothing. *)
Theorem relay_successful_pass_drains (env : Relay.Env) (db : Prisma.Db) :
  NoDup (map Prisma.id (Prisma.outbox db)) ->
  (forall op, Prisma.db_fault (Relay.db_env env) op = false) ->
  Relay.connect env = JS.Ok tt ->
  (forall rec, Relay.send env rec = JS.Ok tt) ->
  (forall r, In r (Prisma.outbox db) -> Relay.pending r = true ->
     Prisma.eventType r = "PAYMENT_COMPLETED"
     \/ Prisma.eventType r = "PAYMENT_FAILED"
     \/ In (Prisma.eventType r) Relay.Object_prototype) ->
  (List.length (filter Relay.pending (Prisma.outbox db)) <= 100)%nat ->
  exists db',
    Relay.handler env db = (JS.Ok tt, db')
    /\ List.length (Prisma.outbox db') = List.length (Prisma.outbox db)
    /\ (forall r, In r (Prisma.outbox db) ->
          Prisma.published r = false -> Prisma.retryCount r < 5 ->
          In (Prisma.mkOutbox (Prisma.id r) (Prisma.aggregateId r)
                (Prisma.aggregateType r) (Prisma.eventType r)
                (Prisma.payload r) true (Some (Relay.now env r))
                (Prisma.retryCount r) (Prisma.lastError r)
                (Prisma.createdAt r))
             (Prisma.outbox db'))
    /\ (forall r, In r (Prisma.outbox db) ->
          Prisma.published r = true \/ 5 <= Prisma.retryCount r ->
          In r (Prisma.outbox db'))
    /\ (forall r, In r (Prisma.outbox db') ->
          Prisma.published r = true \/ 5 <= Prisma.retryCount r)
    /\ (forall env',
          Relay.connect env' = JS.Ok tt ->
          Prisma.db_fault (Relay.db_env env') Prisma.OpOutboxFindMany = false ->
          Relay.handler env' db' = (JS.Ok tt, db')).
Proof.
  intros Hnd Hnf Hconn Hup Htopic Hlen.
  destruct (relay_full_pass env db Hnd Hnf Hconn Hlen) as (g & Hrun & Hg).
  assert (Hg' : forall r, In r (Prisma.outbox db) ->
            g r = if Relay.pending r
                  then Prisma.apply_update
                         (Prisma.SetPublished (Relay.now env r)) r
                  else r).
  { intros r Hr. rewrite (Hg r Hr).
    destruct (Relay.pending r) eqn:Hp; [|reflexivity].
    specialize (Htopic r Hr Hp).
    destruct (Relay.TOPIC_MAPPING env (Prisma.eventType r)) as [topic|] eqn:Ht;
      [rewrite Hup; reflexivity|].
    exfalso. apply TOPIC_MAPPING_none in Ht. destruct Ht as (H1 & H2 & H3).
    destruct Htopic as [H|[H|H]]; contradiction. }
  assert (Hnotp : forall r, Relay.pending r = false <->
            Prisma.published r = true \/ 5 <= Prisma.retryCount r).
  { intros r. unfold Relay.pending, Relay.MAX_RETRIES.
    destruct (Prisma.published r); simpl.
    - split; auto.
    - rewrite Z.ltb_ge. split; [auto | intros [H|H]; [discriminate | exact H]]. }
  assert (Hafter : forall r', In r' (map g (Prisma.outbox db)) ->
            Relay.pending r' = false).
  { intros r' Hr'. apply in_map_iff in Hr'. destruct Hr' as (r & <- & Hr).
    rewrite (Hg' r Hr). destruct (Relay.pending r) eqn:Hp; [|exact Hp].
    reflexivity. }
  eexists. split; [exact Hrun|]. cbn [Prisma.outbox].
  split; [apply length_map|].
  split; [|split; [|split]].
  - intros r Hr Hpub Hretry.
    assert (Hp : Relay.pending r = true)
      by (apply pending_spec; split; assumption).
    pose proof (in_map g _ _ Hr) as Hin. rewrite (Hg' r Hr), Hp in Hin.
    exact Hin.
  - intros r Hr Hn. apply Hnotp in Hn.
    pose proof (in_map g _ _ Hr) as Hin. rewrite (Hg' r Hr), Hn in Hin.
    exact Hin.
  - intros r' Hr'. apply Hnotp, Hafter, Hr'.
  - intros env' Hconn' Hnf'.
    apply relay_handler_nothing_pending; try assumption.
    + cbn [Prisma.outbox]. rewrite map_map.
      rewrite (map_ext_in _ Prisma.id); [exact Hnd|].
      intros r Hr. rewrite (Hg' r Hr).
      destruct (Relay.pending r); reflexivity.
    + cbn [Prisma.outbox]. apply filter_nothing, Hafter.
Qed.

Lemma relay_successful_pass_drains_witness :
  exists db',
    Relay.handler (Demo.relay_env Demo.broker_up (5 * Demo.day))
      Cases.db_pending_rows = (JS.Ok tt, db')
    /\ List.length (Prisma.outbox db')
       = List.length (Prisma.outbox Cases.db_pending_rows).
Proof.
  destruct (relay_successful_pass_drains
              (Demo.relay_env Demo.broker_up (5 * Demo.day))
              Cases.db_pending_rows) as (db' & Hrun & Hlen & _).
  - repeat constructor; simpl; intuition discriminate.
  - intros op. reflexivity.
  - reflexivity.
  - intros rec. reflexivity.
  - intros r Hr _. simpl in Hr.
    destruct Hr as [<- | [<- | [<- | []]]]; auto.
  - simpl. lia.
  - exists db'. split; [exact Hrun | exact Hlen].
Defined.

Lemma pending_view (r : Prisma.Outbox) :
  Relay.pending r
  = (let '(_, p, c) := Rows.retry_view r in negb p && (c <? Relay.MAX_RETRIES)).
Proof. reflexivity. Qed.

Lemma retried_step (k : nat) (v : nat * bool * Z) :
  Rows.retried k (Rows.retried 1 v) = Rows.retried (S k) v.
Proof.
  destruct v as [[i p] c]. unfold Rows.retried, Relay.MAX_RETRIES.
  destruct p; [reflexivity|]. f_equal. lia.
Qed.

Lemma view_ids (f : nat * bool * Z -> nat * bool * Z)
  (rows rows' : list Prisma.Outbox) :
  (forall v, fst (fst (f v)) = fst (fst v)) ->
  map Rows.retry_view rows' = map (fun r => f (Rows.retry_view r)) rows ->
  map Prisma.id rows' = map Prisma.id rows.
Proof.
  intros Hf H.
  assert (E : map (fun v => fst (fst v)) (map Rows.retry_view rows')
              = map (fun v => fst (fst v))
                    (map (fun r => f (Rows.retry_view r)) rows))
    by (rewrite H; reflexivity).
  rewrite !map_map in E.
  rewrite (map_ext _ Prisma.id) in E by reflexivity.
  rewrite E. apply map_ext. intros r. apply Hf.
Qed.

Lemma pending_count_after_failures (rows : list Prisma.Outbox) :
  forall rows',
    map Rows.retry_view rows'
    = map (fun r => Rows.retried 1 (Rows.retry_view r)) rows ->
    (List.length (filter Relay.pending rows')
     <= List.length (filter Relay.pending rows))%nat.
Proof.
  induction rows as [|r rows IH]; intros [|r' rows'] H; cbn [map] in H;
    try discriminate; [simpl; lia|].
  pose proof (f_equal (hd (Rows.retry_view r')) H) as Hhead.
  pose proof (f_equal (@tl _) H) as Htail. cbn [hd tl] in Hhead, Htail.
  specialize (IH rows' Htail).
  assert (Hp : Relay.pending r' = true -> Relay.pending r = true).
  { rewrite !pending_view, Hhead.
    unfold Rows.retry_view, Rows.retried, Relay.MAX_RETRIES.
    destruct (Prisma.published r); simpl; [auto|].
    rewrite !Z.ltb_lt. lia. }
  simpl. destruct (Relay.pending r') eqn:E'.
  - rewrite (Hp eq_refl). simpl. lia.
  - destruct (Relay.pending r); simpl; lia.
Qed.

(** A pass in which every send fails adds one retry to each pending
    row. *)
Lemma relay_failing_pass_view (env : Relay.Env) (db : Prisma.Db) :
  NoDup (map Prisma.id (Prisma.outbox db)) ->
  (forall op, Prisma.db_fault (Relay.db_env env) op = false) ->
  Relay.connect env = JS.Ok tt ->
  (forall rec, exists error, Relay.send env rec = JS.Throw error) ->
  (List.length (filter Relay.pending (Prisma.outbox db))
   <= Relay.BATCH_SIZE)%nat ->
  map Rows.retry_view (Prisma.outbox (snd (Relay.handler env db)))
  = map (fun r => Rows.retried 1 (Rows.retry_view r)) (Prisma.outbox db).
Proof.
  intros Hnd Hnf Hconn Hdown Hlen.
  destruct (relay_full_pass env db Hnd Hnf Hconn Hlen) as (g & Hrun & Hg).
  rewrite Hrun. cbn [snd Prisma.outbox]. rewrite map_map.
  apply map_ext_in. intros r Hr. rewrite (Hg r Hr).
  rewrite pending_view.
  unfold Rows.retry_view, Rows.retried, Relay.MAX_RETRIES.
  destruct (Prisma.published r) eqn:Hpub; simpl.
  - rewrite Hpub. reflexivity.
  - destruct (Prisma.retryCount r <? 5) eqn:Hlt.
    + apply Z.ltb_lt in Hlt.
      destruct (Relay.TOPIC_MAPPING env (Prisma.eventType r)) as [topic|].
      * destruct (Hdown (Relay.producerRecord env topic r)) as [error ->].
        simpl. rewrite Hpub. f_equal. lia.
      * simpl. rewrite Hpub. f_equal. lia.
    + apply Z.ltb_ge in Hlt. rewrite Hpub. f_equal. lia.
Qed.

Lemma relay_failing_passes_view (envs : list Relay.Env) :
  forall db,
    NoDup (map Prisma.id (Prisma.outbox db)) ->
    Forall (fun env =>
              (forall op, Prisma.db_fault (Relay.db_env env) op = false)
              /\ Relay.connect env = JS.Ok tt
              /\ (forall rec, exists error,
                    Relay.send env rec = JS.Throw error)) envs ->
    (List.length (filter Relay.pending (Prisma.outbox db))
     <= Relay.BATCH_SIZE)%nat ->
    map Rows.retry_view
        (Prisma.outbox (System.run (map System.InvokeRelay envs) db))
    = map (fun r => Rows.retried (List.length envs) (Rows.retry_view r))
          (Prisma.outbox db).
Proof.
  induction envs as [|env rest IH]; intros db Hnd Henvs Hlen.
  - cbn [map System.run fold_left List.length]. apply map_ext.
    intros r. unfold Rows.retry_view, Rows.retried, Relay.MAX_RETRIES.
    destruct (Prisma.published r); [reflexivity|]. f_equal. lia.
  - inversion Henvs as [|? ? (Hnf & Hconn & Hdown) Hrest]; subst.
    pose proof (relay_failing_pass_view env db Hnd Hnf Hconn Hdown Hlen)
      as Hone.
    cbn [map System.run fold_left System.invoke List.length].
    fold (System.run (map System.InvokeRelay rest)
            (snd (Relay.handler env db))).
    rewrite IH.
    + rewrite <- (map_map Rows.retry_view (Rows.retried (List.length rest))).
      rewrite Hone, map_map. apply map_ext. intros r. apply retried_step.
    + assert (Hfst : forall v, fst (fst (Rows.retried 1 v)) = fst (fst v))
        by (intros [[i p] c]; reflexivity).
      rewrite (view_ids (Rows.retried 1) _ _ Hfst Hone). exact Hnd.
    + exact Hrest.
    + eapply Nat.le_trans; [|exact Hlen].
      apply pending_count_after_failures, Hone.
Qed.

(** X10. Bounded retries. Over k relay passes in each of which every
    send fails (store answering, producer connected, at most 100 pending
    rows), a row's id and published flag stay, and its retry count goes
    up by one per pass as long as it is below 5: an unpublished row with
    count c ends with max c (min 5 (c + k)); a published row keeps its
    count.  After five or more such passes every unpublished row (of
    non-negative count) has retryCount >= 5: the relay tries none of
    them again. *)
Theorem relay_retries_exhaust (envs : list Relay.Env) (db : Prisma.Db) :
  NoDup (map Prisma.id (Prisma.outbox db)) ->
  Forall (fun env =>
            (forall op, Prisma.db_fault (Relay.db_env env) op = false)
            /\ Relay.connect env = JS.Ok tt
            /\ (forall rec, exists error,
                  Relay.send env rec = JS.Throw error)) envs ->
  (List.length (filter Relay.pending (Prisma.outbox db)) <= 100)%nat ->
  let db' := System.run (map System.InvokeRelay envs) db in
  let k := Z.of_nat (List.length envs) in
  map (fun r => (Prisma.id r, Prisma.published r, Prisma.retryCount r))
      (Prisma.outbox db')
  = map (fun r =>
           (Prisma.id r, Prisma.published r,
            if Prisma.published r then Prisma.retryCount r
            else Z.max (Prisma.retryCount r)
                       (Z.min 5 (Prisma.retryCount r + k))))
        (Prisma.outbox db)
  /\ (5 <= k ->
      Forall (fun r => 0 <= Prisma.retryCount r) (Prisma.outbox db) ->
      filter Relay.pending (Prisma.outbox db') = []
      /\ forall r', In r' (Prisma.outbox db') ->
           Prisma.published r' = false -> 5 <= Prisma.retryCount r').
Proof.
  intros Hnd Henvs Hlen db' k.
  pose proof (relay_failing_passes_view envs db Hnd Henvs Hlen) as Hview.
  fold db' in Hview. split; [exact Hview|].
  intros Hk Hpos.
  assert (Hstuck : forall r', In r' (Prisma.outbox db') ->
            Prisma.published r' = false -> 5 <= Prisma.retryCount r').
  { intros r' Hr' Hpub.
    pose proof (in_map Rows.retry_view _ _ Hr') as Hin.
    rewrite Hview in Hin. apply in_map_iff in Hin.
    destruct Hin as (r & Heq & Hr).
    rewrite Forall_forall in Hpos. specialize (Hpos r Hr).
    unfold Rows.retry_view, Rows.retried, Relay.MAX_RETRIES in Heq.
    injection Heq as Hid Hp Hc. rewrite <- Hp in Hpub. rewrite Hpub in Hc.
    fold k in Hc. lia. }
  split; [|exact Hstuck].
  apply filter_nothing. intros r' Hr'.
  unfold Relay.pending, Relay.MAX_RETRIES.
  destruct (Prisma.published r') eqn:Hpub; [reflexivity|].
  specialize (Hstuck r' Hr' Hpub). simpl. apply Z.ltb_ge. exact Hstuck.
Qed.

Lemma relay_retries_exhaust_witness :
  map (fun r => (Prisma.id r, Prisma.published r, Prisma.retryCount r))
      (Prisma.outbox
         (System.run
            (map System.InvokeRelay
                 [ Demo.relay_env Demo.broker_down (1 * Demo.day);
                   Demo.relay_env Demo.broker_down (2 * Demo.day);
                   Demo.relay_env Demo.broker_down (3 * Demo.day) ])
            Cases.db_pending_rows))
  = [ (0%nat, false, 3); (1%nat, false, 5); (2%nat, false, 7) ].
Proof.
  refine (eq_trans
            (proj1 (relay_retries_exhaust
                      [ Demo.relay_env Demo.broker_down (1 * Demo.day);
                        Demo.relay_env Demo.broker_down (2 * Demo.day);
                        Demo.relay_env Demo.broker_down (3 * Demo.day) ]
                      Cases.db_pending_rows _ _ _)) _).
  - repeat constructor; simpl; intuition discriminate.
  - repeat constructor; intros rec; eexists; reflexivity.
  - simpl. lia.
  - reflexivity.
Defined.

(** X11. The relay and the sweeper split the unpublished rows between
    them: a row in the relay's batch is never in the sweeper's report of
    failed events, and every unpublished row is in the report (retry
    count 5 or more), or in the batch, or waits for a later pass behind
    a full batch of 100. *)
Theorem relay_and_sweeper_split_unpublished
  (relay : Relay.Env) (sweeper : Cleanup.Env) (db : Prisma.Db) :
  Prisma.db_fault (Relay.db_env relay) Prisma.OpOutboxFindMany = false ->
  Prisma.db_fault (Cleanup.db_env sweeper) Prisma.OpOutboxFindMany = false ->
  exists batch report,
    Relay.findBatch relay db = (JS.Ok batch, db)
    /\ Cleanup.monitorFailedEvents sweeper db = (JS.Ok report, db)
    /\ (forall r, In r batch -> ~ In r report)
    /\ (forall r, In r (Prisma.outbox db) -> Prisma.published r = false ->
          In r report \/ In r batch
          \/ (List.length batch = 100%nat /\ Prisma.retryCount r < 5)).
Proof.
  intros Hr Hs.
  set (sorted := JS.sortBy Prisma.createdAt_asc
                   (filter Relay.pending (Prisma.outbox db))).
  exists (firstn Relay.BATCH_SIZE sorted),
    (JS.sortBy Prisma.createdAt_desc (filter Cleanup.stuck (Prisma.outbox db))).
  assert (Hrep : forall r,
            In r (JS.sortBy Prisma.createdAt_desc
                    (filter Cleanup.stuck (Prisma.outbox db)))
            <-> In r (Prisma.outbox db) /\ Cleanup.stuck r = true).
  { intros r. rewrite <- filter_In. split; apply Permutation_in;
      [|apply Permutation_sym]; apply sortBy_perm. }
  assert (Hsorted : forall r, In r sorted
            <-> In r (Prisma.outbox db) /\ Relay.pending r = true).
  { intros r. unfold sorted. rewrite <- filter_In. split; apply Permutation_in;
      [|apply Permutation_sym]; apply sortBy_perm. }
  split; [rewrite findBatch_run, Hr; reflexivity|].
  split; [unfold Cleanup.monitorFailedEvents, Prisma.outbox_findMany,
            Prisma.request; rewrite Hs; reflexivity|].
  split.
  - intros r Hb Hrp. apply In_firstn, Hsorted in Hb. apply Hrep in Hrp.
    destruct Hb as [_ Hp], Hrp as [_ Hst].
    apply pending_spec in Hp. apply stuck_spec in Hst.
    unfold Relay.MAX_RETRIES, Cleanup.MAX_RETRIES in *. lia.
  - intros r Hin Hpub.
    destruct (Z.lt_ge_cases (Prisma.retryCount r) 5) as [Hlt|Hge].
    + right.
      assert (Hs' : In r sorted)
        by (apply Hsorted; split; [exact Hin|];
            apply pending_spec; split; assumption).
      destruct (Nat.le_gt_cases (List.length sorted) Relay.BATCH_SIZE)
        as [Hle|Hgt].
      * left. rewrite firstn_all2 by exact Hle. exact Hs'.
      * rewrite <- (firstn_skipn Relay.BATCH_SIZE sorted) in Hs'.
        apply in_app_or in Hs'. destruct Hs' as [H|_]; [left; exact H|].
        right. split; [|exact Hlt].
        rewrite length_firstn. unfold Relay.BATCH_SIZE in *. lia.
    + left. apply Hrep. split; [exact Hin|].
      apply stuck_spec. split; [exact Hpub | exact Hge].
Qed.

Lemma relay_and_sweeper_split_unpublished_witness :
  exists batch report,
    Relay.findBatch (Demo.relay_env Demo.broker_up Demo.day)
      Cases.db_pending_rows = (JS.Ok batch, Cases.db_pending_rows)
    /\ Cleanup.monitorFailedEvents (Demo.cleanup_env Demo.day)
         Cases.db_pending_rows = (JS.Ok report, Cases.db_pending_rows)
    /\ (forall r, In r batch -> ~ In r report).
Proof.
  destruct (relay_and_sweeper_split_unpublished
              (Demo.relay_env Demo.broker_up Demo.day)
              (Demo.cleanup_env Demo.day) Cases.db_pending_rows)
    as (batch & report & Hb & Hrp & Hdis & _).
  - reflexivity.
  - reflexivity.
  - exists batch, report. split; [exact Hb|]. split; [exact Hrp | exact Hdis].
Defined.

(* ================================================================== *)
(** ** The shape of outbox rows *)
(* ================================================================== *)

Lemma apply_update_sound (data : Prisma.OutboxUpdateInput) (r : Prisma.Outbox) :
  Rows.outbox_row_sound r ->
  Rows.outbox_row_sound (Prisma.apply_update data r).
Proof.
  intros (Hty & Hev & Hpos & Herr & Hpub).
  destruct data as [t | err]; unfold Rows.outbox_row_sound; cbn.
  - repeat split; try assumption; try apply Herr; try discriminate.
  - repeat split; try assumption; try apply Hpub; try lia;
      try discriminate.
Qed.

Lemma invoke_rows_sound (i : System.Invocation) (db : Prisma.Db) :
  NoDup (map Prisma.id (Prisma.outbox db)) ->
  Forall Rows.outbox_row_sound (Prisma.outbox db) ->
  Forall Rows.outbox_row_sound (Prisma.outbox (System.invoke i db)).
Proof.
  intros Hnd Hs. destruct i as [env event | env | env]; cbn [System.invoke].
  - destruct (webhook_handler_effect env event db)
      as [E | (ok & pre & p0 & post & _ & E)]; cbv zeta in E; rewrite E;
      [exact Hs|].
    cbn [Prisma.outbox]. apply Forall_app. split; [exact Hs|].
    constructor; [|constructor].
    unfold Rows.outbox_row_sound; cbn.
    repeat split; try reflexivity; try discriminate; try lia;
      try (intros H; contradiction H; reflexivity).
    destruct ok; [left | right]; reflexivity.
  - rewrite (relay_handler_run env db Hnd).
    destruct (Relay.connect env); [|exact Hs].
    destruct (Prisma.db_fault _ Prisma.OpOutboxFindMany); [exact Hs|].
    cbn [snd Prisma.outbox]. rewrite Forall_forall in *.
    intros r' Hr'. apply in_map_iff in Hr'. destruct Hr' as (r & <- & Hr).
    unfold Relay.settle. destruct (find _ _) as [e|]; [|apply Hs, Hr].
    destruct (Relay.settledUpdate env e) as [data|]; [|apply Hs, Hr].
    apply apply_update_sound, Hs, Hr.
  - destruct (cleanup_handler_outbox env db) as (f & Ho & _). rewrite Ho.
    rewrite Forall_forall in *. intros r Hr. apply filter_In in Hr.
    apply Hs, Hr.
Qed.

(** X12. Starting from a well-formed store whose outbox rows are sound,
    every outbox row after any sequence of invocations is sound: its
    aggregate type is Payment, its event type is PAYMENT_COMPLETED or
    PAYMENT_FAILED, its retry count is not negative and is 0 exactly when
    no error is stored, and it is published exactly when publishedAt is
    set.  Hence the relay finds a topic for every row: its branch for
    unknown event types is not taken on rows the webhook created. *)
Theorem outbox_rows_stay_sound
  (invocations : list System.Invocation) (db : Prisma.Db) :
  System.well_formed db ->
  Forall (fun r =>
            Prisma.aggregateType r = "Payment"
            /\ (Prisma.eventType r = "PAYMENT_COMPLETED"
                \/ Prisma.eventType r = "PAYMENT_FAILED")
            /\ 0 <= Prisma.retryCount r
            /\ (Prisma.retryCount r = 0 <-> Prisma.lastError r = None)
            /\ (Prisma.published r = true <-> Prisma.publishedAt r <> None))
         (Prisma.outbox db) ->
  Forall (fun r =>
            Prisma.aggregateType r = "Payment"
            /\ (Prisma.eventType r = "PAYMENT_COMPLETED"
                \/ Prisma.eventType r = "PAYMENT_FAILED")
            /\ 0 <= Prisma.retryCount r
            /\ (Prisma.retryCount r = 0 <-> Prisma.lastError r = None)
            /\ (Prisma.published r = true <-> Prisma.publishedAt r <> None))
         (Prisma.outbox (System.run invocations db))
  /\ (forall env r, In r (Prisma.outbox (System.run invocations db)) ->
        Relay.TOPIC_MAPPING env (Prisma.eventType r) <> None).
Proof.
  intros Hwf Hs.
  assert (H : Forall Rows.outbox_row_sound
                (Prisma.outbox (System.run invocations db))).
  { revert db Hwf Hs.
    induction invocations as [|i rest IH]; intros db Hwf Hs; [exact Hs|].
    cbn [System.run fold_left].
    apply (IH (System.invoke i db)).
    - apply (invoke_preserves db db i). split; [exact Hwf|].
      apply evolved_refl, Hwf.
    - apply (invoke_rows_sound i db); [apply Hwf | exact Hs]. }
  split; [exact H|].
  intros env r Hr. rewrite Forall_forall in H.
  destruct (H r Hr) as (_ & [E | E] & _); unfold Relay.TOPIC_MAPPING;
    rewrite E; discriminate.
Qed.

Lemma sound_table_well_formed : System.well_formed Cases.db_sound.
Proof.
  split; [|split].
  - repeat constructor; simpl; intuition discriminate.
  - apply Forall_forall. intros r Hr. simpl in Hr.
    repeat (destruct Hr as [<- | Hr]; [simpl; lia|]). contradiction.
  - apply Forall_forall. intros r Hr. simpl in Hr.
    repeat (destruct Hr as [<- | Hr]; [simpl; congruence|]). contradiction.
Qed.

Lemma sound_table_rows : Forall Rows.outbox_row_sound (Prisma.outbox Cases.db_sound).
Proof.
  constructor; [|constructor; [|constructor]];
    unfold Rows.outbox_row_sound; cbn;
    (split; [reflexivity|]);
    (split; [first [left; reflexivity | right; reflexivity]|]);
    (split; [lia|]);
    split; split; intros H; try reflexivity; try discriminate H;
    try (contradiction H; reflexivity); try discriminate.
Qed.

Lemma outbox_rows_stay_sound_witness :
  Relay.TOPIC_MAPPING (Demo.relay_env Demo.broker_up (5 * Demo.day))
    (Prisma.eventType
       (Prisma.mkOutbox 2 "pay_1" "Payment" "PAYMENT_COMPLETED"
          [("payment_id", JS.JStr "pay_1");
           ("order_code", JS.JStr "ORD-1001");
           ("amount_cents", JS.JNum 150000);
           ("currency", JS.JStr "VND");
           ("provider", JS.JStr "ZALOPAY");
           ("transaction_id", JS.JStr "zp_77");
           ("completed_at", JS.JStr "T345600000")]
          true (Some (5 * Demo.day)) 0 None (4 * Demo.day)))
  <> None.
Proof.
  apply (proj2 (outbox_rows_stay_sound
                  [ System.InvokeWebhook
                      (Cases.webhook_env (Some "k2") (4 * Demo.day))
                      Cases.zalopay_event;
                    System.InvokeRelay
                      (Demo.relay_env Demo.broker_up (5 * Demo.day)) ]
                  Cases.db_sound sound_table_well_formed sound_table_rows)).
  vm_compute. right. right. left. reflexivity.
Defined.

(** The callback of the example, then a relay pass with the broker up:
    the payment is completed, its event is inserted with id 2 and
    published, and the row that was pending before is published too. *)
Example webhook_then_relay_on_sample :
  let db' := System.run
               [ System.InvokeWebhook
                   (Cases.webhook_env (Some "k2") (4 * Demo.day))
                   Cases.zalopay_event;
                 System.InvokeRelay
                   (Demo.relay_env Demo.broker_up (5 * Demo.day)) ]
               Cases.db_sound in
  map Prisma.p_status (Prisma.payments db') = [Prisma.COMPLETED]
  /\ map (fun r => (Prisma.id r, Prisma.eventType r, Prisma.published r,
                    Prisma.publishedAt r, Prisma.retryCount r))
         (Prisma.outbox db')
     = [ (0%nat, "PAYMENT_FAILED", true, Some (5 * Demo.day), 0);
         (1%nat, "PAYMENT_COMPLETED", true, Some (2 * Demo.day), 2);
         (2%nat, "PAYMENT_COMPLETED", true, Some (5 * Demo.day), 0) ].
Proof. vm_compute. split; reflexivity. Qed.

(* ================================================================== *)
(** ** The sweeper as a whole *)
(* ================================================================== *)

Lemma cleanup_handler_run (env : Cleanup.Env) (db : Prisma.Db) :
  Cleanup.handler env db
  = match Cleanup.cutoffDate env with
    | None =>
        (JS.Throw (JS.Error (Some "Invalid value for argument lt: Provided Date object is invalid")),
         db)
    | Some cutoff =>
        if Prisma.db_fault (Cleanup.db_env env) Prisma.OpOutboxDeleteMany
        then (JS.Throw Prisma.StorageError, db)
        else
          let db1 := Prisma.mkDb (Prisma.payments db)
                       (filter (fun r => negb (Cleanup.expired cutoff r))
                               (Prisma.outbox db))
                       (Prisma.outbox_seq db) in
          if Prisma.db_fault (Cleanup.db_env env) Prisma.OpOutboxFindMany
          then (JS.Throw Prisma.StorageError, db1)
          else (JS.Ok tt, db1)
    end.
Proof.
  unfold Cleanup.handler, Prisma.bind, Cleanup.deleteOldPublishedEvents.
  destruct (Cleanup.cutoffDate env) as [cutoff|]; [|reflexivity].
  unfold Prisma.outbox_deleteMany, Prisma.request.
  destruct (Prisma.db_fault _ Prisma.OpOutboxDeleteMany); [reflexivity|].
  unfold Cleanup.monitorFailedEvents, Prisma.outbox_findMany, Prisma.request.
  cbv zeta.
  destruct (Prisma.db_fault _ Prisma.OpOutboxFindMany); [reflexivity|].
  unfold Cleanup.publishMetrics, Prisma.ret.
  destruct (Cleanup.cloudwatch_send env _ _); reflexivity.
Qed.

(** X13. The sweeper's result and the store after it do not depend on
    CloudWatch: a failing metrics call changes neither.  The invocation
    throws with nothing deleted when the delete request fails, and also
    when the cutoff is the invalid date (RETENTION_DAYS not a number, or
    the cutoff out of the range of dates).  With a valid cutoff, which
    then is the number of days read from RETENTION_DAYS before now, and
    the delete gone through: when the report query fails the invocation
    throws with the expired rows already deleted, and otherwise it ends
    normally. *)
Theorem sweeper_outcome (env : Cleanup.Env) (db : Prisma.Db) :
  (forall cloudwatch,
     Cleanup.handler
       (Cleanup.mkEnv (Cleanup.ENV_RETENTION_DAYS env) (Cleanup.db_env env)
          (Cleanup.now env) cloudwatch) db
     = Cleanup.handler env db)
  /\ (Prisma.db_fault (Cleanup.db_env env) Prisma.OpOutboxDeleteMany = true ->
      exists e, Cleanup.handler env db = (JS.Throw e, db))
  /\ (Cleanup.cutoffDate env = None ->
      exists e, Cleanup.handler env db = (JS.Throw e, db))
  /\ (forall cutoff,
        Cleanup.cutoffDate env = Some cutoff ->
        Prisma.db_fault (Cleanup.db_env env) Prisma.OpOutboxDeleteMany = false ->
        (exists days,
           Cleanup.RETENTION_DAYS env = Some days
           /\ cutoff = Cleanup.now env - days * 86400000
           /\ Z.abs cutoff <= 8640000000000000)
        /\ exists res,
             Cleanup.handler env db
             = (res, snd (Cleanup.deleteOldPublishedEvents env db))
             /\ (res = JS.Ok tt <->
                 Prisma.db_fault (Cleanup.db_env env) Prisma.OpOutboxFindMany
                 = false)).
Proof.
  split; [|split; [|split]].
  - intros cloudwatch. rewrite !cleanup_handler_run. reflexivity.
  - intros Hf. rewrite cleanup_handler_run, Hf.
    destruct (Cleanup.cutoffDate env); eauto.
  - intros Hcut. rewrite cleanup_handler_run, Hcut. eauto.
  - intros cutoff Hcut Hf. split.
    { destruct (proj1 (cutoffDate_some env cutoff) Hcut)
        as (days & Hdays & Hc & _ & Hr).
      exists days. auto. }
    rewrite cleanup_handler_run, Hcut, Hf. cbv zeta.
    unfold Cleanup.deleteOldPublishedEvents. rewrite Hcut.
    unfold Prisma.outbox_deleteMany, Prisma.request. rewrite Hf. cbn [snd].
    destruct (Prisma.db_fault _ Prisma.OpOutboxFindMany); eexists;
      (split; [reflexivity|]); split; congruence.
Qed.

(** The sweep of the sample table with CloudWatch refusing the metrics:
    the invocation ends normally and the old published row is deleted. *)
Example sweeper_metrics_failure_on_sample :
  let out := Cleanup.handler
               (Cases.cleanup_env None (10 * Demo.day) Cases.cloudwatch_down)
               Demo.db_outbox in
  fst out = JS.Ok tt
  /\ map Prisma.id (Prisma.outbox (snd out)) = [1; 2; 3]%nat.
Proof. vm_compute. split; reflexivity. Qed.

(** X14. Whatever its surroundings, the sweeper only deletes, and only
    expired rows: every outbox row after the invocation was there before
    unchanged and in the same order, every unpublished row and every
    published row without publishedAt stays, and a row that is gone was
    published with publishedAt before the cutoff. *)
Theorem sweeper_only_deletes_expired (env : Cleanup.Env) (db : Prisma.Db) :
  let db' := snd (Cleanup.handler env db) in
  (exists keep, Prisma.outbox db' = filter keep (Prisma.outbox db))
  /\ (forall r, In r (Prisma.outbox db') -> In r (Prisma.outbox db))
  /\ (forall r, In r (Prisma.outbox db) ->
        Prisma.published r = false \/ Prisma.publishedAt r = None ->
        In r (Prisma.outbox db'))
  /\ (forall r, In r (Prisma.outbox db) -> ~ In r (Prisma.outbox db') ->
        Prisma.published r = true
        /\ exists t days,
             Cleanup.RETENTION_DAYS env = Some days
             /\ Prisma.publishedAt r = Some t
             /\ t < Cleanup.now env - days * 86400000).
Proof.
  cbv zeta. rewrite cleanup_handler_run.
  assert (Hsame : (exists keep, Prisma.outbox db = filter keep (Prisma.outbox db))
                  /\ (forall r, In r (Prisma.outbox db) -> In r (Prisma.outbox db))
                  /\ (forall r, In r (Prisma.outbox db) ->
                        Prisma.published r = false
                        \/ Prisma.publishedAt r = None ->
                        In r (Prisma.outbox db))
                  /\ (forall r, In r (Prisma.outbox db) ->
                        ~ In r (Prisma.outbox db) ->
                        Prisma.published r = true
                        /\ exists t days,
                             Cleanup.RETENTION_DAYS env = Some days
                             /\ Prisma.publishedAt r = Some t
                             /\ t < Cleanup.now env - days * 86400000)).
  { split; [exists (fun _ => true); rewrite filter_all; reflexivity|].
    split; [auto|]. split; [auto|]. intros r Hr Hn. contradiction. }
  destruct (Cleanup.cutoffDate env) as [cutoff|] eqn:Hcut; [|exact Hsame].
  destruct (Prisma.db_fault _ Prisma.OpOutboxDeleteMany); [exact Hsame|].
  assert (Hgoal :
    let rows' := filter (fun r => negb (Cleanup.expired cutoff r))
                        (Prisma.outbox db) in
    (exists keep, rows' = filter keep (Prisma.outbox db))
    /\ (forall r, In r rows' -> In r (Prisma.outbox db))
    /\ (forall r, In r (Prisma.outbox db) ->
          Prisma.published r = false \/ Prisma.publishedAt r = None ->
          In r rows')
    /\ (forall r, In r (Prisma.outbox db) -> ~ In r rows' ->
          Prisma.published r = true
          /\ exists t days,
               Cleanup.RETENTION_DAYS env = Some days
               /\ Prisma.publishedAt r = Some t
               /\ t < Cleanup.now env - days * 86400000)).
  { cbv zeta. split; [eexists; reflexivity|].
    split; [intros r Hr; apply filter_In in Hr; apply Hr|].
    split.
    - intros r Hr Hcase. apply filter_In. split; [exact Hr|].
      unfold Cleanup.expired, Prisma.date_lt.
      destruct Hcase as [-> | ->]; [reflexivity|].
      destruct (Prisma.published r); reflexivity.
    - intros r Hr Hgone.
      destruct (Cleanup.expired cutoff r) eqn:E.
      + apply expired_spec in E. destruct E as (Hpub & t & Ht & Hlt).
        split; [exact Hpub|].
        apply cutoffDate_some in Hcut.
        destruct Hcut as (days & Hdays & -> & _ & _).
        exists t, days. auto.
      + exfalso. apply Hgone. apply filter_In. split; [exact Hr|].
        rewrite E. reflexivity. }
  cbv zeta in *.
  destruct (Prisma.db_fault _ Prisma.OpOutboxFindMany); exact Hgoal.
Qed.

(* ================================================================== *)
(** ** Reading RETENTION_DAYS *)
(* ================================================================== *)

Ltac eval_digit :=
  match goal with
  | |- context [Cleanup.digit ?c] =>
      let v := eval vm_compute in (Cleanup.digit c) in
      change (Cleanup.digit c) with v
  end.

(** Reading stops at the end of the text or at a character that is not
    a digit. *)
Lemma digits_stop (acc : option Z) (tail : string) :
  match tail with
  | EmptyString => True
  | String c _ => Cleanup.digit c = None
  end ->
  Cleanup.digits acc tail = acc.
Proof.
  destruct tail as [|c rest]; [reflexivity|].
  intros H. cbn [Cleanup.digits]. rewrite H. reflexivity.
Qed.

Lemma digits_acc (d : Decimal.uint) (tail : string) :
  match tail with
  | EmptyString => True
  | String c _ => Cleanup.digit c = None
  end ->
  forall a,
    Cleanup.digits (Some (Z.pos a)) (NilEmpty.string_of_uint d ++ tail)
    = Some (Z.pos (Pos.of_uint_acc d a)).
Proof.
  intros Htail.
  induction d as [|d IH|d IH|d IH|d IH|d IH|d IH|d IH|d IH|d IH|d IH];
    intros a;
    cbn [NilEmpty.string_of_uint String.append Cleanup.digits Pos.of_uint_acc];
    [apply (digits_stop _ _ Htail)| ..];
    eval_digit; cbv iota; (etransitivity; [|apply IH]); do 2 f_equal; lia.
Qed.

Lemma digits_zero (d : Decimal.uint) (tail : string) :
  match tail with
  | EmptyString => True
  | String c _ => Cleanup.digit c = None
  end ->
  Cleanup.digits (Some 0) (NilEmpty.string_of_uint d ++ tail)
  = Some (Z.of_N (Pos.of_uint d)).
Proof.
  intros Htail.
  induction d as [|d IH|d IH|d IH|d IH|d IH|d IH|d IH|d IH|d IH|d IH];
    cbn [NilEmpty.string_of_uint String.append Cleanup.digits Pos.of_uint];
    [apply (digits_stop _ _ Htail)| ..];
    eval_digit; cbv iota;
    [exact IH | ..];
    (etransitivity; [|apply (digits_acc d tail Htail)]); reflexivity.
Qed.

(** [parseInt] on a run of decimal digits followed by other text. *)
Lemma parseInt10_digits (d : Decimal.uint) (tail : string) :
  d <> Decimal.Nil ->
  match tail with
  | EmptyString => True
  | String c _ => Cleanup.digit c = None
  end ->
  Cleanup.parseInt10 (NilEmpty.string_of_uint d ++ tail)
  = Some (Z.of_N (Pos.of_uint d))
  /\ Cleanup.parseInt10 (String "-" (NilEmpty.string_of_uint d ++ tail))
     = Some (- Z.of_N (Pos.of_uint d)).
Proof.
  intros Hd Htail.
  assert (Hnone : Cleanup.digits None (NilEmpty.string_of_uint d ++ tail)
                  = Some (Z.of_N (Pos.of_uint d))).
  { rewrite <- (digits_zero d tail Htail).
    destruct d; [contradiction Hd; reflexivity | ..];
      cbn [NilEmpty.string_of_uint String.append Cleanup.digits];
      eval_digit; reflexivity. }
  split.
  - rewrite <- Hnone.
    destruct d; [contradiction Hd; reflexivity | ..]; reflexivity.
  - unfold Cleanup.parseInt10. cbn [Cleanup.skip_spaces].
    change (Cleanup.is_space "-") with false. cbv iota.
    rewrite Hnone. reflexivity.
Qed.

Lemma to_uint_not_nil (p : positive) : Pos.to_uint p <> Decimal.Nil.
Proof.
  intros H. pose proof (DecimalPos.Unsigned.of_to p) as E.
  rewrite H in E. discriminate E.
Qed.

Lemma string_append_empty (s : string) : (s ++ "")%string = s.
Proof. induction s as [|c s IH]; simpl; [|rewrite IH]; reflexivity. Qed.

Lemma parseInt10_string_of_Z (n : Z) :
  Cleanup.parseInt10 (JS.string_of_Z n) = Some n
  /\ JS.string_of_Z n <> EmptyString.
Proof.
  unfold JS.string_of_Z. destruct n as [|p|p]; cbn [Z.to_int].
  - split; [reflexivity | discriminate].
  - cbn [NilZero.string_of_int]. unfold NilZero.string_of_uint.
    pose proof (to_uint_not_nil p) as Hnil.
    destruct (parseInt10_digits (Pos.to_uint p) "" Hnil I) as [H _].
    rewrite string_append_empty, DecimalPos.Unsigned.of_to in H.
    destruct (Pos.to_uint p); [contradiction Hnil; reflexivity | ..];
      (split; [exact H | discriminate]).
  - cbn [NilZero.string_of_int]. unfold NilZero.string_of_uint.
    pose proof (to_uint_not_nil p) as Hnil.
    destruct (parseInt10_digits (Pos.to_uint p) "" Hnil I) as [_ H].
    rewrite string_append_empty, DecimalPos.Unsigned.of_to in H.
    destruct (Pos.to_uint p); [contradiction Hnil; reflexivity | ..];
      (split; [exact H | discriminate]).
Qed.

(** [parseInt] on the decimal text of an integer followed by other
    text. *)
Lemma parseInt10_decimal (n : Z) (tail : string) :
  match tail with
  | EmptyString => True
  | String c _ => Cleanup.digit c = None
  end ->
  Cleanup.parseInt10 (JS.string_of_Z n ++ tail) = Some n.
Proof.
  intros Htail.
  unfold JS.string_of_Z. destruct n as [|p|p]; cbn [Z.to_int].
  - change (NilZero.string_of_int (Decimal.Pos Decimal.zero))
      with (NilEmpty.string_of_uint (Decimal.D0 Decimal.Nil)).
    apply (parseInt10_digits (Decimal.D0 Decimal.Nil) tail);
      [discriminate | exact Htail].
  - pose proof (to_uint_not_nil p) as Hnil.
    destruct (parseInt10_digits (Pos.to_uint p) tail Hnil Htail) as [E _].
    rewrite DecimalPos.Unsigned.of_to in E.
    cbn [NilZero.string_of_int]. unfold NilZero.string_of_uint.
    destruct (Pos.to_uint p); [contradiction Hnil; reflexivity | ..];
      exact E.
  - pose proof (to_uint_not_nil p) as Hnil.
    destruct (parseInt10_digits (Pos.to_uint p) tail Hnil Htail) as [_ E].
    rewrite DecimalPos.Unsigned.of_to in E.
    cbn [NilZero.string_of_int]. unfold NilZero.string_of_uint.
    destruct (Pos.to_uint p); [contradiction Hnil; reflexivity | ..];
      exact E.
Qed.

(** The blanks in front of the number are skipped. *)
Lemma parseInt10_blanks (blanks text : string) :
  Forall (fun c => In c [" "; "009"; "010"; "011"; "012"; "013"; "160"]%char)
         (list_ascii_of_string blanks) ->
  Cleanup.parseInt10 (blanks ++ text) = Cleanup.parseInt10 text.
Proof.
  intros Hb. unfold Cleanup.parseInt10.
  replace (Cleanup.skip_spaces (blanks ++ text))
    with (Cleanup.skip_spaces text); [reflexivity|].
  induction blanks as [|c blanks IH]; [reflexivity|].
  cbn [list_ascii_of_string] in Hb. inversion Hb as [|? ? Hc Hrest]; subst.
  cbn [String.append Cleanup.skip_spaces].
  assert (Hsp : Cleanup.is_space c = true).
  { cbn [In] in Hc.
    destruct Hc as [<-|[<-|[<-|[<-|[<-|[<-|[<-|[]]]]]]]]; reflexivity. }
  rewrite Hsp. apply IH, Hrest.
Qed.

(** X15. RETENTION_DAYS is read as [parseInt] reads it.  Unset or empty
    it is 7.  Set to the decimal text of an integer n (negative ones
    too, here up to a million days either way), also with blanks before
    it (TAB, LF, VT, FF, CR, SP, NBSP) and other text after the digits,
    it is n, and the cutoff is n days of 86400000 ms before now.  A
    text whose first character after the blanks is no sign and no digit
    gives NaN and the invalid date; so does a number of days that takes
    the cutoff out of the range of dates. *)
Theorem retention_days_from_env (env : Cleanup.Env) (n : Z)
  (blanks tail : string) :
  -1000000 <= n <= 1000000 ->
  Z.abs (Cleanup.now env) <= 8000000000000000 ->
  Forall (fun c => In c [" "; "009"; "010"; "011"; "012"; "013"; "160"]%char)
         (list_ascii_of_string blanks) ->
  match tail with
  | EmptyString => True
  | String c _ => Cleanup.digit c = None
  end ->
  (Cleanup.ENV_RETENTION_DAYS env = None
   \/ Cleanup.ENV_RETENTION_DAYS env = Some "" ->
   Cleanup.RETENTION_DAYS env = Some 7
   /\ Cleanup.cutoffDate env = Some (Cleanup.now env - 7 * 86400000))
  /\ (Cleanup.ENV_RETENTION_DAYS env
      = Some (blanks ++ JS.string_of_Z n ++ tail) ->
      Cleanup.RETENTION_DAYS env = Some n
      /\ Cleanup.cutoffDate env = Some (Cleanup.now env - n * 86400000))
  /\ (forall c rest,
        Cleanup.ENV_RETENTION_DAYS env = Some (blanks ++ String c rest) ->
        ~ In c [" "; "009"; "010"; "011"; "012"; "013"; "160"]%char ->
        c <> "-"%char -> c <> "+"%char ->
        Cleanup.digit c = None ->
        Cleanup.RETENTION_DAYS env = None
        /\ Cleanup.cutoffDate env = None)
  /\ (forall days,
        Cleanup.RETENTION_DAYS env = Some days ->
        8640000000000000 < Z.abs (Cleanup.now env - days * 86400000) ->
        Cleanup.cutoffDate env = None).
Proof.
  intros Hn Hnow Hblanks Htail.
  assert (Hcut : forall days,
            Cleanup.RETENTION_DAYS env = Some days ->
            -1000000 <= days <= 1000000 ->
            Cleanup.cutoffDate env
            = Some (Cleanup.now env - days * 86400000)).
  { intros days Hdays Hrange. apply cutoffDate_some. exists days.
    split; [exact Hdays|]. split; [reflexivity|]. lia. }
  split; [|split; [|split]].
  - intros H.
    assert (Hdays : Cleanup.RETENTION_DAYS env = Some 7)
      by (unfold Cleanup.RETENTION_DAYS; destruct H as [-> | ->];
          reflexivity).
    split; [exact Hdays | apply Hcut; [exact Hdays | lia]].
  - intros H.
    assert (Hne : JS.truthy_str (blanks ++ JS.string_of_Z n ++ tail) = true).
    { apply truthy_str_true. intros E.
      destruct (parseInt10_string_of_Z n) as [_ Hnz].
      destruct blanks; [|discriminate E]. cbn [String.append] in E.
      destruct (JS.string_of_Z n); [contradiction Hnz; reflexivity|].
      discriminate E. }
    assert (Hdays : Cleanup.RETENTION_DAYS env = Some n).
    { unfold Cleanup.RETENTION_DAYS. rewrite H, Hne.
      rewrite (parseInt10_blanks _ _ Hblanks).
      apply parseInt10_decimal, Htail. }
    split; [exact Hdays | apply Hcut; assumption].
  - intros c rest H Hsp Hminus Hplus Hdig.
    assert (Hdays : Cleanup.RETENTION_DAYS env = None).
    { unfold Cleanup.RETENTION_DAYS. rewrite H.
      assert (Hne : JS.truthy_str (blanks ++ String c rest) = true)
        by (apply truthy_str_true; destruct blanks; discriminate).
      rewrite Hne, (parseInt10_blanks _ _ Hblanks).
      unfold Cleanup.parseInt10. cbn [Cleanup.skip_spaces].
      assert (Hns : Cleanup.is_space c = false).
      { destruct (Cleanup.is_space c) eqn:E; [|reflexivity].
        exfalso. apply Hsp. cbn [In].
        destruct c as [b0 b1 b2 b3 b4 b5 b6 b7].
        destruct b0, b1, b2, b3, b4, b5, b6, b7; try discriminate E; tauto. }
      rewrite Hns.
      assert (E : Cleanup.digits None (String c rest) = None)
        by (cbn [Cleanup.digits]; rewrite Hdig; reflexivity).
      destruct c as [b0 b1 b2 b3 b4 b5 b6 b7].
      destruct b0, b1, b2, b3, b4, b5, b6, b7;
        try exact E; exfalso;
        first [apply Hminus; reflexivity | apply Hplus; reflexivity]. }
    split; [exact Hdays|].
    unfold Cleanup.cutoffDate. rewrite Hdays.
    destruct (Cleanup.timeClip (Cleanup.now env)); reflexivity.
  - intros days Hdays Hout.
    destruct (Cleanup.cutoffDate env) as [cutoff|] eqn:E; [|reflexivity].
    apply cutoffDate_some in E.
    destruct E as (days' & Hdays' & -> & _ & Hc).
    rewrite Hdays in Hdays'. injection Hdays' as <-. lia.
Qed.

Lemma retention_days_from_env_witness :
  Cleanup.RETENTION_DAYS
    (Cases.cleanup_env (Some " 30 days") 0 Cases.cloudwatch_down)
  = Some 30
  /\ Cleanup.cutoffDate
       (Cases.cleanup_env (Some " 30 days") 0 Cases.cloudwatch_down)
     = Some (- (30 * 86400000)).
Proof.
  apply (proj1 (proj2 (retention_days_from_env
                         (Cases.cleanup_env (Some " 30 days") 0
                            Cases.cloudwatch_down)
                         30 " " " days" ltac:(lia) ltac:(vm_compute; discriminate)
                         ltac:(repeat constructor) eq_refl))).
  reflexivity.
Defined.

(* ================================================================== *)
(** ** The stored error text and the extracted order code *)
(* ================================================================== *)

Lemma substring0_prefix (n : nat) (s : string) :
  String.prefix (String.substring 0 n s) s = true.
Proof.
  revert n. induction s as [|c s IH]; intros [|n]; simpl; try reflexivity.
  destruct (ascii_dec c c) as [_|H]; [apply IH | contradiction H; reflexivity].
Qed.

Lemma substring0_length (n : nat) (s : string) :
  String.length (String.substring 0 n s) = Nat.min n (String.length s).
Proof.
  revert n. induction s as [|c s IH]; intros [|n]; simpl; try reflexivity.
  rewrite IH. reflexivity.
Qed.

Lemma substring0_all (n : nat) (s : string) :
  (String.length s <= n)%nat -> String.substring 0 n s = s.
Proof.
  revert n. induction s as [|c s IH]; intros [|n]; simpl; intros H;
    try reflexivity; try lia.
  rewrite IH by lia. reflexivity.
Qed.

(** X16. The error text the relay stores for a failed publish is never
    empty and never longer than 500 characters: it is the first 500
    characters of the error's message (the whole message when that has
    at most 500), and the fixed text [Unknown error] when the error has
    no message or an empty one. *)
Theorem relay_error_text (error : JS.exn) :
  Relay.errorText error <> EmptyString
  /\ (String.length (Relay.errorText error) <= 500)%nat
  /\ (forall m, JS.message error = Some m -> m <> EmptyString ->
        String.prefix (Relay.errorText error) m = true
        /\ String.length (Relay.errorText error)
           = Nat.min 500 (String.length m)
        /\ ((String.length m <= 500)%nat -> Relay.errorText error = m))
  /\ (JS.message error = None \/ JS.message error = Some "" ->
      Relay.errorText error = "Unknown error").
Proof.
  split; [apply errorText_bounded|]. split; [apply errorText_bounded|].
  split.
  - intros m Hm Hne. unfold Relay.errorText, JS.substring0. rewrite Hm.
    assert (Ht : JS.truthy_str (String.substring 0 500 m) = true).
    { apply truthy_str_true. destruct m as [|c m]; [contradiction Hne; reflexivity|].
      discriminate. }
    rewrite Ht. split; [apply substring0_prefix|].
    split; [apply substring0_length | apply substring0_all].
  - intros [H | H]; unfold Relay.errorText; rewrite H; reflexivity.
Qed.

(** A string either has no separator, or splits at its first one. *)
Lemma split_first (sep : ascii) (s : string) :
  (JS.has_char sep s = false /\ JS.split sep s = [s])
  \/ (exists p rest,
        s = (p ++ String sep rest)%string /\ JS.has_char sep p = false /\
        JS.split sep s = p :: JS.split sep rest).
Proof.
  induction s as [|c s IH].
  - left. split; reflexivity.
  - destruct (Ascii.eqb c sep) eqn:E.
    + right. apply Ascii.eqb_eq in E. subst c. exists EmptyString, s.
      split; [reflexivity|]. split; [reflexivity|].
      simpl. rewrite Ascii.eqb_refl. reflexivity.
    + destruct IH as [[Hno Hs] | (p & rest & -> & Hp & Hs)].
      * left. split; [simpl; rewrite E, Hno; reflexivity|].
        simpl. rewrite E, Hs. reflexivity.
      * right. exists (String c p), rest.
        split; [reflexivity|]. split; [simpl; rewrite E, Hp; reflexivity|].
        simpl. rewrite E, Hs. reflexivity.
Qed.

(** X17. What the ZaloPay verifier makes of [app_trans_id]: no order
    code when the field is missing or null; a thrown TypeError when it
    is a number, a boolean, an array or an object; and for a string
    either the whole string, or a non-empty piece without underscore
    that follows the first underscore and ends at the second one or at
    the end of the string. *)
Theorem zalopay_order_code_of_field (app_trans_id : JS.jsval) :
  match app_trans_id with
  | JS.JUndefined | JS.JNull =>
      Webhook.zaloPayOrderCode app_trans_id = JS.Ok None
  | JS.JStr t =>
      exists oc,
        Webhook.zaloPayOrderCode app_trans_id = JS.Ok (Some oc)
        /\ (oc = t
            \/ (oc <> EmptyString /\ JS.has_char "_" oc = false
                /\ exists p rest,
                     t = (p ++ String "_" (oc ++ rest))%string
                     /\ JS.has_char "_" p = false
                     /\ (rest = EmptyString
                         \/ exists rest', rest = String "_" rest')))
  | _ => exists e, Webhook.zaloPayOrderCode app_trans_id = JS.Throw e
  end.
Proof.
  destruct app_trans_id as [| |b|n|t|l|fields]; try reflexivity;
    try (eexists; reflexivity).
  unfold Webhook.zaloPayOrderCode.
  destruct (split_first "_" t) as [[_ Hs] | (p & rest & Ht & Hp & Hs)].
  - rewrite Hs. exists t. split; [reflexivity | left; reflexivity].
  - rewrite Hs. cbn [nth_error].
    assert (Hseg : exists q tail,
              JS.split "_" rest = q :: tail /\ JS.has_char "_" q = false
              /\ exists rest0, rest = (q ++ rest0)%string
                   /\ (rest0 = EmptyString
                       \/ exists rest', rest0 = String "_" rest')).
    { destruct (split_first "_" rest) as [[Hno Hr] | (q & r' & Hr & Hq & Hsr)].
      - exists rest, []. split; [exact Hr|]. split; [exact Hno|].
        exists EmptyString. split; [symmetry; apply string_append_empty|].
        left. reflexivity.
      - exists q, (JS.split "_" r'). split; [exact Hsr|]. split; [exact Hq|].
        exists (String "_" r'). split; [exact Hr|]. right. eauto. }
    destruct Hseg as (q & tail & Hq & Hnoq & rest0 & Hrest & Hrest0).
    rewrite Hq. destruct (JS.truthy_str q) eqn:Hty.
    + exists q. split; [reflexivity|]. right.
      split; [apply truthy_str_true, Hty|]. split; [exact Hnoq|].
      exists p, rest0. rewrite Ht, Hrest. auto.
    + exists t. split; [reflexivity | left; reflexivity].
Qed.

(* ================================================================== *)
(** ** Answers to callbacks that are not recorded *)
(* ================================================================== *)

(** X18. A callback that the verifier turns down is answered with HTTP
    status 200 all the same, carrying the verifier's response and
    leaving the store as it was.  In particular an event without a body
    is taken as the empty object: on a zalopay route it gets
    [{return_code: -1}], on a payos route [{error: Invalid payload}],
    and on any other route status 400; when [zalopay] occurs in the
    route, the ZaloPay verifier is used even if [payos] occurs too. *)
Theorem webhook_rejected_callback_gets_200 (env : Webhook.Env)
  (event : Webhook.APIGatewayProxyEvent) (db : Prisma.Db) :
  let path := Webhook.or_empty
                (match Webhook.ev_path event with
                 | Some p => if JS.truthy_str p then Some p
                             else Webhook.ev_http_path event
                 | None => Webhook.ev_http_path event
                 end) in
  (forall body provider r,
     (match Webhook.ev_body event with
      | Some b => if JS.truthy_str b
                  then Webhook.JSON_parse (Webhook.runtime env) b
                  else JS.Ok (JS.JObj [])
      | None => JS.Ok (JS.JObj [])
      end) = JS.Ok body ->
     provider = (if JS.includes "zalopay" path then Webhook.ZALOPAY
                 else Webhook.PAYOS) ->
     JS.includes "zalopay" path = true \/ JS.includes "payos" path = true ->
     Webhook.verifyAndParseCallback env provider body = JS.Ok r ->
     Webhook.orderCode r = None \/ Webhook.orderCode r = Some "" ->
     Webhook.handler env event db
     = (JS.Ok (Webhook.mkResult 200 (Webhook.response r)), db))
  /\ (Webhook.ev_body event = None \/ Webhook.ev_body event = Some "" ->
      Webhook.handler env event db
      = (JS.Ok
           (if JS.includes "zalopay" path
            then Webhook.mkResult 200 (JS.JObj [("return_code", JS.JNum (-1))])
            else if JS.includes "payos" path
            then Webhook.mkResult 200
                   (JS.JObj [("error", JS.JStr "Invalid payload")])
            else Webhook.mkResult 400
                   (JS.JObj [("error", JS.JStr "Unknown payment provider")])),
         db)).
Proof.
  cbv zeta.
  set (path := Webhook.or_empty _).
  assert (Hrej : forall body provider r,
            Webhook.verifyAndParseCallback env provider body = JS.Ok r ->
            Webhook.orderCode r = None \/ Webhook.orderCode r = Some "" ->
            Webhook.handleCallback env provider body db
            = (JS.Ok (Webhook.response r), db)).
  { intros body provider r Hv Hoc. rewrite handleCallback_run, Hv.
    destruct Hoc as [-> | ->]; reflexivity. }
  split.
  - intros body provider r Hbody Hprov Hroute Hv Hoc.
    specialize (Hrej body provider r Hv Hoc).
    unfold Webhook.handler, Prisma.try_catch, Prisma.bind, Prisma.lift,
      Prisma.ret.
    fold path. rewrite Hbody.
    destruct (JS.includes "zalopay" path) eqn:Hz.
    + subst provider. rewrite Hrej. reflexivity.
    + destruct Hroute as [H | H]; [discriminate H|]. rewrite H.
      subst provider. rewrite Hrej. reflexivity.
  - intros Hnone.
    assert (Hbody : (match Webhook.ev_body event with
                     | Some b => if JS.truthy_str b
                                 then Webhook.JSON_parse (Webhook.runtime env) b
                                 else JS.Ok (JS.JObj [])
                     | None => JS.Ok (JS.JObj [])
                     end) = JS.Ok (JS.JObj []))
      by (destruct Hnone as [-> | ->]; reflexivity).
    unfold Webhook.handler, Prisma.try_catch, Prisma.bind, Prisma.lift,
      Prisma.ret.
    fold path. rewrite Hbody.
    destruct (JS.includes "zalopay" path).
    + rewrite (Hrej (JS.JObj []) Webhook.ZALOPAY Webhook.zaloPayRejected);
        [reflexivity | reflexivity | left; reflexivity].
    + destruct (JS.includes "payos" path); [|reflexivity].
      rewrite (Hrej (JS.JObj []) Webhook.PAYOS
                 (Webhook.mkCallbackResult None false
                    (JS.JObj [("error", JS.JStr "Invalid payload")])));
        [reflexivity | reflexivity | left; reflexivity].
Qed.

(* ================================================================== *)
(** ** Topics, the report's order, the event columns *)
(* ================================================================== *)

(** X19. What the relay finds in its topic mapping.  PAYMENT_COMPLETED
    goes to KAFKA_TOPIC_PAYMENT_COMPLETED and PAYMENT_FAILED to
    KAFKA_TOPIC_PAYMENT_FAILED, each with its default
    ([payment.completed], [payment.failed]) when the variable is unset
    or empty, so that a topic name is never the empty string.  For the
    twelve property names of [Object.prototype] the lookup finds the
    inherited member, which is truthy: a row with such an event type is
    not skipped as unknown but sent, with that member as the topic.  For
    every other name the lookup finds nothing. *)
Theorem relay_topics (env : Relay.Env) (eventType : string) :
  let inherited :=
    [ "constructor"; "__defineGetter__"; "__defineSetter__";
      "hasOwnProperty"; "__lookupGetter__"; "__lookupSetter__";
      "isPrototypeOf"; "propertyIsEnumerable"; "toString"; "valueOf";
      "__proto__"; "toLocaleString" ] in
  Relay.TOPIC_MAPPING env "PAYMENT_COMPLETED"
  = Some (Relay.TopicName
            (match Relay.KAFKA_TOPIC_PAYMENT_COMPLETED env with
             | Some (String c t) => String c t
             | _ => "payment.completed"
             end))
  /\ Relay.TOPIC_MAPPING env "PAYMENT_FAILED"
     = Some (Relay.TopicName
               (match Relay.KAFKA_TOPIC_PAYMENT_FAILED env with
                | Some (String c t) => String c t
                | _ => "payment.failed"
                end))
  /\ (In eventType inherited ->
      Relay.TOPIC_MAPPING env eventType = Some (Relay.Inherited eventType))
  /\ (eventType <> "PAYMENT_COMPLETED" -> eventType <> "PAYMENT_FAILED" ->
      ~ In eventType inherited ->
      Relay.TOPIC_MAPPING env eventType = None)
  /\ (forall name,
        Relay.TOPIC_MAPPING env eventType = Some (Relay.TopicName name) ->
        name <> EmptyString
        /\ (eventType = "PAYMENT_COMPLETED" \/ eventType = "PAYMENT_FAILED"))
  /\ (forall event,
        Prisma.eventType event = eventType ->
        In eventType inherited ->
        Relay.publishEvent env event
        = Prisma.try_catch
            (_ <- Prisma.lift
                    (Relay.send env
                       (Relay.mkProducerRecord (Relay.Inherited eventType)
                          (Prisma.aggregateId event) (Prisma.payload event)
                          [ ("eventType", eventType);
                            ("eventVersion", "1.0");
                            ("source", "payment-service");
                            ("correlationId", Prisma.aggregateId event);
                            ("messageId",
                             Relay.randomUUID env (Prisma.id event)) ])) ;;
             _ <- Prisma.outbox_update (Relay.db_env env) (Prisma.id event)
                    (Prisma.SetPublished (Relay.now env event)) ;;
             Prisma.ret tt)
            (fun error =>
               _ <- Prisma.outbox_update (Relay.db_env env) (Prisma.id event)
                      (Prisma.IncrementRetry (Relay.errorText error)) ;;
               Prisma.throw error)).
Proof.
  cbv zeta. fold Relay.Object_prototype.
  assert (Hdef : forall v dflt, dflt <> EmptyString ->
            Relay.or_default v dflt <> EmptyString).
  { intros [s|] dflt Hd; unfold Relay.or_default; [|exact Hd].
    destruct (JS.truthy_str s) eqn:E; [apply truthy_str_true, E | exact Hd]. }
  assert (Hinh : In eventType Relay.Object_prototype ->
            Relay.TOPIC_MAPPING env eventType = Some (Relay.Inherited eventType)).
  { intros Hin. unfold Relay.TOPIC_MAPPING.
    assert (K : existsb (String.eqb eventType) Relay.Object_prototype = true)
      by (apply existsb_exists; exists eventType;
          split; [exact Hin | apply String.eqb_refl]).
    rewrite K.
    cbn [Relay.Object_prototype In] in Hin.
    repeat (destruct Hin as [<- | Hin]; [reflexivity|]). contradiction. }
  split; [|split; [|split; [|split; [|split]]]].
  - unfold Relay.TOPIC_MAPPING, Relay.or_default. cbn [String.eqb].
    destruct (Relay.KAFKA_TOPIC_PAYMENT_COMPLETED env) as [[|c t]|];
      reflexivity.
  - unfold Relay.TOPIC_MAPPING, Relay.or_default.
    destruct (Relay.KAFKA_TOPIC_PAYMENT_FAILED env) as [[|c t]|];
      reflexivity.
  - exact Hinh.
  - intros H1 H2 H3. apply TOPIC_MAPPING_none. auto.
  - unfold Relay.TOPIC_MAPPING. intros name.
    destruct (String.eqb_spec eventType "PAYMENT_COMPLETED") as [E1|E1].
    { intros H; injection H as <-. split; [apply Hdef; discriminate | auto]. }
    destruct (String.eqb_spec eventType "PAYMENT_FAILED") as [E2|E2].
    { intros H; injection H as <-. split; [apply Hdef; discriminate | auto]. }
    destruct (existsb _ _); discriminate.
  - intros event Hev Hin. rewrite publishEvent_branches, Hev, (Hinh Hin).
    unfold Relay.producerRecord. rewrite Hev. reflexivity.
Qed.

Lemma createdAt_desc_total (a b : Prisma.Outbox) :
  Prisma.createdAt_desc a b = true \/ Prisma.createdAt_desc b a = true.
Proof. unfold Prisma.createdAt_desc. lia. Qed.

Lemma createdAt_desc_trans (a b c : Prisma.Outbox) :
  Prisma.createdAt_desc a b = true -> Prisma.createdAt_desc b c = true ->
  Prisma.createdAt_desc a c = true.
Proof. unfold Prisma.createdAt_desc. lia. Qed.

(** X20. The sweeper's report of failed events comes newest first
    (descending createdAt), holds each stuck row as often as the table
    does, and the query leaves the store as it is; when the store fails
    the report is not produced. *)
Theorem sweeper_report_newest_first (env : Cleanup.Env) (db : Prisma.Db) :
  if Prisma.db_fault (Cleanup.db_env env) Prisma.OpOutboxFindMany
  then Cleanup.monitorFailedEvents env db = (JS.Throw Prisma.StorageError, db)
  else exists report,
         Cleanup.monitorFailedEvents env db = (JS.Ok report, db)
         /\ StronglySorted
              (fun a b => Prisma.createdAt b <= Prisma.createdAt a) report
         /\ Permutation report
              (filter (fun r => negb (Prisma.published r)
                                && (5 <=? Prisma.retryCount r))
                      (Prisma.outbox db)).
Proof.
  unfold Cleanup.monitorFailedEvents, Prisma.outbox_findMany, Prisma.request.
  destruct (Prisma.db_fault _ Prisma.OpOutboxFindMany); [reflexivity|].
  eexists. split; [reflexivity|]. split; [|apply sortBy_perm].
  eapply StronglySorted_ind with
    (P := StronglySorted (fun a b => Prisma.createdAt b <= Prisma.createdAt a));
    [constructor | | apply (sortBy_sorted Prisma.createdAt_desc
                              createdAt_desc_total createdAt_desc_trans)].
  intros a l _ IH Hall. constructor; [exact IH|].
  eapply Forall_impl; [|exact Hall].
  intros b Hb. unfold Prisma.createdAt_desc in Hb. lia.
Qed.

(** An event without a body on a zalopay route. *)
Example webhook_event_without_body :
  Webhook.handler (Demo.webhook_env (Some "k2") 1000)
    (Webhook.mkEvent None (Some "/payments/webhook/zalopay") None)
    Demo.db_pending
  = (JS.Ok (Webhook.mkResult 200 (JS.JObj [("return_code", JS.JNum (-1))])),
     Demo.db_pending).
Proof. vm_compute. reflexivity. Qed.

Lemma settle_event_columns (env : Relay.Env) (batch : list Prisma.Outbox)
  (r : Prisma.Outbox) :
  Rows.event_columns (Relay.settle env batch r) = Rows.event_columns r.
Proof.
  unfold Relay.settle. destruct (find _ batch) as [e|]; [|reflexivity].
  destruct (Relay.settledUpdate env e) as [[t|err]|]; reflexivity.
Qed.

Lemma invoke_event_columns (db0 db : Prisma.Db) (i : System.Invocation) :
  System.well_formed db /\ System.evolved db0 db ->
  (forall r0 r, In r0 (Prisma.outbox db0) -> In r (Prisma.outbox db) ->
     Prisma.id r0 = Prisma.id r ->
     Rows.event_columns r = Rows.event_columns r0) ->
  forall r0 r, In r0 (Prisma.outbox db0) ->
    In r (Prisma.outbox (System.invoke i db)) ->
    Prisma.id r0 = Prisma.id r ->
    Rows.event_columns r = Rows.event_columns r0.
Proof.
  intros [(Hnd & _ & _) (Hlt0 & _)] Hcols r0 r Hr0 Hr Hid.
  destruct i as [env event | env | env]; cbn [System.invoke] in Hr.
  - destruct (webhook_handler_outbox env event db)
      as [[Ho _] | (row & Ho & Hrow & _ & _)]; rewrite Ho in Hr.
    + apply (Hcols r0 r Hr0 Hr Hid).
    + apply in_app_or in Hr. destruct Hr as [Hr | [<- | []]].
      * apply (Hcols r0 r Hr0 Hr Hid).
      * exfalso. rewrite Forall_forall in Hlt0. specialize (Hlt0 r0 Hr0). lia.
  - rewrite (relay_handler_run env db Hnd) in Hr.
    destruct (Relay.connect env); [|apply (Hcols r0 r Hr0 Hr Hid)].
    destruct (Prisma.db_fault _ Prisma.OpOutboxFindMany);
      [apply (Hcols r0 r Hr0 Hr Hid)|].
    cbn [snd Prisma.outbox] in Hr. apply in_map_iff in Hr.
    destruct Hr as (r1 & <- & Hr1).
    rewrite settle_event_columns. rewrite settle_id in Hid.
    apply (Hcols r0 r1 Hr0 Hr1 Hid).
  - destruct (cleanup_handler_outbox env db) as (f & Ho & _).
    rewrite Ho in Hr. apply filter_In in Hr.
    apply (Hcols r0 r Hr0 (proj1 Hr) Hid).
Qed.

(** X21. The event an outbox row stands for never changes: over any
    sequence of invocations starting from a well-formed store, a row
    with the id of an earlier row has the same aggregateId,
    aggregateType, eventType, payload and createdAt.  The payload is the
    snapshot the webhook took; later changes of the payment do not reach
    it. *)
Theorem outbox_event_columns_fixed
  (invocations : list System.Invocation) (db : Prisma.Db) :
  System.well_formed db ->
  forall r r',
    In r (Prisma.outbox db) ->
    In r' (Prisma.outbox (System.run invocations db)) ->
    Prisma.id r = Prisma.id r' ->
    (Prisma.aggregateId r', Prisma.aggregateType r', Prisma.eventType r',
     Prisma.payload r', Prisma.createdAt r')
    = (Prisma.aggregateId r, Prisma.aggregateType r, Prisma.eventType r,
       Prisma.payload r, Prisma.createdAt r).
Proof.
  intros Hwf.
  assert (H : forall db1,
            System.well_formed db1 /\ System.evolved db db1 ->
            (forall r0 r, In r0 (Prisma.outbox db) -> In r (Prisma.outbox db1) ->
               Prisma.id r0 = Prisma.id r ->
               Rows.event_columns r = Rows.event_columns r0) ->
            forall r0 r, In r0 (Prisma.outbox db) ->
              In r (Prisma.outbox (System.run invocations db1)) ->
              Prisma.id r0 = Prisma.id r ->
              Rows.event_columns r = Rows.event_columns r0).
  { induction invocations as [|i rest IH]; intros db1 Hinv Hcols;
      [exact Hcols|].
    cbn [System.run fold_left].
    apply (IH (System.invoke i db1)).
    - apply invoke_preserves, Hinv.
    - apply (invoke_event_columns db db1 i Hinv Hcols). }
  intros r r' Hr Hr' Hid.
  apply (H db (conj Hwf (evolved_refl db Hwf))); try assumption.
  intros r0 r1 Hr0 Hr1 Hid01.
  destruct Hwf as (Hnd & _ & _).
  rewrite (In_same_id (Prisma.outbox db) r0 r1 Hnd Hr0 Hr1 Hid01).
  reflexivity.
Qed.

Lemma outbox_event_columns_fixed_witness :
  (Prisma.aggregateId
     (Prisma.mkOutbox 0 "pay_1" "Payment" "PAYMENT_FAILED" [] true
        (Some (5 * Demo.day)) 0 None (1 * Demo.day)),
   Prisma.aggregateType
     (Prisma.mkOutbox 0 "pay_1" "Payment" "PAYMENT_FAILED" [] true
        (Some (5 * Demo.day)) 0 None (1 * Demo.day)),
   Prisma.eventType
     (Prisma.mkOutbox 0 "pay_1" "Payment" "PAYMENT_FAILED" [] true
        (Some (5 * Demo.day)) 0 None (1 * Demo.day)),
   Prisma.payload
     (Prisma.mkOutbox 0 "pay_1" "Payment" "PAYMENT_FAILED" [] true
        (Some (5 * Demo.day)) 0 None (1 * Demo.day)),
   Prisma.createdAt
     (Prisma.mkOutbox 0 "pay_1" "Payment" "PAYMENT_FAILED" [] true
        (Some (5 * Demo.day)) 0 None (1 * Demo.day)))
  = ("pay_1", "Payment", "PAYMENT_FAILED", [], 1 * Demo.day).
Proof.
  apply (outbox_event_columns_fixed
           [ System.InvokeWebhook
               (Cases.webhook_env (Some "k2") (4 * Demo.day))
               Cases.zalopay_event;
             System.InvokeRelay (Demo.relay_env Demo.broker_up (5 * Demo.day)) ]
           Cases.db_sound sound_table_well_formed
           (Prisma.mkOutbox 0 "pay_1" "Payment" "PAYMENT_FAILED" [] false None
              0 None (1 * Demo.day))).
  - left. reflexivity.
  - vm_compute. left. reflexivity.
  - reflexivity.
Defined.
